(** * LocalTalk validation scripts: a shallow embedding and its properties

    The development follows three scripts of the repository:
    - [find-braces.py]                 (module [FindBraces]),
    - [tests/code-standards-validator.py] (module [Standards]),
    - [run-all-tests.py]               (module [Runner]).

    All three are pattern matching and counting over text.  Text is a list
    of 8-bit code points; the character tables of [PyStr] are Python's
    Unicode tables restricted to that range.  Regular expressions are run
    by a backtracking matcher ([Re]) with the priorities of Python's [re]
    module: greedy repetition tries one more iteration first, lazy
    repetition tries the continuation first, alternation tries its left
    branch first, and a search tries start positions from left to right. *)

From Stdlib Require Import List Ascii String ZArith Lia Bool Arith.
From Stdlib Require Import DecimalString Floats Uint63 Sorted Permutation.
Import ListNotations.

Definition text := list ascii.

Definition txt (s : string) : text := list_ascii_of_string s.

Definition nl : ascii := "010"%char.

(** The double quote character. *)
Definition dq : ascii := "034"%char.

(** ** Python string operations used by the scripts *)
Module PyStr.

Definition code (c : ascii) : N := N_of_ascii c.

Definition between (lo hi : N) (c : ascii) : bool :=
  (N.leb lo (code c) && N.leb (code c) hi)%bool.

(** [str.isspace] on one character, which is also what [\s] matches. *)
Definition isspace (c : ascii) : bool :=
  (between 9 13 c || between 28 32 c || between 133 133 c
   || between 160 160 c)%bool.

(** Decimal digits, what [\d] matches. *)
Definition isdecimal (c : ascii) : bool := between 48 57 c.

(** [str.isalnum] on one character. *)
Definition isalnum (c : ascii) : bool :=
  (between 48 57 c || between 65 90 c || between 97 122 c
   || between 170 170 c || between 178 179 c || between 181 181 c
   || between 185 186 c || between 188 190 c || between 192 214 c
   || between 216 246 c || between 248 255 c)%bool.

(** What [\w] matches: alphanumerics and the underscore. *)
Definition isword (c : ascii) : bool := (isalnum c || between 95 95 c)%bool.

Definition lower_char (c : ascii) : ascii :=
  if (between 65 90 c || between 192 214 c || between 216 222 c)%bool
  then ascii_of_N (code c + 32) else c.

Definition upper_ascii_char (c : ascii) : ascii :=
  if between 97 122 c then ascii_of_N (code c - 32) else c.

(** [str.lower] *)
Definition lower (s : text) : text := map lower_char s.

(** [str.capitalize], exact when the first character is not one of the
    three lower-case letters of the range whose capital lies outside it;
    its only caller passes identifiers that start with [a-z]. *)
Definition capitalize (s : text) : text :=
  match s with
  | [] => []
  | c :: s' => upper_ascii_char c :: lower s'
  end.

Fixpoint lstrip (s : text) : text :=
  match s with
  | c :: s' => if isspace c then lstrip s' else s
  | [] => []
  end.

Definition rstrip (s : text) : text := rev (lstrip (rev s)).

(** [str.strip] with no argument *)
Definition strip (s : text) : text := rstrip (lstrip s).

(** [str.split(sep)] for a one-character separator *)
Fixpoint split (sep : ascii) (s : text) : list text :=
  match s with
  | [] => [[]]
  | c :: s' =>
      if Ascii.eqb c sep then [] :: split sep s'
      else match split sep s' with
           | l :: ls => (c :: l) :: ls
           | [] => [[c]]
           end
  end.

(** [f.readlines()] of a text file whose whole content is [s]: the lines,
    each with its terminating newline. *)
Fixpoint readlines (s : text) : list text :=
  match s with
  | [] => []
  | c :: s' =>
      if Ascii.eqb c nl then [c] :: readlines s'
      else match readlines s' with
           | l :: ls => (c :: l) :: ls
           | [] => [[c]]
           end
  end.

(** [str.startswith] *)
Fixpoint startswith (p s : text) : bool :=
  match p, s with
  | [], _ => true
  | a :: p', b :: s' => (Ascii.eqb a b && startswith p' s')%bool
  | _ :: _, [] => false
  end.

Fixpoint count_from (needle : text) (skip : nat) (s : text) : nat :=
  match s with
  | [] => 0
  | _ :: s' =>
      match skip with
      | S k => count_from needle k s'
      | O => if startswith needle s
             then S (count_from needle (List.length needle - 1) s')
             else count_from needle 0 s'
      end
  end.

(** [str.count(needle)] for a non-empty needle: occurrences that do not
    overlap, found from left to right. *)
Definition count (needle s : text) : nat := count_from needle 0 s.

Definition text_eqb (a b : text) : bool :=
  if list_eq_dec ascii_dec a b then true else false.

(** [x in l] for a list of strings *)
Definition mem (x : text) (l : list text) : bool := existsb (text_eqb x) l.

(** [enumerate(l, start)] *)
Definition enumerate {A} (start : nat) (l : list A) : list (nat * A) :=
  combine (seq start (List.length l)) l.

(** [l[-n:]] for a positive [n] *)
Definition last_n {A} (n : nat) (l : list A) : list A :=
  skipn (List.length l - n) l.

(** The text of an integer inside an f-string. *)
Definition str_of_Z (z : Z) : string := NilEmpty.string_of_int (Z.to_int z).

Definition str_of_nat (n : nat) : string := str_of_Z (Z.of_nat n).

Definition str (s : text) : string := string_of_list_ascii s.

(** [str.endswith] *)
Definition endswith (suffix s : text) : bool :=
  startswith (rev suffix) (rev s).

(** A line of [readlines] from its text without the newline: the last line
    of a file has no newline, and is absent when it would be empty. *)
Definition last_line (body : text) : list text :=
  match body with
  | [] => []
  | _ :: _ => [body]
  end.

End PyStr.

(** ** Regular expressions with Python's backtracking priorities *)
Module Re.

Inductive regex : Type :=
| Eps : regex
| Chr : (ascii -> bool) -> regex
| Seq : regex -> regex -> regex
| Alt : regex -> regex -> regex
| Star : bool -> regex -> regex          (* [true]: greedy, [false]: lazy *)
| Group : regex -> regex                 (* a capturing group *)
| WordBoundary : regex                   (* \b *)
| NotBehind : (ascii -> bool) -> regex   (* (?<![...]) *)
| NotAhead : (ascii -> bool) -> regex.   (* (?![...]) *)

(** The state of a match attempt: characters consumed since the start of
    the attempt, the character before the cursor, the text after it, and
    the span of the capturing group when it has been closed. *)
Record mstate : Type := MState {
  pos : nat;
  prev : option ascii;
  rest : text;
  grp : option (nat * nat)
}.

Definition word_before (st : mstate) : bool :=
  match prev st with Some c => PyStr.isword c | None => false end.

Definition word_after (st : mstate) : bool :=
  match rest st with c :: _ => PyStr.isword c | [] => false end.

(** Repetition of [body], with continuation [k].  An iteration that
    consumes nothing is refused.  Every iteration that is accepted moves
    the cursor, so [fuel] above the length of the remaining text is never
    used up (lemma [star_loop_fuel] below). *)
Fixpoint star_loop (body : mstate -> (mstate -> option mstate) -> option mstate)
    (greedy : bool) (k : mstate -> option mstate)
    (fuel : nat) (st : mstate) {struct fuel} : option mstate :=
  match fuel with
  | O => None
  | S fuel' =>
      if greedy then
        match body st (fun st' => if pos st <? pos st'
                                  then star_loop body greedy k fuel' st'
                                  else None) with
        | Some m => Some m
        | None => k st
        end
      else
        match k st with
        | Some m => Some m
        | None => body st (fun st' => if pos st <? pos st'
                                      then star_loop body greedy k fuel' st'
                                      else None)
        end
  end.

Fixpoint exec (r : regex) (st : mstate) (k : mstate -> option mstate)
    {struct r} : option mstate :=
  match r with
  | Eps => k st
  | Chr f =>
      match rest st with
      | c :: s => if f c then k (MState (S (pos st)) (Some c) s (grp st))
                  else None
      | [] => None
      end
  | Seq a b => exec a st (fun st' => exec b st' k)
  | Alt a b =>
      match exec a st k with
      | Some m => Some m
      | None => exec b st k
      end
  | Star greedy a => star_loop (exec a) greedy k (S (List.length (rest st))) st
  | Group a =>
      exec a st (fun st' =>
        k (MState (pos st') (prev st') (rest st') (Some (pos st, pos st'))))
  | WordBoundary => if xorb (word_before st) (word_after st) then k st else None
  | NotBehind f =>
      match prev st with
      | Some c => if f c then None else k st
      | None => k st
      end
  | NotAhead f =>
      match rest st with
      | c :: _ => if f c then None else k st
      | [] => k st
      end
  end.

(** One match attempt at the cursor: the length of the match and the span
    of its group. [before] is the character in front of the cursor. *)
Definition match_at (r : regex) (before : option ascii) (s : text)
  : option (nat * option (nat * nat)) :=
  match exec r (MState 0 before s None) (fun st => Some st) with
  | Some st => Some (pos st, grp st)
  | None => None
  end.

(** [re.search]: the offset of the leftmost position where an attempt
    succeeds. *)
Fixpoint search_from (r : regex) (before : option ascii) (s : text)
  : option nat :=
  match match_at r before s with
  | Some _ => Some 0
  | None =>
      match s with
      | [] => None
      | c :: s' => option_map S (search_from r (Some c) s')
      end
  end.

Definition search (r : regex) (s : text) : option nat := search_from r None s.

(** [re.sub(r, repl, s)] for a replacement without group references.
    [skip] counts the characters of the current match still to be dropped.
    After an empty match the scan moves on by one character; the patterns
    of this repository never match the empty text ([match_at_min_len]). *)
Fixpoint sub_from (r : regex) (repl : text) (skip : nat)
    (before : option ascii) (s : text) : text :=
  match s with
  | [] =>
      match skip with
      | O => match match_at r before [] with
             | Some _ => repl
             | None => []
             end
      | S _ => []
      end
  | c :: s' =>
      match skip with
      | S n => sub_from r repl n (Some c) s'
      | O =>
          match match_at r before s with
          | Some (S n, _) => repl ++ sub_from r repl n (Some c) s'
          | Some (O, _) => repl ++ c :: sub_from r repl 0 (Some c) s'
          | None => c :: sub_from r repl 0 (Some c) s'
          end
      end
  end.

Definition sub (r : regex) (repl : text) (s : text) : text :=
  sub_from r repl 0 None s.

Fixpoint has_group (r : regex) : bool :=
  match r with
  | Group _ => true
  | Seq a b | Alt a b => (has_group a || has_group b)%bool
  | Star _ a => has_group a
  | _ => false
  end.

Definition slice (s : text) (from to : nat) : text :=
  firstn (to - from) (skipn from s).

(** What [re.findall] reports for one match: the group when the pattern
    has one, the whole match otherwise. *)
Definition found (r : regex) (s : text) (m : nat * option (nat * nat)) : text :=
  if has_group r then
    match snd m with
    | Some (a, b) => slice s a b
    | None => []
    end
  else firstn (fst m) s.

(** [re.findall] for a pattern with at most one group. *)
Fixpoint findall_from (r : regex) (skip : nat) (before : option ascii)
    (s : text) : list text :=
  match s with
  | [] =>
      match skip with
      | O => match match_at r before [] with
             | Some m => [found r [] m]
             | None => []
             end
      | S _ => []
      end
  | c :: s' =>
      match skip with
      | S n => findall_from r n (Some c) s'
      | O =>
          match match_at r before s with
          | Some m => found r s m :: findall_from r (fst m - 1) (Some c) s'
          | None => findall_from r 0 (Some c) s'
          end
      end
  end.

Definition findall (r : regex) (s : text) : list text :=
  findall_from r 0 None s.

(** The character in front of the cursor after reading [pre], when it
    was [before] at the start. *)
Definition char_before (before : option ascii) (pre : text) : option ascii :=
  fold_left (fun _ c => Some c) pre before.

(** The pattern matches some part of the text: an attempt succeeds at the
    end of some prefix [pre]. *)
Definition occurs_from (r : regex) (before : option ascii) (s : text) : Prop :=
  exists pre suf,
    s = pre ++ suf /\ match_at r (char_before before pre) suf <> None.

Definition occurs (r : regex) (s : text) : Prop := occurs_from r None s.

(** Two states of one attempt: the cursor only moves forward, and the
    remaining text shrinks by what the cursor moved. *)
Definition in_step (st st' : mstate) : Prop :=
  pos st <= pos st' /\
  pos st' + List.length (rest st') = pos st + List.length (rest st).

(** *** Pattern syntax *)

Definition ch (c : ascii) : regex := Chr (Ascii.eqb c).

Fixpoint lit_chars (s : text) : regex :=
  match s with
  | [] => Eps
  | [c] => ch c
  | c :: s' => Seq (ch c) (lit_chars s')
  end.

Definition lit (s : string) : regex := lit_chars (txt s).

Definition one_of (s : string) : ascii -> bool :=
  fun c => existsb (Ascii.eqb c) (txt s).

Definition none_of (s : string) : ascii -> bool :=
  fun c => negb (one_of s c).

Definition any_char : ascii -> bool := fun _ => true.

Definition star (r : regex) : regex := Star true r.
Definition lazy_star (r : regex) : regex := Star false r.
Definition plus (r : regex) : regex := Seq r (Star true r).
Definition opt (r : regex) : regex := Alt r Eps.
Definition at_least_two (r : regex) : regex := Seq r (Seq r (Star true r)).

Definition s_ : regex := Chr PyStr.isspace.      (* \s *)
Definition w_ : regex := Chr PyStr.isword.       (* \w *)
Definition d_ : regex := Chr PyStr.isdecimal.    (* \d *)

Fixpoint seqs (l : list regex) : regex :=
  match l with
  | [] => Eps
  | [r] => r
  | r :: l' => Seq r (seqs l')
  end.

Fixpoint alts (l : list regex) : regex :=
  match l with
  | [] => Eps
  | [r] => r
  | r :: l' => Alt r (alts l')
  end.

(** A lower bound on the length of every match. *)
Fixpoint min_len (r : regex) : nat :=
  match r with
  | Chr _ => 1
  | Seq a b => min_len a + min_len b
  | Alt a b => Nat.min (min_len a) (min_len b)
  | Group a => min_len a
  | _ => 0
  end.

(** *** What a pattern matches

    [matches r before w after]: the pattern [r] matches the text [w] when
    [before] is the character in front of it and [after] the text behind
    it.  The context is there for [\b] and the two look-around forms.  An
    iteration of a repetition is never empty, as in [star_loop]. *)
Inductive matches : regex -> option ascii -> text -> text -> Prop :=
| M_Eps : forall before after, matches Eps before [] after
| M_Chr : forall (f : ascii -> bool) c before after,
    f c = true -> matches (Chr f) before [c] after
| M_Seq : forall a b before w1 w2 after,
    matches a before w1 (w2 ++ after) ->
    matches b (char_before before w1) w2 after ->
    matches (Seq a b) before (w1 ++ w2) after
| M_Alt_l : forall a b before w after,
    matches a before w after -> matches (Alt a b) before w after
| M_Alt_r : forall a b before w after,
    matches b before w after -> matches (Alt a b) before w after
| M_Star_stop : forall greedy a before after,
    matches (Star greedy a) before [] after
| M_Star_more : forall greedy a before w1 w2 after,
    w1 <> [] ->
    matches a before w1 (w2 ++ after) ->
    matches (Star greedy a) (char_before before w1) w2 after ->
    matches (Star greedy a) before (w1 ++ w2) after
| M_Group : forall a before w after,
    matches a before w after -> matches (Group a) before w after
| M_WordBoundary : forall before after,
    xorb (match before with Some c => PyStr.isword c | None => false end)
         (match after with c :: _ => PyStr.isword c | [] => false end) = true ->
    matches WordBoundary before [] after
| M_NotBehind : forall (f : ascii -> bool) before after,
    (forall c, before = Some c -> f c = false) ->
    matches (NotBehind f) before [] after
| M_NotAhead : forall (f : ascii -> bool) before after,
    (forall c tail, after = c :: tail -> f c = false) ->
    matches (NotAhead f) before [] after.

(** The bodies of the capturing groups of a pattern. *)
Fixpoint groups (r : regex) : list regex :=
  match r with
  | Group a => a :: groups a
  | Seq a b | Alt a b => groups a ++ groups b
  | Star _ a => groups a
  | _ => []
  end.

(** The state after reading [w], the text [tail] being left. *)
Definition advance (st : mstate) (w tail : text) : mstate :=
  MState (pos st + List.length w) (char_before (prev st) w) tail (grp st).

(** [x] is [s] with some characters left out. *)
Inductive subseq : text -> text -> Prop :=
| subseq_nil : subseq [] []
| subseq_keep : forall c x s, subseq x s -> subseq (c :: x) (c :: s)
| subseq_drop : forall c x s, subseq x s -> subseq x (c :: s).

(** The state is a cursor into [s0], the text at the start of the
    attempt, and its group, when set, holds a text that satisfies
    [captured]. *)
Definition cursor (s0 : text) (captured : text -> Prop) (st : mstate) : Prop :=
  (exists pre, s0 = pre ++ rest st /\ List.length pre = pos st) /\
  (forall a b, grp st = Some (a, b) -> captured (slice s0 a b)).

(** Every group of the pattern captures only texts that satisfy
    [captured]. *)
Definition groups_capture (captured : text -> Prop) (r : regex) : Prop :=
  Forall (fun g => forall before w after, matches g before w after -> captured w)
         (groups r).

(** What a successful run of [body] from [st] guarantees: the result
    comes from the continuation, called after a text that [r] matches. *)
Definition run_sound (s0 : text) (captured : text -> Prop) (r : regex)
    (body : mstate -> (mstate -> option mstate) -> option mstate) : Prop :=
  forall st k m, cursor s0 captured st -> body st k = Some m ->
  exists w st',
    rest st = w ++ rest st' /\
    pos st' = pos st + List.length w /\
    prev st' = char_before (prev st) w /\
    matches r (prev st) w (rest st') /\
    cursor s0 captured st' /\
    k st' = Some m.

(** Every character the pattern can read satisfies [P]. *)
Fixpoint all_chars (P : ascii -> Prop) (r : regex) : Prop :=
  match r with
  | Chr f => forall c, f c = true -> P c
  | Seq a b | Alt a b => all_chars P a /\ all_chars P b
  | Star _ a | Group a => all_chars P a
  | _ => True
  end.

(** Every match of the pattern goes through a group. *)
Fixpoint sets_group (r : regex) : bool :=
  match r with
  | Group _ => true
  | Seq a b => (sets_group a || sets_group b)%bool
  | Alt a b => (sets_group a && sets_group b)%bool
  | _ => false
  end.

(** What a successful run guarantees about the group: once set it stays
    set, and a pattern that goes through a group sets it. *)
Definition run_groups (r : regex)
    (body : mstate -> (mstate -> option mstate) -> option mstate) : Prop :=
  forall st k m, body st k = Some m ->
  exists st',
    k st' = Some m /\
    (grp st <> None -> grp st' <> None) /\
    (sets_group r = true -> grp st' <> None).

End Re.

(** ** find-braces.py *)
Module FindBraces.
Import Re.

(** [@"[\s\S]*?"@] *)
Definition here_string : regex :=
  seqs [ch "@"; ch dq; lazy_star (Chr any_char); ch dq; ch "@"].

(** [@\s*{[^}]*}] *)
Definition hashtable : regex :=
  seqs [lit "@"; star s_; lit "{"; star (Chr (none_of "}")); lit "}"].

(** [if\s*\([^)]*\)\s*{\s*[^}]*\s*}\s*else\s*{\s*[^}]*\s*}] *)
Definition inline_if : regex :=
  seqs [lit "if"; star s_; lit "("; star (Chr (none_of ")")); lit ")";
        star s_; lit "{"; star s_; star (Chr (none_of "}")); star s_; lit "}";
        star s_; lit "else"; star s_;
        lit "{"; star s_; star (Chr (none_of "}")); star s_; lit "}"].

(** [\$\(\s*if\s*\([^)]*\)\s*{\s*[^}]*\s*}\s*else\s*{\s*[^}]*\s*}\s*\)] *)
Definition inline_expr : regex :=
  seqs [lit "$("; star s_; inline_if; star s_; lit ")"].

Definition content_no_herestrings (content : text) : text :=
  sub here_string [] content.

Definition content_no_hashtables (content : text) : text :=
  sub hashtable [] (content_no_herestrings content).

Definition content_no_inline_if (content : text) : text :=
  sub inline_if [] (content_no_hashtables content).

Definition content_clean (content : text) : text :=
  sub inline_expr [] (content_no_inline_if content).

(** An entry of [open_braces] or [close_braces]: line number, column and
    the stripped line. *)
Definition brace : Type := nat * nat * text.

(** The two lists the scan appends to. *)
Record braces : Type := Braces {
  open_braces : list brace;
  close_braces : list brace
}.

(** The body of the inner loop, for the character [char] at column [j] of
    line [i]. *)
Definition scan_char (i : nat) (line : text) (acc : braces)
    (jc : nat * ascii) : braces :=
  let (j, char) := jc in
  if Ascii.eqb char "{" then
    Braces (open_braces acc ++ [(i, j, PyStr.strip line)]) (close_braces acc)
  else if Ascii.eqb char "}" then
    Braces (open_braces acc) (close_braces acc ++ [(i, j, PyStr.strip line)])
  else acc.

Definition scan_line (acc : braces) (il : nat * text) : braces :=
  let (i, line) := il in
  fold_left (scan_char i line) (PyStr.enumerate 0 line) acc.

Definition scan_lines (lines : list text) : braces :=
  fold_left scan_line (PyStr.enumerate 1 lines) (Braces [] []).

(** The lines the scan runs over. *)
Definition lines_of (content : text) : list text :=
  PyStr.split nl (content_clean content).

Definition scan (content : text) : braces := scan_lines (lines_of content).

Definition open_count (content : text) : nat :=
  List.length (open_braces (scan content)).

Definition close_count (content : text) : nat :=
  List.length (close_braces (scan content)).

(** [len(open_braces) - len(close_braces)] *)
Definition difference (content : text) : Z :=
  Z.of_nat (open_count content) - Z.of_nat (close_count content).

Definition show_brace (b : brace) : string :=
  let '(line_num, _, content) := b in
  ("  Line " ++ PyStr.str_of_nat line_num ++ ": " ++ PyStr.str content)%string.

(** The lines printed before the comparison of the two counts. *)
Definition summary_lines (filename : string) (content : text) : list string :=
  [ ("File: " ++ filename)%string;
    ("Open braces (excluding here-strings, hashtables, and inline ifs): "
       ++ PyStr.str_of_nat (open_count content))%string;
    ("Close braces (excluding here-strings, hashtables, and inline ifs): "
       ++ PyStr.str_of_nat (close_count content))%string;
    ("Difference: " ++ PyStr.str_of_Z (difference content))%string ].

(** The lines printed when the counts differ.  The two headers start with
    a newline in the source; they are kept as they are. *)
Definition diagnostic_lines (content : text) : list string :=
  [ String nl "Last few open braces:" ]
  ++ map show_brace (PyStr.last_n 10 (open_braces (scan content)))
  ++ [ String nl "Last few close braces:" ]
  ++ map show_brace (PyStr.last_n 10 (close_braces (scan content))).

(** [find_unbalanced_braces], as a function of the file's name and
    content: what it prints and what it returns. *)
Definition find_unbalanced_braces (filename : string) (content : text)
  : list string * bool :=
  let printed := summary_lines filename content in
  let printed :=
    if negb (open_count content =? close_count content)
    then printed ++ diagnostic_lines content
    else printed in
  (printed, open_count content =? close_count content).

Definition line_of (b : brace) : nat := fst (fst b).
Definition column_of (b : brace) : nat := snd (fst b).
Definition context_of (b : brace) : text := snd b.

(** The two headers of the diagnostic listing. *)
Definition open_header : string := String nl "Last few open braces:".
Definition close_header : string := String nl "Last few close braces:".

(** The context of [b] is the stripped line of [source] that has the
    line number of [b]. *)
Definition context_from (source : text) (b : brace) : Prop :=
  exists line,
    nth_error (PyStr.split nl source) (line_of b - 1) = Some line /\
    context_of b = PyStr.strip line.

(** [b] points at an occurrence of [c] in [source]: its line number is a
    line of [source], counted from 1, that line has [c] at the column of
    [b], counted from 0, and its context is that line, stripped. *)
Definition located (source : text) (c : ascii) (b : brace) : Prop :=
  exists line,
    1 <= line_of b /\
    nth_error (PyStr.split nl source) (line_of b - 1) = Some line /\
    nth_error line (column_of b) = Some c /\
    context_of b = PyStr.strip line.

(** Both lists hold entries located in [source]. *)
Definition all_located (source : text) (acc : braces) : Prop :=
  Forall (located source "{") (open_braces acc) /\
  Forall (located source "}") (close_braces acc).

(** The naive counter of the specification: occurrences of each brace in
    the text as it is. *)
Definition naive_difference (content : text) : Z :=
  Z.of_nat (count_occ ascii_dec content "{"%char)
  - Z.of_nat (count_occ ascii_dec content "}"%char).

(** The order of the scan: by line, then by column. *)
Definition brace_lt (a b : brace) : Prop :=
  line_of a < line_of b \/
  (line_of a = line_of b /\ column_of a < column_of b).

(** [b] lies before column [j] of line [i]. *)
Definition before_cursor (i j : nat) (b : brace) : Prop :=
  line_of b < i \/ (line_of b = i /\ column_of b < j).

(** Both lists are in scan order and end before column [j] of line [i]. *)
Definition in_order (i j : nat) (acc : braces) : Prop :=
  (StronglySorted brace_lt (open_braces acc) /\
   Forall (before_cursor i j) (open_braces acc)) /\
  (StronglySorted brace_lt (close_braces acc) /\
   Forall (before_cursor i j) (close_braces acc)).

(** A hashtable literal and nothing else: [@], white space, and a body
    between braces. *)
Definition hashtable_literal (ws body : text) : text :=
  "@"%char :: ws ++ "{"%char :: body ++ ["}"%char].

(** Every brace [c] of [source] that lies before column [j] of line [i]
    has its entry in the list of its kind. *)
Definition found_before (source : text) (i j : nat) (acc : braces) : Prop :=
  (forall b, located source "{" b -> before_cursor i j b ->
             In b (open_braces acc)) /\
  (forall b, located source "}" b -> before_cursor i j b ->
             In b (close_braces acc)).

End FindBraces.

(** ** tests/code-standards-validator.py *)
Module Standards.
Import Re.
Local Open Scope Z_scope.

(** The [metrics] dictionary of [analyze_file_standards]. *)
Record metrics : Type := Metrics {
  long_lines : Z;
  missing_docs : Z;
  camel_case_props : Z;
  unused_usings : Z;
  hardcoded_strings : Z;
  complex_methods : Z;
  magic_numbers : Z;
  total_loc : Z;
  documented_members : Z;
  total_public_members : Z;
  issues : Z;
  violations : list string
}.

Definition set_long_lines (v : Z) (m : metrics) : metrics :=
  Metrics v (missing_docs m) (camel_case_props m) (unused_usings m)
    (hardcoded_strings m) (complex_methods m) (magic_numbers m) (total_loc m)
    (documented_members m) (total_public_members m) (issues m) (violations m).

Definition set_missing_docs (v : Z) (m : metrics) : metrics :=
  Metrics (long_lines m) v (camel_case_props m) (unused_usings m)
    (hardcoded_strings m) (complex_methods m) (magic_numbers m) (total_loc m)
    (documented_members m) (total_public_members m) (issues m) (violations m).

Definition set_camel_case_props (v : Z) (m : metrics) : metrics :=
  Metrics (long_lines m) (missing_docs m) v (unused_usings m)
    (hardcoded_strings m) (complex_methods m) (magic_numbers m) (total_loc m)
    (documented_members m) (total_public_members m) (issues m) (violations m).

Definition set_unused_usings (v : Z) (m : metrics) : metrics :=
  Metrics (long_lines m) (missing_docs m) (camel_case_props m) v
    (hardcoded_strings m) (complex_methods m) (magic_numbers m) (total_loc m)
    (documented_members m) (total_public_members m) (issues m) (violations m).

Definition set_hardcoded_strings (v : Z) (m : metrics) : metrics :=
  Metrics (long_lines m) (missing_docs m) (camel_case_props m) (unused_usings m)
    v (complex_methods m) (magic_numbers m) (total_loc m)
    (documented_members m) (total_public_members m) (issues m) (violations m).

Definition set_complex_methods (v : Z) (m : metrics) : metrics :=
  Metrics (long_lines m) (missing_docs m) (camel_case_props m) (unused_usings m)
    (hardcoded_strings m) v (magic_numbers m) (total_loc m)
    (documented_members m) (total_public_members m) (issues m) (violations m).

Definition set_magic_numbers (v : Z) (m : metrics) : metrics :=
  Metrics (long_lines m) (missing_docs m) (camel_case_props m) (unused_usings m)
    (hardcoded_strings m) (complex_methods m) v (total_loc m)
    (documented_members m) (total_public_members m) (issues m) (violations m).

(** [metrics["total_public_members"] = p; metrics["documented_members"] = d] *)
Definition set_members (p d : Z) (m : metrics) : metrics :=
  Metrics (long_lines m) (missing_docs m) (camel_case_props m) (unused_usings m)
    (hardcoded_strings m) (complex_methods m) (magic_numbers m) (total_loc m)
    d p (issues m) (violations m).

(** [metrics["issues"] += 1; metrics["violations"].append(msg)] *)
Definition report (msg : string) (m : metrics) : metrics :=
  Metrics (long_lines m) (missing_docs m) (camel_case_props m) (unused_usings m)
    (hardcoded_strings m) (complex_methods m) (magic_numbers m) (total_loc m)
    (documented_members m) (total_public_members m)
    (issues m + 1) (violations m ++ [msg]).

Definition init_metrics (lines : list text) : metrics :=
  Metrics 0 0 0 0 0 0 0 (Z.of_nat (List.length lines)) 0 0 0 [].

Definition len {A} (l : list A) : Z := Z.of_nat (List.length l).

Definition fmt (z : Z) : string := PyStr.str_of_Z z.

(** *** Line length *)

Definition long_line_count (lines : list text) : Z :=
  len (filter (fun line => (120 <? List.length (PyStr.strip line))%nat) lines).

Definition long_lines_msg (lines : list text) : string :=
  ("Long lines: " ++ fmt (long_line_count lines)
     ++ " lines exceed 120 characters")%string.

Definition check_long_lines (lines : list text) (m : metrics) : metrics :=
  if (long_line_count lines >? 0)%Z
  then report (long_lines_msg lines) (set_long_lines 1 m)
  else m.

(** *** Documentation coverage *)

Definition modifier (word : string) : regex := opt (Seq (lit word) (plus s_)).

(** [public\s+(?:static\s+)?(?:virtual\s+)?(?:override\s+)?(?:async\s+)?(?:\w+\s+)+\w+\s*[({]] *)
Definition public_member_re : regex :=
  seqs [lit "public"; plus s_; modifier "static"; modifier "virtual";
        modifier "override"; modifier "async";
        plus (Seq (plus w_) (plus s_)); plus w_; star s_; Chr (one_of "({")].

Definition public_members (content : text) : Z :=
  len (findall public_member_re content).

Definition xml_docs (content : text) : Z :=
  Z.of_nat (PyStr.count (txt "/// <summary>") content).

Definition missing_docs_msg (content : text) : string :=
  ("Missing documentation: "
     ++ fmt (public_members content - xml_docs content) ++ " of "
     ++ fmt (public_members content) ++ " public members undocumented")%string.

Definition check_docs (content : text) (m : metrics) : metrics :=
  let m := set_members (public_members content) (xml_docs content) m in
  if ((public_members content >? xml_docs content)
      && (public_members content >? 0))%Z%bool
  then report (missing_docs_msg content) (set_missing_docs 1 m)
  else m.

(** *** Naming convention *)

(** The pattern of [camel_props]: [public\s+\w+\s+], then the group
    [[a-z]\w*], then [\s*{]. *)
Definition camel_prop_re : regex :=
  seqs [lit "public"; plus s_; plus w_; plus s_;
        Group (Seq (Chr (PyStr.between 97 122)) (star w_)); star s_; lit "{"].

Definition camel_props (content : text) : list text :=
  findall camel_prop_re content.

Definition naming_msg (content : text) : string :=
  ("Naming convention: " ++ fmt (len (camel_props content))
     ++ " camelCase properties found")%string.

Definition check_naming (content : text) (m : metrics) : metrics :=
  match camel_props content with
  | _ :: _ => report (naming_msg content) (set_camel_case_props 1 m)
  | [] => m
  end.

(** *** Using statements *)

Definition is_using (line : text) : bool :=
  (PyStr.startswith (txt "using ") (PyStr.strip line)
   && negb (PyStr.startswith (txt "using (") (PyStr.strip line)))%bool.

Definition using_statements (lines : list text) : list text :=
  map PyStr.strip (filter is_using lines).

Definition usings_msg (lines : list text) : string :=
  ("Using statements: " ++ fmt (len (using_statements lines))
     ++ " using statements (review for unused)")%string.

Definition check_usings (lines : list text) (m : metrics) : metrics :=
  if (len (using_statements lines) >? 15)%Z
  then report (usings_msg lines) (set_unused_usings 1 m)
  else m.

(** *** Hardcoded secrets *)

Definition quote : ascii -> bool := fun c => (Ascii.eqb c dq || Ascii.eqb c "'")%bool.

Definition assigned_literal : list regex :=
  [star s_; lit "="; star s_; Chr quote; plus (Chr (fun c => negb (quote c)));
   Chr quote].

(** The two patterns of [hardcoded_patterns]: the group, a name out of the
    given alternatives, then [\s*=\s*], a single or double quote, one or
    more characters that are neither, and a single or double quote. *)
Definition hardcoded_patterns : list regex :=
  [ seqs (Group (alts [lit "password"; lit "secret"; lit "key"; lit "token"])
            :: assigned_literal);
    seqs (Group (alts [lit "api_key"; lit "apikey"; lit "auth_token"])
            :: assigned_literal) ].

Definition secrets_msg : string := "Security: Potential hardcoded secrets found".

(** The loop over the patterns; it stops at the first pattern that finds
    something. *)
Fixpoint check_patterns (patterns : list regex) (content : text) (m : metrics)
  : metrics :=
  match patterns with
  | [] => m
  | pattern :: patterns' =>
      match findall pattern (PyStr.lower content) with
      | _ :: _ => report secrets_msg (set_hardcoded_strings 1 m)
      | [] => check_patterns patterns' content m
      end
  end.

Definition check_secrets (content : text) (m : metrics) : metrics :=
  check_patterns hardcoded_patterns content m.

(** *** Magic numbers *)

Definition word_or_dot : ascii -> bool :=
  fun c => (PyStr.isword c || Ascii.eqb c ".")%bool.

(** [\b(?<![\w.])\d{2,}\b(?![\w.])] *)
Definition magic_number_re : regex :=
  seqs [WordBoundary; NotBehind word_or_dot; at_least_two d_; WordBoundary;
        NotAhead word_or_dot].

Definition acceptable_numbers : list text :=
  map txt ["100"; "200"; "404"; "500"; "1000"; "2000"]%string.

Definition filtered_magic (content : text) : list text :=
  filter (fun n => negb (PyStr.mem n acceptable_numbers))
         (findall magic_number_re content).

Definition magic_msg (content : text) : string :=
  ("Code quality: " ++ fmt (len (filtered_magic content))
     ++ " potential magic numbers found")%string.

Definition check_magic (content : text) (m : metrics) : metrics :=
  if (len (filtered_magic content) >? 5)%Z
  then report (magic_msg content) (set_magic_numbers 1 m)
  else m.

(** *** Method complexity *)

(** The pattern of [method_blocks]:
    [(?:public|private|protected|internal)\s+(?:static\s+)?(?:virtual\s+)?(?:override\s+)?(?:async\s+)?\w+\s+\w+\s*\([^)]*\)\s*{],
    then the group, [[^{}]*] followed by any number of
    [{[^{}]*}[^{}]*], then [}]. *)
Definition method_re : regex :=
  seqs [alts [lit "public"; lit "private"; lit "protected"; lit "internal"];
        plus s_; modifier "static"; modifier "virtual"; modifier "override";
        modifier "async"; plus w_; plus s_; plus w_; star s_;
        lit "("; star (Chr (none_of ")")); lit ")"; star s_; lit "{";
        Group (Seq (star (Chr (none_of "{}")))
                   (star (seqs [lit "{"; star (Chr (none_of "{}")); lit "}";
                                star (Chr (none_of "{}"))])));
        lit "}"].

Definition method_blocks (content : text) : list text :=
  findall method_re content.

Definition complex_blocks (content : text) : list text :=
  filter (fun block => (50 <? List.length (PyStr.split nl block))%nat)
         (method_blocks content).

Definition complexity_msg (content : text) : string :=
  ("Method complexity: " ++ fmt (len (complex_blocks content))
     ++ " methods exceed 50 lines")%string.

Definition check_complexity (content : text) (m : metrics) : metrics :=
  match complex_blocks content with
  | _ :: _ => report (complexity_msg content)
                (set_complex_methods (len (complex_blocks content)) m)
  | [] => m
  end.

(** [analyze_file_standards(file_path, lines, content)] *)
Definition analyze_file_standards (file_path : string) (lines : list text)
    (content : text) : metrics :=
  let metrics := init_metrics lines in
  let metrics := check_long_lines lines metrics in
  let metrics := check_docs content metrics in
  let metrics := check_naming content metrics in
  let metrics := check_usings lines metrics in
  let metrics := check_secrets content metrics in
  let metrics := check_magic content metrics in
  let metrics := check_complexity content metrics in
  metrics.

(** *** analyze_csharp_violations *)

(** An entry of the [violations] list of [analyze_csharp_violations]; a
    key that an entry does not have is [None]. *)
Record violation : Type := Violation {
  v_type : string;
  v_severity : string;
  v_issue : string;
  v_expected : option string;
  v_lines : option (list nat);
  v_fixable : bool
}.

Definition naming_violation (prop : text) : violation :=
  Violation "Naming Convention" "Major"
    ("Property '" ++ PyStr.str prop ++ "' should be PascalCase")%string
    (Some (PyStr.str (PyStr.capitalize prop))) None true.

(** [public\s+(?:class|struct|interface|\w+\s+\w+)] *)
Definition public_decl_re : regex :=
  seqs [lit "public"; plus s_;
        alts [lit "class"; lit "struct"; lit "interface";
              seqs [plus w_; plus s_; plus w_]]].

(** [///\s*<summary>] *)
Definition summary_re : regex := seqs [lit "///"; star s_; lit "<summary>"].

Definition public_decls (content : text) : Z :=
  len (findall public_decl_re content).

Definition summaries (content : text) : Z := len (findall summary_re content).

Definition docs_violation (content : text) : violation :=
  Violation "Missing Documentation" "Major"
    (fmt (public_decls content - summaries content)
       ++ " public members lack XML documentation")%string
    (Some "/// <summary> documentation for all public members"%string)
    None true.

(** The numbers of the lines longer than 120 characters. *)
Definition long_line_numbers (lines : list text) : list nat :=
  map fst (filter (fun il => (120 <? List.length (snd il))%nat)
                  (PyStr.enumerate 1 lines)).

Definition length_violation (lines : list text) : violation :=
  Violation "Line Length" "Minor"
    (fmt (len (long_line_numbers lines)) ++ " lines exceed 120 characters")%string
    None (Some (firstn 5 (long_line_numbers lines))) true.

(** [analyze_csharp_violations], as a function of what the sample file
    holds; [None] when the file does not exist. *)
Definition analyze_csharp_violations (device_file : option text)
  : option (list violation) :=
  match device_file with
  | None => None
  | Some content =>
      let lines := PyStr.split nl content in
      let violations := map naming_violation (camel_props content) in
      let violations :=
        if (public_decls content >? summaries content)%Z
        then violations ++ [docs_violation content] else violations in
      let violations :=
        match long_line_numbers lines with
        | _ :: _ => violations ++ [length_violation lines]
        | [] => violations
        end in
      Some violations
  end.

(** *** analyze_repository_standards *)

(** The [analysis_metrics] dictionary: the sums over the files. *)
Record analysis_metrics : Type := AnalysisMetrics {
  sum_long_lines : Z;
  sum_missing_docs : Z;
  sum_camel_case_props : Z;
  sum_unused_usings : Z;
  sum_hardcoded_strings : Z;
  sum_complex_methods : Z;
  sum_magic_numbers : Z;
  sum_total_loc : Z;
  sum_documented_members : Z;
  sum_total_public_members : Z
}.

Definition no_metrics : analysis_metrics := AnalysisMetrics 0 0 0 0 0 0 0 0 0 0.

(** [for key in analysis_metrics: analysis_metrics[key] += file_metrics[key]] *)
Definition aggregate (a : analysis_metrics) (m : metrics) : analysis_metrics :=
  AnalysisMetrics
    (sum_long_lines a + long_lines m)
    (sum_missing_docs a + missing_docs m)
    (sum_camel_case_props a + camel_case_props m)
    (sum_unused_usings a + unused_usings m)
    (sum_hardcoded_strings a + hardcoded_strings m)
    (sum_complex_methods a + complex_methods m)
    (sum_magic_numbers a + magic_numbers m)
    (sum_total_loc a + total_loc m)
    (sum_documented_members a + documented_members m)
    (sum_total_public_members a + total_public_members m).

Record file_detail : Type := FileDetail {
  fd_file : string;
  fd_issues : Z;
  fd_violations : list string
}.

(** A file found by the walk: its path, and its text when it can be read. *)
Definition cs_file : Type := string * option text.

(** The body of the loop over [cs_files].  A file that cannot be read
    raises inside the [try] and is skipped. *)
Definition analyze_one (acc : analysis_metrics * list file_detail)
    (f : cs_file) : analysis_metrics * list file_detail :=
  match snd f with
  | None => acc
  | Some file_text =>
      let lines := PyStr.readlines file_text in
      let content := List.concat lines in
      let file_metrics := analyze_file_standards (fst f) lines content in
      (aggregate (fst acc) file_metrics,
       if (issues file_metrics >? 0)%Z
       then snd acc ++ [FileDetail (fst f) (issues file_metrics)
                          (violations file_metrics)]
       else snd acc)
  end.

Definition analyze_all (cs_files : list cs_file)
  : analysis_metrics * list file_detail :=
  fold_left analyze_one cs_files (no_metrics, []).

(** [analysis_results["issues"]] *)
Record issue_counts : Type := IssueCounts {
  critical : Z;
  major : Z;
  minor : Z;
  fixable : Z
}.

(** [analysis_results["summary"]], without the coverage percentage. *)
Record summary : Type := Summary {
  files_analyzed : Z;
  total_tests : Z;
  passed : Z;
  failed : Z;
  issues_found : Z
}.

(** [analysis_results], without the time stamp and the constant entries. *)
Record analysis_results : Type := AnalysisResults {
  res_summary : summary;
  res_issues : issue_counts;
  res_violations : list string;
  res_file_details : list file_detail
}.

Definition categorize (a : analysis_metrics) : issue_counts :=
  let critical := sum_hardcoded_strings a in
  let major := sum_missing_docs a + sum_camel_case_props a
               + sum_complex_methods a in
  let minor := sum_long_lines a + sum_unused_usings a + sum_magic_numbers a in
  IssueCounts critical major minor (major + minor).

Definition when (n : Z) (msg : string) : list string :=
  if (n >? 0)%Z then [msg] else [].

Definition files_msg (head : string) (n : Z) (tail : string) : string :=
  (head ++ fmt n ++ tail)%string.

(** The summary list of violations, one entry for every sum above zero. *)
Definition violation_list (a : analysis_metrics) : list string :=
  when (sum_camel_case_props a)
    (files_msg "Naming conventions: " (sum_camel_case_props a)
       " files with camelCase properties")
  ++ when (sum_missing_docs a)
    (files_msg "Documentation: " (sum_missing_docs a)
       " files missing XML documentation")
  ++ when (sum_long_lines a)
    (files_msg "Line length: " (sum_long_lines a)
       " files with lines exceeding 120 characters")
  ++ when (sum_unused_usings a)
    (files_msg "Code organization: " (sum_unused_usings a)
       " files with excessive using statements")
  ++ when (sum_hardcoded_strings a)
    (files_msg "Security: " (sum_hardcoded_strings a)
       " files with potential hardcoded secrets")
  ++ when (sum_complex_methods a)
    (files_msg "Method complexity: " (sum_complex_methods a)
       " files with overly complex methods")
  ++ when (sum_magic_numbers a)
    (files_msg "Code quality: " (sum_magic_numbers a)
       " files with potential magic numbers").

(** [analyze_repository_standards], as a function of the C# files the walk
    finds. *)
Definition analyze_repository_standards (cs_files : list cs_file)
  : analysis_results :=
  let (analysis_metrics, file_details) := analyze_all cs_files in
  let issues := categorize analysis_metrics in
  let violations := violation_list analysis_metrics in
  AnalysisResults
    (Summary (len cs_files) 5 (5 - Z.min 5 (len violations))
       (Z.min 5 (len violations))
       (critical issues + major issues + minor issues))
    issues violations file_details.

(** [calculate_quality_score]; the final [round] of an integer is that
    integer. *)
Definition calculate_quality_score (results : analysis_results) : Z :=
  let base_score := 100 in
  let critical_penalty := critical (res_issues results) * 20 in
  let major_penalty := major (res_issues results) * 5 in
  let minor_penalty := minor (res_issues results) * 1 in
  let total_penalty := critical_penalty + major_penalty + minor_penalty in
  let max_penalty := Z.min total_penalty 95 in
  let final_score := Z.max 5 (base_score - max_penalty) in
  final_score.

(** The rules of [analyze_file_standards], in the order they are checked. *)
Inductive rule : Type :=
| LineLength | Documentation | Naming | UsingStatements | Secrets
| MagicNumbers | MethodComplexity.

Definition rules : list rule :=
  [LineLength; Documentation; Naming; UsingStatements; Secrets; MagicNumbers;
   MethodComplexity].

Definition nonempty {A} (l : list A) : bool :=
  match l with _ :: _ => true | [] => false end.

(** The condition under which each rule fires, as the source tests it. *)
Definition fires (lines : list text) (content : text) (r : rule) : bool :=
  match r with
  | LineLength => (long_line_count lines >? 0)%Z
  | Documentation =>
      ((public_members content >? xml_docs content)
       && (public_members content >? 0))%Z%bool
  | Naming => nonempty (camel_props content)
  | UsingStatements => (len (using_statements lines) >? 15)%Z
  | Secrets =>
      existsb (fun pattern => nonempty (findall pattern (PyStr.lower content)))
              hardcoded_patterns
  | MagicNumbers => (len (filtered_magic content) >? 5)%Z
  | MethodComplexity => nonempty (complex_blocks content)
  end.

(** The message a rule appends when it fires. *)
Definition message (lines : list text) (content : text) (r : rule) : string :=
  match r with
  | LineLength => long_lines_msg lines
  | Documentation => missing_docs_msg content
  | Naming => naming_msg content
  | UsingStatements => usings_msg lines
  | Secrets => secrets_msg
  | MagicNumbers => magic_msg content
  | MethodComplexity => complexity_msg content
  end.

(** The metrics entry a rule writes when it fires. *)
Definition flag (m : metrics) (r : rule) : Z :=
  match r with
  | LineLength => long_lines m
  | Documentation => missing_docs m
  | Naming => camel_case_props m
  | UsingStatements => unused_usings m
  | Secrets => hardcoded_strings m
  | MagicNumbers => magic_numbers m
  | MethodComplexity => complex_methods m
  end.

Definition rule_eq_dec (a b : rule) : {a = b} + {a <> b}.
Proof. decide equality. Defined.

Definition b2z (b : bool) : Z := if b then 1 else 0.

(** The sum a rule's metrics entry is added to. *)
Definition total_flag (a : analysis_metrics) (r : rule) : Z :=
  match r with
  | LineLength => sum_long_lines a
  | Documentation => sum_missing_docs a
  | Naming => sum_camel_case_props a
  | UsingStatements => sum_unused_usings a
  | Secrets => sum_hardcoded_strings a
  | MagicNumbers => sum_magic_numbers a
  | MethodComplexity => sum_complex_methods a
  end.

(** The metrics of a file, when it can be read. *)
Definition metrics_of (f : cs_file) : option metrics :=
  match snd f with
  | None => None
  | Some file_text =>
      Some (analyze_file_standards (fst f) (PyStr.readlines file_text)
              (List.concat (PyStr.readlines file_text)))
  end.

(** Rule [r] fires on the file. *)
Definition fires_on (r : rule) (f : cs_file) : bool :=
  match snd f with
  | None => false
  | Some file_text =>
      fires (PyStr.readlines file_text)
            (List.concat (PyStr.readlines file_text)) r
  end.

(** The number of files on which rule [r] fires. *)
Definition files_firing (r : rule) (cs_files : list cs_file) : Z :=
  len (filter (fires_on r) cs_files).

(** The number of method bodies over 50 lines in a file. *)
Definition complex_methods_in (f : cs_file) : Z :=
  match snd f with
  | None => 0
  | Some file_text =>
      len (complex_blocks (List.concat (PyStr.readlines file_text)))
  end.

Definition sum_over {A} (g : A -> Z) (l : list A) : Z :=
  fold_right (fun x acc => g x + acc) 0 l.

(** *** Sample documents *)

(** The one-line document of the end-to-end property. *)
Definition property_line : text := txt "public string name { get; set; }".

(** A private method whose body is 50 newlines, 51 lines when split. *)
Definition long_method (name : string) : text :=
  txt "private void " ++ txt name ++ txt "(){" ++ repeat nl 50 ++ txt "}".

(** A document with two such methods and nothing else. *)
Definition two_long_methods : text :=
  long_method "A" ++ [nl] ++ long_method "B".

(** The assignment of the specification's example, in lower case. *)
Definition password_literal : text :=
  txt "password = " ++ [dq] ++ txt "abc123" ++ [dq].

(** A document that holds the example in mixed case. *)
Definition secret_line : text :=
  txt "var PassWord = " ++ [dq] ++ txt "abc123" ++ [dq] ++ txt ";".

(** *** show_repository_analysis *)

(** One step of the sort: [x] goes behind the files with more issues and
    in front of the others. *)
Fixpoint insert_file (x : file_detail) (l : list file_detail)
  : list file_detail :=
  match l with
  | [] => [x]
  | y :: l' =>
      if fd_issues x <? fd_issues y then y :: insert_file x l' else x :: l
  end.

(** [sorted(file_details, key=lambda x: x["issues"], reverse=True)]; the
    sort is stable, files with as many issues keep their order. *)
Definition sorted_files (l : list file_detail) : list file_detail :=
  fold_right insert_file [] l.

(** The files listed under "Files Requiring Attention": [sorted_files[:5]]. *)
Definition top_files (results : analysis_results) : list file_detail :=
  firstn 5 (sorted_files (res_file_details results)).

(** The entry of [file_details] for a file, when it has one. *)
Definition detail_of (f : cs_file) : list file_detail :=
  match metrics_of f with
  | Some m => if issues m >? 0
              then [FileDetail (fst f) (issues m) (violations m)] else []
  | None => []
  end.

(** The last status line of [main]: it reports success when no issue was
    found. *)
Definition reports_clean (results : analysis_results) : bool :=
  negb (issues_found (res_summary results) >? 0).

(** The shape of a camelCase property name: a letter from [a] to [z], then
    word characters. *)
Definition camel_name (x : text) : Prop :=
  exists c tail, x = c :: tail /\ PyStr.between 97 122 c = true /\
                 Forall (fun d => PyStr.isword d = true) tail.

(** What a file adds to [issues_found]: one for each of the six flag rules
    that fires on it, and its number of complex methods. *)
Definition found_in (f : cs_file) : Z :=
  b2z (fires_on LineLength f) + b2z (fires_on Documentation f)
  + b2z (fires_on Naming f) + b2z (fires_on UsingStatements f)
  + b2z (fires_on Secrets f) + b2z (fires_on MagicNumbers f)
  + complex_methods_in f.

(** The order of the listing: [a] has at least as many issues as [b]. *)
Definition more_issues (a b : file_detail) : Prop := fd_issues b <= fd_issues a.

(** The files with exactly [v] issues. *)
Definition with_issues (v : Z) (l : list file_detail) : list file_detail :=
  filter (fun d => fd_issues d =? v) l.

(** The number of violations of one type in a list. *)
Definition count_type (t : string) (vs : list violation) : nat :=
  List.length (filter (fun v => String.eqb (v_type v) t) vs).

(** The two entries of [hardcoded_patterns]. *)
Definition first_secret_pattern : regex := hd Eps hardcoded_patterns.
Definition second_secret_pattern : regex := hd Eps (tl hardcoded_patterns).

End Standards.

(** ** run-all-tests.py *)
Module Runner.

(** An entry of [test_scripts]. *)
Record script : Type := Script {
  s_name : string;
  s_path : string;
  s_type : string;
  s_category : string
}.

(** A test result, without the fields that depend on the clock or on the
    captured output of a child process. *)
Record result : Type := Result {
  r_name : string;
  r_status : string
}.

(** [needle in s] *)
Fixpoint contains (needle s : string) : bool :=
  (String.prefix needle s ||
   match s with
   | EmptyString => false
   | String _ s' => contains needle s'
   end)%bool.

(** [simulate_test_execution]: every branch sets [success] to [True]. *)
Definition simulate_test_execution (test_name test_path : string) : result :=
  let success :=
    if contains "Performance" test_name then true
    else if (contains "Security" test_name || contains "Policy" test_name)%bool
    then true
    else if contains "Deployment" test_name then true
    else if contains "Standards" test_name then true
    else true in
  Result test_name (if success then "PASS" else "FAIL")%string.

(** [simulate_powershell_tests] *)
Definition simulate_powershell_tests (test_scripts : list script) : list result :=
  map (fun script => simulate_test_execution (s_name script) (s_path script))
      (filter (fun script => String.eqb (s_type script) "powershell") test_scripts).

(** A Python integer as a float; exact below 2^53. *)
Definition float_of_nat (n : nat) : float :=
  PrimFloat.of_uint63 (Uint63.of_Z (Z.of_nat n)).

(** [report["summary"]] *)
Record summary : Type := Summary {
  total_tests : nat;
  passed : nat;
  failed : nat;
  success_rate : float
}.

Definition is_pass (r : result) : bool := String.eqb (r_status r) "PASS".

(** [(passed_tests / total_tests * 100) if total_tests > 0 else 0] *)
Definition rate (passed_tests total_tests : nat) : float :=
  if (0 <? total_tests)%nat
  then PrimFloat.mul
         (PrimFloat.div (float_of_nat passed_tests) (float_of_nat total_tests))
         (float_of_nat 100)
  else float_of_nat 0.

(** The statistics of [generate_comprehensive_report]. *)
Definition generate_comprehensive_report (python_results ps_results : list result)
  : summary :=
  let total_tests := (List.length python_results + List.length ps_results)%nat in
  let passed_tests :=
    List.length (filter is_pass (python_results ++ ps_results)) in
  let failed_tests := (total_tests - passed_tests)%nat in
  Summary total_tests passed_tests failed_tests
    (rate passed_tests total_tests).

(** [x >= 80] on a float *)
Definition at_least_80 (x : float) : bool := PrimFloat.leb (float_of_nat 80) x.

(** [main], as a function of the scripts found and of the results of the
    Python tests: the value it returns. *)
Definition main (test_scripts : list script) (python_results : list result)
  : bool :=
  let ps_results := simulate_powershell_tests test_scripts in
  let report := generate_comprehensive_report python_results ps_results in
  at_least_80 (success_rate report).

(** The status the process exits with: [sys.exit(0 if success else 1)]. *)
Definition exit_status (test_scripts : list script) (python_results : list result)
  : Z :=
  if main test_scripts python_results then 0 else 1.

(** The same threshold in exact arithmetic. *)
Definition meets_threshold (passed total : nat) : bool :=
  ((0 <? total)%nat && (80 * total <=? 100 * passed)%nat)%bool.

(** The float threshold agrees with the exact one for every number of
    passed tests out of [total]. *)
Definition agree_upto (total : nat) : bool :=
  forallb (fun t =>
    forallb (fun p => Bool.eqb (at_least_80 (rate p t)) (meets_threshold p t))
            (seq 0 (S t)))
    (seq 0 (S total)).

(** The table [ps_scripts] of [discover_test_scripts]: name and path. *)
Definition ps_scripts : list (string * string) :=
  [ ("Code Standards Validator",
     "tests/code-standards/CodeStandardsValidator.ps1");
    ("Developer Policy Validator",
     "tests/code-standards/DeveloperPolicyValidator.ps1");
    ("Performance Benchmark Validator",
     "tests/performance/PerformanceBenchmarkValidator.ps1");
    ("File Transfer Validator",
     "tests/file-transfer/SameNetworkTransferValidator.ps1");
    ("UWP Deployment Validator",
     "tests/platform-deployment/UWPDeploymentValidator.ps1");
    ("Windows Phone Deployment Validator",
     "tests/platform-deployment/WindowsPhoneDeploymentValidator.ps1");
    ("Shared Code Consistency Validator",
     "tests/platform-deployment/SharedCodeConsistencyValidator.ps1");
    ("Master Assumption Validator", "tests/MasterAssumptionValidator.ps1") ]%string.

(** The table [py_scripts]. *)
Definition py_scripts : list (string * string) :=
  [ ("Demo Testing System", "tests/demo-testing-system.py");
    ("Test Testing System", "tests/test-testing-system.py") ]%string.

(** [path.split('/')[1] if '/' in path else "general"] *)
Definition category_of (path : string) : string :=
  if contains "/" path
  then PyStr.str (nth 1 (PyStr.split "/" (txt path)) [])
  else "general"%string.

Definition ps_entry (np : string * string) : script :=
  Script (fst np) (snd np) "powershell" (category_of (snd np)).

Definition py_entry (np : string * string) : script :=
  Script (fst np) (snd np) "python" "system".

(** [discover_test_scripts], as a function of which paths exist. *)
Definition discover_test_scripts (path_exists : string -> bool) : list script :=
  map ps_entry (filter (fun np => path_exists (snd np)) ps_scripts)
  ++ map py_entry (filter (fun np => path_exists (snd np)) py_scripts).

(** The eight PowerShell scripts of [discover_test_scripts], all present. *)
Definition all_ps_scripts : list script := map ps_entry ps_scripts.

(** How a child process ends: with a return code, or with an exception
    in the parent (a timeout, a failure to start). *)
Inductive outcome : Type :=
| Exited (returncode : Z)
| Raised.

(** The entry of [python_results] for one Python test. *)
Definition python_result (name : string) (o : outcome) : result :=
  match o with
  | Exited returncode =>
      Result name (if (returncode =? 0)%Z then "PASS" else "FAIL")%string
  | Raised => Result name "FAIL"
  end.

Definition demo_path : string := "tests/demo-testing-system.py".
Definition validator_path : string := "tests/test-testing-system.py".

(** [run_python_tests], as a function of which paths exist and of how the
    child processes end. *)
Definition run_python_tests (path_exists : string -> bool)
    (run : string -> outcome) : list result :=
  (if path_exists demo_path
   then [python_result "Demo Testing System" (run demo_path)] else [])
  ++ (if path_exists validator_path
      then [python_result "Test System Validator" (run validator_path)]
      else []).

(** The whole run: the status the process exits with, as a function of
    which paths exist and of how the child processes end. *)
Definition run_all (path_exists : string -> bool) (run : string -> outcome)
  : Z :=
  exit_status (discover_test_scripts path_exists)
              (run_python_tests path_exists run).

(** The number of PowerShell entries of a list of scripts. *)
Definition ps_count (test_scripts : list script) : nat :=
  List.length (filter (fun script => String.eqb (s_type script) "powershell")
                      test_scripts).

(** The number of results that are not a pass. *)
Definition failures (results : list result) : nat :=
  List.length (filter (fun r => negb (is_pass r)) results).

(** The child process ended with return code 0. *)
Definition ended_well (o : outcome) : bool :=
  match o with
  | Exited returncode => (returncode =? 0)%Z
  | Raised => false
  end.

Definition is_powershell (s : script) : bool :=
  String.eqb (s_type s) "powershell".

End Runner.

(** ** scripts/pre-commit-quality-check.py *)
Module PreCommit.
Import Re Standards.
Local Open Scope Z_scope.

(** [\b(?<![\w.])\d{3,}\b(?![\w.])] *)
Definition magic_number_re : regex :=
  seqs [WordBoundary; NotBehind word_or_dot; Seq d_ (at_least_two d_);
        WordBoundary; NotAhead word_or_dot].

Definition line_issue (il : nat * text) : string :=
  ("Line " ++ PyStr.str_of_nat (fst il) ++ ": Exceeds 120 characters ("
     ++ PyStr.str_of_nat (List.length (snd il)) ++ " chars)")%string.

(** One message for every line with more than 120 characters. *)
Definition line_issues (lines : list text) : list string :=
  map line_issue
      (filter (fun il => (120 <? List.length (snd il))%nat)
              (PyStr.enumerate 1 lines)).

Definition property_issue (prop : text) : string :=
  ("Property '" ++ PyStr.str prop ++ "' should be PascalCase")%string.

Definition filtered_magic (content : text) : list text :=
  filter (fun n => negb (PyStr.mem n acceptable_numbers))
         (findall magic_number_re content).

Definition magic_issues (content : text) : list string :=
  if len (filtered_magic content) >? 3
  then [("Found " ++ fmt (len (filtered_magic content))
           ++ " potential magic numbers")%string]
  else [].

Definition docs_issues (content : text) : list string :=
  if ((public_decls content >? summaries content)
      && (public_decls content >? 0))%bool
  then [("Missing XML docs: "
           ++ fmt (public_decls content - summaries content) ++ " of "
           ++ fmt (public_decls content) ++ " public members")%string]
  else [].

(** [file_issues] for a file with the text [content]. *)
Definition file_issues (content : text) : list string :=
  line_issues (PyStr.split nl content)
  ++ map property_issue (camel_props content)
  ++ magic_issues content
  ++ docs_issues content.

Definition more_line (n : nat) : list string :=
  if (5 <? n)%nat
  then [("  - ... and " ++ PyStr.str_of_nat (n - 5) ++ " more issues")%string]
  else [].

(** What a file adds to [issues]: nothing without an issue, otherwise a
    header, the first five issues and a line for the others. *)
Definition file_block (file_path content : text) : list string :=
  match file_issues content with
  | [] => []
  | _ :: _ =>
      [String nl (PyStr.str file_path ++ ":")]
      ++ map (fun issue => ("  - " ++ issue)%string)
             (firstn 5 (file_issues content))
      ++ more_line (List.length (file_issues content))
  end.

(** The staged C# files, from the output of [git diff --cached]. *)
Definition staged_files (stdout : text) : list text :=
  filter (PyStr.endswith (txt ".cs")) (PyStr.split nl (PyStr.strip stdout)).

(** [check_csharp_files].  [git] is the output of the [git] call, [None]
    when it fails with [CalledProcessError]; [read] gives the text of a
    path that exists. *)
Definition check_csharp_files (git : option text)
    (read : text -> option text) : list string :=
  match git with
  | None => ["Failed to get staged files"%string]
  | Some stdout =>
      match staged_files stdout with
      | [] => []
      | staged =>
          flat_map (fun file_path =>
                      match read file_path with
                      | None => []
                      | Some content => file_block file_path content
                      end) staged
      end
  end.

(** [main]: the status the hook exits with. [in_git] says whether [.git]
    exists. *)
Definition main (in_git : bool) (git : option text)
    (read : text -> option text) : Z :=
  if negb in_git then 1
  else match check_csharp_files git read with
       | _ :: _ => 1
       | [] => 0
       end.

End PreCommit.

(** * Properties *)

(** ** The matcher *)
Module ReFacts.
Import Re.

Lemma in_step_refl st : in_step st st.
Proof. split; reflexivity. Qed.

Lemma in_step_trans a b c : in_step a b -> in_step b c -> in_step a c.
Proof. unfold in_step. intros [? ?] [? ?]. split; lia. Qed.

Create HintDb restep.
#[local] Hint Resolve in_step_refl in_step_trans : restep.

Section Repetition.

Variable body : mstate -> (mstate -> option mstate) -> option mstate.

(** The body looks at its continuation only on states of the attempt. *)
Hypothesis body_ext : forall st k k',
  (forall st', in_step st st' -> k st' = k' st') -> body st k = body st k'.

Lemma star_loop_ext greedy fuel : forall st k k',
  (forall st', in_step st st' -> k st' = k' st') ->
  star_loop body greedy k fuel st = star_loop body greedy k' fuel st.
Proof.
  induction fuel as [|fuel IH]; intros st k k' Hk; simpl; [reflexivity|].
  assert (Hbody :
    body st (fun st' => if pos st <? pos st'
                        then star_loop body greedy k fuel st' else None)
    = body st (fun st' => if pos st <? pos st'
                          then star_loop body greedy k' fuel st' else None)).
  { apply body_ext. intros st' Hst'.
    destruct (pos st <? pos st'); [|reflexivity].
    apply IH. intros st'' Hst''. apply Hk. eauto with restep. }
  rewrite Hbody, (Hk st) by auto with restep. reflexivity.
Qed.

(** Fuel above the length of the remaining text is never used up: any two
    such amounts give the same result. *)
Lemma star_loop_enough greedy k : forall n m st,
  List.length (rest st) < n -> List.length (rest st) < m ->
  star_loop body greedy k n st = star_loop body greedy k m st.
Proof.
  induction n as [|n IH]; intros m st Hn Hm; [lia|].
  destruct m as [|m]; [lia|]. simpl.
  assert (Hbody :
    body st (fun st' => if pos st <? pos st'
                        then star_loop body greedy k n st' else None)
    = body st (fun st' => if pos st <? pos st'
                          then star_loop body greedy k m st' else None)).
  { apply body_ext. intros st' [Hle Hlen].
    destruct (pos st <? pos st') eqn:Hlt; [|reflexivity].
    apply Nat.ltb_lt in Hlt. apply IH; lia. }
  rewrite Hbody. reflexivity.
Qed.

End Repetition.

Lemma exec_ext r : forall st k k',
  (forall st', in_step st st' -> k st' = k' st') -> exec r st k = exec r st k'.
Proof.
  induction r as [|f|a IHa b IHb|a IHa b IHb|g a IHa|a IHa| |f|f];
    intros st k k' Hk; cbn [exec].
  - apply Hk. auto with restep.
  - destruct (rest st) as [|c s] eqn:Hrest; [reflexivity|].
    destruct (f c); [|reflexivity].
    apply Hk. unfold in_step. simpl. rewrite Hrest. simpl. lia.
  - apply IHa. intros st' Hst'. apply IHb. intros st'' Hst''.
    apply Hk. eauto with restep.
  - rewrite (IHa st k k' Hk), (IHb st k k' Hk). reflexivity.
  - apply star_loop_ext; assumption.
  - apply IHa. intros st' Hst'. apply Hk. exact Hst'.
  - rewrite (Hk st) by auto with restep. reflexivity.
  - rewrite (Hk st) by auto with restep. reflexivity.
  - rewrite (Hk st) by auto with restep. reflexivity.
Qed.

(** The fuel that [exec] gives to a repetition is enough. *)
Lemma star_loop_fuel a greedy k st n :
  List.length (rest st) < n ->
  exec (Star greedy a) st k = star_loop (exec a) greedy k n st.
Proof.
  intros Hn. cbn [exec]. apply star_loop_enough; [apply exec_ext | lia | exact Hn].
Qed.

(** A result comes from the continuation, called at least [min_len r]
    characters further on. *)
Lemma exec_min_len r : forall st k m,
  exec r st k = Some m ->
  exists st', pos st + min_len r <= pos st' /\ k st' = Some m.
Proof.
  induction r as [|f|a IHa b IHb|a IHa b IHb|g a IHa|a IHa| |f|f];
    intros st k m H; cbn [exec min_len] in H |- *.
  - exists st. split; [lia | exact H].
  - destruct (rest st) as [|c s]; [discriminate|].
    destruct (f c); [|discriminate].
    eexists. split; [|exact H]. simpl. lia.
  - apply IHa in H. destruct H as [st1 [H1 H]].
    apply IHb in H. destruct H as [st2 [H2 H]].
    exists st2. split; [lia | exact H].
  - destruct (exec a st k) as [m'|] eqn:Ha.
    + apply IHa in Ha. destruct Ha as [st1 [H1 Ha]].
      exists st1. split; [lia | congruence].
    + apply IHb in H. destruct H as [st1 [H1 H]].
      exists st1. split; [lia | exact H].
  - rewrite Nat.add_0_r. revert H.
    generalize (S (List.length (rest st))) as fuel. intros fuel. revert st m.
    induction fuel as [|fuel IHf]; intros st m H; simpl in H; [discriminate|].
    assert (Hmore : forall m,
      exec a st (fun st' => if pos st <? pos st'
                            then star_loop (exec a) g k fuel st' else None)
      = Some m -> exists st', pos st <= pos st' /\ k st' = Some m).
    { intros m0 Hm0. apply IHa in Hm0. destruct Hm0 as [st1 [H1 Hm0]].
      destruct (pos st <? pos st1) eqn:Hlt; [|discriminate].
      apply Nat.ltb_lt in Hlt. apply IHf in Hm0.
      destruct Hm0 as [st2 [H2 Hm0]]. exists st2. split; [lia | exact Hm0]. }
    destruct g.
    + destruct (exec a st _) as [m'|] eqn:Ha.
      * apply Hmore. congruence.
      * exists st. split; [lia | exact H].
    + destruct (k st) as [m'|] eqn:Hk.
      * exists st. split; [lia | congruence].
      * apply Hmore. exact H.
  - apply IHa in H. destruct H as [st1 [H1 H]].
    eexists. split; [|exact H]. simpl. lia.
  - destruct (xorb _ _); [|discriminate]. exists st. split; [lia | exact H].
  - exists st. split; [lia|].
    destruct (prev st) as [c|]; [destruct (f c); [discriminate|]|]; exact H.
  - exists st. split; [lia|].
    destruct (rest st) as [|c s]; [|destruct (f c); [discriminate|]]; exact H.
Qed.

(** No match is shorter than [min_len]: a pattern with a positive
    [min_len] never matches the empty text. *)
Lemma match_at_min_len r before s n g :
  match_at r before s = Some (n, g) -> min_len r <= n.
Proof.
  unfold match_at. intros H.
  destruct (exec r _ _) as [st|] eqn:He; [|discriminate].
  apply exec_min_len in He. destruct He as [st' [Hle Hst']].
  simpl in Hle. inversion Hst'; subst. inversion H; subst. lia.
Qed.

(** Without a match, [re.sub] gives the text back. *)
Lemma sub_no_match r repl : forall s before,
  search_from r before s = None -> sub_from r repl 0 before s = s.
Proof.
  induction s as [|c s IH]; intros before H; simpl in H |- *.
  - destruct (match_at r before []); [discriminate | reflexivity].
  - destruct (match_at r before (c :: s)); [discriminate|].
    destruct (search_from r (Some c) s) eqn:Hs; [discriminate|].
    rewrite IH by exact Hs. reflexivity.
Qed.

Lemma sub_id r repl s : search r s = None -> sub r repl s = s.
Proof. apply sub_no_match. Qed.

(** [re.findall] finds something exactly when [re.search] does. *)
Lemma findall_search r : forall s before,
  findall_from r 0 before s = [] <-> search_from r before s = None.
Proof.
  induction s as [|c s IH]; intros before; simpl.
  - destruct (match_at r before []); split; intros H;
      try discriminate; reflexivity.
  - destruct (match_at r before (c :: s)).
    + split; intros H; discriminate.
    + rewrite IH. destruct (search_from r (Some c) s); simpl;
        split; intros H; try discriminate; reflexivity.
Qed.

(** [re.search] finds something exactly when the pattern occurs. *)
Lemma search_occurs r : forall s before,
  search_from r before s <> None <-> occurs_from r before s.
Proof.
  induction s as [|c s IH]; intros before; simpl.
  - split.
    + intros H. exists [], []. split; [reflexivity|]. simpl.
      destruct (match_at r before []); [discriminate | contradiction].
    + intros [pre [suf [Heq H]]].
      destruct pre; [|discriminate]. destruct suf; [|discriminate].
      simpl in H. destruct (match_at r before []); [discriminate|contradiction].
  - destruct (match_at r before (c :: s)) eqn:Hm.
    + split; [|discriminate]. intros _.
      exists [], (c :: s). split; [reflexivity|]. simpl. rewrite Hm. discriminate.
    + split.
      * intros H. assert (Hs : search_from r (Some c) s <> None).
        { destruct (search_from r (Some c) s); [discriminate|contradiction]. }
        apply IH in Hs. destruct Hs as [pre [suf [Heq Hs]]].
        exists (c :: pre), suf. split; [simpl; congruence | exact Hs].
      * intros [pre [suf [Heq H]]]. destruct pre as [|c' pre].
        { simpl in Heq, H. subst suf. congruence. }
        simpl in Heq. inversion Heq; subst c' s.
        assert (Hs : search_from r (Some c) (pre ++ suf) <> None).
        { apply IH. exists pre, suf. split; [reflexivity | exact H]. }
        destruct (search_from r (Some c) (pre ++ suf));
          [discriminate | contradiction].
Qed.

Lemma findall_occurs r s : findall r s <> [] <-> occurs r s.
Proof.
  unfold findall, occurs. rewrite <- search_occurs.
  split; intros H Hn; apply H; apply findall_search; exact Hn.
Qed.

End ReFacts.

(** ** find-braces.py *)
Module FindBracesFacts.
Import Re FindBraces.

(** *** Counting *)

Lemma scan_chars_count i line : forall chars j acc,
  let acc' := fold_left (scan_char i line)
                (combine (seq j (List.length chars)) chars) acc in
  List.length (open_braces acc')
    = List.length (open_braces acc) + count_occ ascii_dec chars "{"%char /\
  List.length (close_braces acc')
    = List.length (close_braces acc) + count_occ ascii_dec chars "}"%char.
Proof.
  induction chars as [|c chars IH]; intros j acc; simpl.
  - split; lia.
  - specialize (IH (S j) (scan_char i line acc (j, c))).
    simpl in IH. destruct IH as [IHo IHc]. rewrite IHo, IHc.
    unfold scan_char.
    destruct (ascii_dec c "{") as [->|Ho]; simpl.
    + destruct (ascii_dec "{" "}") as [E|_]; [discriminate E|].
      rewrite length_app. simpl. split; lia.
    + assert (Hb : Ascii.eqb c "{" = false) by (apply Ascii.eqb_neq; exact Ho).
      rewrite Hb. destruct (ascii_dec c "}") as [->|Hc]; simpl.
      * rewrite length_app. simpl. split; lia.
      * assert (Hb' : Ascii.eqb c "}" = false)
          by (apply Ascii.eqb_neq; exact Hc).
        rewrite Hb'. split; lia.
Qed.

Lemma scan_lines_count : forall lines i acc,
  let acc' := fold_left scan_line
                (combine (seq i (List.length lines)) lines) acc in
  List.length (open_braces acc')
    = List.length (open_braces acc)
      + count_occ ascii_dec (List.concat lines) "{"%char /\
  List.length (close_braces acc')
    = List.length (close_braces acc)
      + count_occ ascii_dec (List.concat lines) "}"%char.
Proof.
  induction lines as [|line lines IH]; intros i acc; simpl.
  - split; lia.
  - specialize (IH (S i) (scan_line acc (i, line))).
    simpl in IH. destruct IH as [IHo IHc]. rewrite IHo, IHc.
    unfold scan_line, PyStr.enumerate.
    destruct (scan_chars_count i line line 0 acc) as [Ho Hc].
    simpl in Ho, Hc. rewrite Ho, Hc, !count_occ_app. split; lia.
Qed.

Lemma split_cons sep s : exists l ls, PyStr.split sep s = l :: ls.
Proof.
  destruct s as [|c s]; simpl; [eauto|].
  destruct (Ascii.eqb c sep); [eauto|].
  destruct (PyStr.split sep s); eauto.
Qed.

(** Splitting at newlines loses nothing but the newlines. *)
Lemma count_split (c : ascii) : c <> nl -> forall s,
  count_occ ascii_dec (List.concat (PyStr.split nl s)) c
  = count_occ ascii_dec s c.
Proof.
  intros Hc. induction s as [|x s IH]; [reflexivity|].
  cbn [PyStr.split]. destruct (Ascii.eqb x nl) eqn:Hx.
  - apply Ascii.eqb_eq in Hx. subst x. cbn [List.concat app].
    rewrite IH, count_occ_cons_neq by congruence. reflexivity.
  - destruct (split_cons nl s) as [l [ls Hs]]. rewrite Hs in IH |- *.
    cbn [List.concat app] in IH |- *.
    destruct (ascii_dec x c) as [->|Hxc].
    + rewrite !count_occ_cons_eq by reflexivity. rewrite IH. reflexivity.
    + rewrite !count_occ_cons_neq by exact Hxc. exact IH.
Qed.

(** The scan counts the braces of the cleaned text. *)
Lemma counts_of_clean content :
  open_count content
    = count_occ ascii_dec (content_clean content) "{"%char /\
  close_count content
    = count_occ ascii_dec (content_clean content) "}"%char.
Proof.
  unfold open_count, close_count, scan, scan_lines, lines_of, PyStr.enumerate.
  destruct (scan_lines_count (PyStr.split nl (content_clean content)) 1
              (Braces [] [])) as [Ho Hc].
  simpl in Ho, Hc. rewrite Ho, Hc, !count_split by discriminate.
  split; reflexivity.
Qed.

(** C1. When none of the four preprocessing patterns (here-string pair,
    hashtable literal, single-line if/else, [$( if/else )] wrapper) matches
    anywhere in the text, the preprocessing leaves the text as it is and
    the reported difference is the naive one: the number of opening braces
    of the text minus the number of its closing braces. *)
Theorem no_pattern_naive_difference (content : text) :
  search here_string content = None ->
  search hashtable content = None ->
  search inline_if content = None ->
  search inline_expr content = None ->
  content_clean content = content /\
  difference content = naive_difference content.
Proof.
  intros H1 H2 H3 H4.
  assert (Hclean : content_clean content = content).
  { unfold content_clean, content_no_inline_if, content_no_hashtables,
      content_no_herestrings.
    rewrite (ReFacts.sub_id here_string [] content H1).
    rewrite (ReFacts.sub_id hashtable [] content H2).
    rewrite (ReFacts.sub_id inline_if [] content H3).
    apply ReFacts.sub_id. exact H4. }
  split; [exact Hclean|].
  unfold difference, naive_difference.
  destruct (counts_of_clean content) as [Ho Hc].
  rewrite Ho, Hc, Hclean. reflexivity.
Qed.

(** A function body with one brace left open: no pattern matches it. *)
Lemma no_pattern_naive_difference_witness :
  content_clean (txt "function f { if ($x) { 1 }")
    = txt "function f { if ($x) { 1 }" /\
  difference (txt "function f { if ($x) { 1 }")
    = naive_difference (txt "function f { if ($x) { 1 }").
Proof.
  apply (no_pattern_naive_difference (txt "function f { if ($x) { 1 }"));
    vm_compute; reflexivity.
Defined.

(** Each of the four patterns needs at least one character, so the scan of
    [re.sub] never meets an empty match. *)
Lemma brace_patterns_consume :
  Forall (fun r => forall before s n g,
            match_at r before s = Some (n, g) -> 1 <= n)
         [here_string; hashtable; inline_if; inline_expr].
Proof.
  repeat constructor; intros before s n g H;
    apply ReFacts.match_at_min_len in H;
    (eapply Nat.le_trans; [|exact H]); vm_compute; lia.
Qed.

(** A hashtable literal alone is removed whole. *)
Example hashtable_elided :
  open_count (txt "@{ a = 1; b = 2 }") = 0 /\
  close_count (txt "@{ a = 1; b = 2 }") = 0.
Proof. vm_compute. split; reflexivity. Qed.

(** A here-string over several lines, with braces inside, between two
    balanced pairs: only the pairs outside it are counted. *)
Example here_string_elided :
  let content :=
    txt "a { }" ++ [nl] ++ txt "$x = @" ++ [dq] ++ [nl] ++ txt "{ {" ++ [nl]
    ++ txt "}" ++ [nl] ++ [dq] ++ txt "@" ++ [nl] ++ txt "b { }" in
  find_unbalanced_braces "report.ps1" content
  = ([ "File: report.ps1";
       "Open braces (excluding here-strings, hashtables, and inline ifs): 2";
       "Close braces (excluding here-strings, hashtables, and inline ifs): 2";
       "Difference: 0" ]%string, true).
Proof. vm_compute. reflexivity. Qed.

(** *** Where the entries come from *)

Lemma nth_error_middle {A} (pre : list A) x post :
  nth_error (pre ++ x :: post) (List.length pre) = Some x.
Proof. induction pre; simpl; auto. Qed.

Section Located.

Variable source : text.

Lemma scan_chars_located i line :
  1 <= i -> nth_error (PyStr.split nl source) (i - 1) = Some line ->
  forall chars pre acc, line = pre ++ chars -> all_located source acc ->
  all_located source (fold_left (scan_char i line)
                 (combine (seq (List.length pre) (List.length chars)) chars)
                 acc).
Proof.
  intros Hi Hline. induction chars as [|c chars IH]; intros pre acc Heq Hacc;
    simpl; [exact Hacc|].
  replace (S (List.length pre)) with (List.length (pre ++ [c]))
    by (rewrite length_app; simpl; lia).
  apply IH; [rewrite <- app_assoc; exact Heq|].
  assert (Hat : nth_error line (List.length pre) = Some c)
    by (rewrite Heq; apply nth_error_middle).
  destruct Hacc as [Ho Hc]. unfold scan_char.
  destruct (Ascii.eqb c "{") eqn:E1; [|destruct (Ascii.eqb c "}") eqn:E2].
  - apply Ascii.eqb_eq in E1. subst c. split; simpl; [|exact Hc].
    apply Forall_app. split; [exact Ho|]. constructor; [|constructor].
    exists line. simpl. auto.
  - apply Ascii.eqb_eq in E2. subst c. split; simpl; [exact Ho|].
    apply Forall_app. split; [exact Hc|]. constructor; [|constructor].
    exists line. simpl. auto.
  - split; assumption.
Qed.

Lemma scan_lines_located : forall lines pre acc,
  PyStr.split nl source = pre ++ lines -> all_located source acc ->
  all_located source (fold_left scan_line
                 (combine (seq (S (List.length pre)) (List.length lines)) lines)
                 acc).
Proof.
  induction lines as [|line lines IH]; intros pre acc Heq Hacc; simpl;
    [exact Hacc|].
  replace (S (S (List.length pre))) with (S (List.length (pre ++ [line])))
    by (rewrite length_app; simpl; lia).
  apply IH; [rewrite <- app_assoc; exact Heq|].
  unfold scan_line, PyStr.enumerate.
  apply (scan_chars_located (S (List.length pre)) line) with (pre := []);
    [lia | | reflexivity | exact Hacc].
  simpl. rewrite Nat.sub_0_r, Heq. apply nth_error_middle.
Qed.

End Located.

(** C5, as the code has it. Every entry of [open_braces] and of
    [close_braces] points into the preprocessed text: its line number and
    column are those of a brace of that text, and its context is the
    stripped line of the preprocessed text with that number. *)
Theorem context_is_cleaned_line (content : text) :
  Forall (located (content_clean content) "{") (open_braces (scan content)) /\
  Forall (located (content_clean content) "}") (close_braces (scan content)).
Proof.
  unfold scan, scan_lines, lines_of, PyStr.enumerate.
  apply (scan_lines_located (content_clean content)
           (PyStr.split nl (content_clean content)) [] (Braces [] [])).
  - reflexivity.
  - split; constructor.
Qed.

(** C5, as the specification has it, fails: on the one-line text
    [x @{ a } {] the only entry has the context [x  {], the line after the
    hashtable literal was removed, and not the line of the input. *)
Lemma context_is_not_original_line :
  ~ (forall b, In b (open_braces (scan (txt "x @{ a } {"))
                     ++ close_braces (scan (txt "x @{ a } {"))) ->
               context_from (txt "x @{ a } {") b).
Proof.
  intros H. specialize (H (1, 3, txt "x  {")).
  destruct H as [line [Hline Hctx]].
  - vm_compute. left. reflexivity.
  - vm_compute in Hline. inversion Hline; subst line.
    vm_compute in Hctx. discriminate Hctx.
Qed.

(** *** The report *)

Lemma last_n_length {A} n (l : list A) :
  List.length (PyStr.last_n n l) = Nat.min n (List.length l).
Proof. unfold PyStr.last_n. rewrite length_skipn. lia. Qed.

Lemma last_n_suffix {A} n (l : list A) :
  exists earlier, l = earlier ++ PyStr.last_n n l.
Proof.
  exists (firstn (List.length l - n) l). unfold PyStr.last_n.
  symmetry. apply firstn_skipn.
Qed.

End FindBracesFacts.

(** ** tests/code-standards-validator.py *)
Module StandardsFacts.
Import Re Standards.
Local Open Scope Z_scope.

(** *** One rule at a time *)

Lemma check_patterns_fires content : forall patterns m,
  check_patterns patterns content m
  = if existsb (fun pattern =>
                  nonempty (findall pattern (PyStr.lower content))) patterns
    then report secrets_msg (set_hardcoded_strings 1 m)
    else m.
Proof.
  induction patterns as [|pattern patterns IH]; intros m; cbn [check_patterns existsb].
  - reflexivity.
  - destruct (findall pattern (PyStr.lower content)); cbn [nonempty orb].
    + apply IH.
    + reflexivity.
Qed.

Section Steps.

Variables (lines : list text) (content : text).

Let fired := fires lines content.
Let msg := message lines content.

Lemma long_lines_step m :
  check_long_lines lines m
  = if fired LineLength then report (msg LineLength) (set_long_lines 1 m) else m.
Proof. reflexivity. Qed.

Lemma docs_step m :
  check_docs content m
  = let m := set_members (public_members content) (xml_docs content) m in
    if fired Documentation then report (msg Documentation) (set_missing_docs 1 m)
    else m.
Proof. reflexivity. Qed.

Lemma naming_step m :
  check_naming content m
  = if fired Naming then report (msg Naming) (set_camel_case_props 1 m) else m.
Proof.
  unfold check_naming, fired, fires. destruct (camel_props content); reflexivity.
Qed.

Lemma usings_step m :
  check_usings lines m
  = if fired UsingStatements
    then report (msg UsingStatements) (set_unused_usings 1 m) else m.
Proof. reflexivity. Qed.

Lemma secrets_step m :
  check_secrets content m
  = if fired Secrets then report (msg Secrets) (set_hardcoded_strings 1 m)
    else m.
Proof. apply check_patterns_fires. Qed.

Lemma magic_step m :
  check_magic content m
  = if fired MagicNumbers then report (msg MagicNumbers) (set_magic_numbers 1 m)
    else m.
Proof. reflexivity. Qed.

Lemma complexity_step m :
  check_complexity content m
  = if fired MethodComplexity
    then report (msg MethodComplexity)
           (set_complex_methods (len (complex_blocks content)) m)
    else m.
Proof.
  unfold check_complexity, fired, fires.
  destruct (complex_blocks content); reflexivity.
Qed.

Lemma complexity_count :
  len (complex_blocks content)
  = if fired MethodComplexity then len (complex_blocks content) else 0.
Proof.
  unfold fired, fires. destruct (complex_blocks content); reflexivity.
Qed.

(** The metrics of a document, entry by entry. *)
Lemma analyze_file_standards_eq file_path :
  analyze_file_standards file_path lines content
  = Metrics (b2z (fired LineLength)) (b2z (fired Documentation))
      (b2z (fired Naming)) (b2z (fired UsingStatements)) (b2z (fired Secrets))
      (len (complex_blocks content)) (b2z (fired MagicNumbers))
      (len lines) (xml_docs content) (public_members content)
      (len (filter fired rules)) (map msg (filter fired rules)).
Proof.
  unfold analyze_file_standards.
  rewrite complexity_step, magic_step, secrets_step, usings_step, naming_step,
    docs_step, long_lines_step.
  pose proof complexity_count as Hn.
  generalize dependent (len (complex_blocks content)). intros n Hn.
  generalize dependent msg. generalize dependent fired. intros f Hn g.
  unfold rules, init_metrics, len. cbn [filter].
  destruct (f LineLength), (f Documentation), (f Naming), (f UsingStatements),
    (f Secrets), (f MagicNumbers), (f MethodComplexity);
    try (rewrite Hn); reflexivity.
Qed.

End Steps.

(** Every pattern of the scanner needs at least one character. *)
Lemma scanner_patterns_consume :
  Forall (fun r => 1 <= min_len r)%nat
         ([public_member_re; camel_prop_re; magic_number_re; method_re;
           public_decl_re; summary_re] ++ hardcoded_patterns).
Proof. repeat constructor; vm_compute; lia. Qed.

(** *** One document *)

(** C7. The [issues] entry is the number of rules, out of the seven, whose
    condition holds for the document, and the [violations] list holds the
    message of each of these rules, once and in the order of the checks. *)
Theorem issues_count_fired_rules (file_path : string) (lines : list text)
    (content : text) :
  let m := analyze_file_standards file_path lines content in
  let fired := filter (fires lines content) rules in
  List.length rules = 7%nat /\ NoDup rules /\
  issues m = len fired /\
  violations m = map (message lines content) fired /\
  len (violations m) = issues m.
Proof.
  cbv zeta. rewrite analyze_file_standards_eq. cbn [issues violations].
  split; [reflexivity|]. split.
  - unfold rules. repeat constructor; cbn [In]; intuition discriminate.
  - split; [reflexivity|]. split; [reflexivity|].
    unfold len. rewrite length_map. reflexivity.
Qed.


(** *** Hardcoded secrets *)

Lemma message_secrets lines content r :
  message lines content r = secrets_msg <-> r = Secrets.
Proof.
  split; [|intros ->; reflexivity].
  destruct r; intros H; try reflexivity; exfalso;
    apply (f_equal (fun s => match s with
                             | String c _ => c
                             | EmptyString => "000"%char
                             end)) in H;
    cbv in H; discriminate H.
Qed.

Lemma count_secrets_msg lines content : forall l,
  count_occ string_dec (map (message lines content) l) secrets_msg
  = count_occ rule_eq_dec l Secrets.
Proof.
  induction l as [|r l IH]; [reflexivity|]. cbn [map].
  destruct (rule_eq_dec r Secrets) as [->|Hr].
  - rewrite !count_occ_cons_eq by reflexivity. rewrite IH. reflexivity.
  - rewrite !count_occ_cons_neq; [exact IH | exact Hr |].
    intros H. apply Hr. apply (message_secrets lines content). exact H.
Qed.

Lemma count_occ_filter {A} (dec : forall a b : A, {a = b} + {a <> b})
    (f : A -> bool) x : forall l,
  count_occ dec (filter f l) x = if f x then count_occ dec l x else 0%nat.
Proof.
  induction l as [|y l IH]; cbn [filter]; [destruct (f x); reflexivity|].
  destruct (dec y x) as [->|Hy].
  - destruct (f x) eqn:Hx.
    + rewrite !count_occ_cons_eq by reflexivity. rewrite IH. reflexivity.
    + exact IH.
  - destruct (f y).
    + rewrite !count_occ_cons_neq by exact Hy. exact IH.
    + rewrite count_occ_cons_neq by exact Hy. exact IH.
Qed.

(** The secret rule fires exactly when one of its patterns occurs in the
    lower-cased text. *)
Lemma secrets_fire_iff lines content :
  fires lines content Secrets = true <->
  exists pattern, In pattern hardcoded_patterns /\
                  occurs pattern (PyStr.lower content).
Proof.
  cbn [fires]. rewrite existsb_exists.
  split; intros [pattern [Hin H]]; exists pattern; (split; [exact Hin|]).
  - apply ReFacts.findall_occurs. destruct (findall pattern _);
      [discriminate H | discriminate].
  - apply ReFacts.findall_occurs in H. destruct (findall pattern _);
      [contradiction | reflexivity].
Qed.

(** The example of the specification, in any letter case and anywhere in
    a document, is an occurrence of the first pattern. *)
Lemma password_literal_occurs (pre w post : text) :
  PyStr.lower w = password_literal ->
  exists pattern, In pattern hardcoded_patterns /\
                  occurs pattern (PyStr.lower (pre ++ w ++ post)).
Proof.
  intros Hw. eexists. split; [left; reflexivity|].
  exists (PyStr.lower pre), (password_literal ++ PyStr.lower post). split.
  - unfold PyStr.lower in *. rewrite !map_app, Hw. reflexivity.
  - generalize (char_before None (PyStr.lower pre)) as before.
    generalize (PyStr.lower post) as tail. intros tail before.
    unfold match_at. vm_compute. discriminate.
Qed.

(** C6. When a hardcoded-secret pattern occurs in the lower-cased text of
    the document, whichever of the two patterns and however many times,
    the secrets check sets its flag, adds one to the issue count and
    appends one security message; the violations of the whole scan hold
    that message exactly once. *)
Theorem secrets_rule_fires_once (file_path : string) (lines : list text)
    (content : text) (m : metrics) :
  (exists pattern, In pattern hardcoded_patterns /\
                   occurs pattern (PyStr.lower content)) ->
  hardcoded_strings (check_secrets content m) = 1 /\
  issues (check_secrets content m) = issues m + 1 /\
  violations (check_secrets content m) = violations m ++ [secrets_msg] /\
  count_occ string_dec
    (violations (analyze_file_standards file_path lines content)) secrets_msg
  = 1%nat.
Proof.
  intros H. apply (secrets_fire_iff lines content) in H.
  rewrite (secrets_step lines content), H.
  repeat (split; [reflexivity|]).
  rewrite analyze_file_standards_eq. cbn [violations].
  rewrite count_secrets_msg, count_occ_filter, H. reflexivity.
Qed.

(** A document with the mixed-case assignment [PassWord = "abc123"]. *)
Lemma secrets_rule_fires_once_witness :
  hardcoded_strings
    (check_secrets secret_line (init_metrics (PyStr.readlines secret_line))) = 1 /\
  issues
    (check_secrets secret_line (init_metrics (PyStr.readlines secret_line)))
  = issues (init_metrics (PyStr.readlines secret_line)) + 1 /\
  violations
    (check_secrets secret_line (init_metrics (PyStr.readlines secret_line)))
  = violations (init_metrics (PyStr.readlines secret_line)) ++ [secrets_msg] /\
  count_occ string_dec
    (violations
       (analyze_file_standards "Login.cs" (PyStr.readlines secret_line)
          secret_line)) secrets_msg
  = 1%nat.
Proof.
  apply (secrets_rule_fires_once "Login.cs" (PyStr.readlines secret_line)
           secret_line (init_metrics (PyStr.readlines secret_line))).
  exists (hd Eps hardcoded_patterns). split; [left; reflexivity|].
  exists (txt "var "), (PyStr.lower (skipn 4 secret_line)).
  split; [vm_compute; reflexivity | vm_compute; discriminate].
Defined.

(** *** The repository *)

Lemma readlines_concat : forall s, List.concat (PyStr.readlines s) = s.
Proof.
  induction s as [|c s IH]; [reflexivity|]. cbn [PyStr.readlines].
  destruct (Ascii.eqb c nl).
  - cbn [List.concat app]. rewrite IH. reflexivity.
  - destruct (PyStr.readlines s) as [|l ls]; cbn [List.concat app] in IH |- *.
    + rewrite <- IH. reflexivity.
    + rewrite <- IH. reflexivity.
Qed.

Lemma total_flag_aggregate a m r :
  total_flag (aggregate a m) r = total_flag a r + flag m r.
Proof. destruct r; reflexivity. Qed.

(** What a file adds to the sum of rule [r]. *)
Lemma analyze_all_totals r : forall cs_files acc,
  total_flag (fst (fold_left analyze_one cs_files acc)) r
  = total_flag (fst acc) r
    + sum_over (fun f => match metrics_of f with
                         | Some m => flag m r
                         | None => 0
                         end) cs_files.
Proof.
  induction cs_files as [|f cs_files IH]; intros acc; cbn [fold_left sum_over fold_right].
  - lia.
  - rewrite IH. fold (sum_over (fun f => match metrics_of f with
                                          | Some m => flag m r
                                          | None => 0
                                          end) cs_files).
    unfold analyze_one, metrics_of. destruct (snd f) as [file_text|].
    + cbn [fst]. rewrite total_flag_aggregate. lia.
    + lia.
Qed.

Lemma files_firing_sum r : forall cs_files,
  files_firing r cs_files = sum_over (fun f => b2z (fires_on r f)) cs_files.
Proof.
  unfold files_firing, len.
  induction cs_files as [|f cs_files IH]; [reflexivity|].
  cbn [filter sum_over fold_right].
  fold (sum_over (fun f => b2z (fires_on r f)) cs_files). rewrite <- IH.
  destruct (fires_on r f); cbn [b2z List.length]; lia.
Qed.

Lemma sum_over_ext {A} (g h : A -> Z) : (forall x, g x = h x) ->
  forall l, sum_over g l = sum_over h l.
Proof.
  intros Hgh. induction l as [|x l IH]; [reflexivity|].
  cbn [sum_over fold_right]. fold (sum_over g l). fold (sum_over h l).
  rewrite Hgh, IH. reflexivity.
Qed.

(** The flag of a file is 1 when the rule fires on it, for every rule but
    the complexity rule, whose entry is the number of complex methods. *)
Lemma flag_of_file r f :
  match metrics_of f with Some m => flag m r | None => 0 end
  = match r with
    | MethodComplexity => complex_methods_in f
    | _ => b2z (fires_on r f)
    end.
Proof.
  unfold metrics_of, fires_on, complex_methods_in.
  destruct (snd f) as [file_text|]; [|destruct r; reflexivity].
  rewrite analyze_file_standards_eq. destruct r; reflexivity.
Qed.

(** The severity buckets of the aggregated report. Five of the six sums
    count files; the complexity sum counts methods. *)
Lemma severity_buckets (cs_files : list cs_file) :
  let i := res_issues (analyze_repository_standards cs_files) in
  critical i = files_firing Secrets cs_files /\
  major i = files_firing Documentation cs_files
            + files_firing Naming cs_files
            + sum_over complex_methods_in cs_files /\
  minor i = files_firing LineLength cs_files
            + files_firing UsingStatements cs_files
            + files_firing MagicNumbers cs_files /\
  fixable i = major i + minor i.
Proof.
  cbv zeta. unfold analyze_repository_standards, analyze_all.
  assert (Htot : forall r,
    total_flag (fst (fold_left analyze_one cs_files (no_metrics, []))) r
    = match r with
      | MethodComplexity => sum_over complex_methods_in cs_files
      | _ => files_firing r cs_files
      end).
  { intros r. rewrite analyze_all_totals.
    rewrite (sum_over_ext _ _ (flag_of_file r)).
    destruct r; cbn [fst total_flag no_metrics]; rewrite ?files_firing_sum;
      reflexivity. }
  destruct (fold_left analyze_one cs_files (no_metrics, [])) as [a details].
  cbn [fst] in Htot. cbn [res_issues categorize critical major minor fixable].
  pose proof (Htot Secrets) as Hs. pose proof (Htot Documentation) as Hd.
  pose proof (Htot Naming) as Hn. pose proof (Htot MethodComplexity) as Hm.
  pose proof (Htot LineLength) as Hl. pose proof (Htot UsingStatements) as Hu.
  pose proof (Htot MagicNumbers) as Hg. cbn [total_flag] in *.
  unfold categorize. cbn [critical major minor fixable].
  rewrite Hs, Hd, Hn, Hm, Hl, Hu, Hg. repeat split; reflexivity.
Qed.

(** C2, at a file with two methods over 50 lines and nothing else. One
    rule fires on one file, yet the major bucket is 2, and the summary
    line of the report calls that number a number of files. *)
Theorem major_counts_methods_not_files :
  let cs_files := [("Two.cs"%string, Some two_long_methods)] in
  let results := analyze_repository_standards cs_files in
  major (res_issues results) = 2 /\
  files_firing Documentation cs_files + files_firing Naming cs_files
    + files_firing MethodComplexity cs_files = 1 /\
  res_violations results
    = ["Method complexity: 2 files with overly complex methods"%string].
Proof. vm_compute. repeat split; reflexivity. Qed.

(** *** The property line *)

(** What the two analyses compute on the property line. *)
Lemma property_line_values :
  camel_props property_line = [txt "name"] /\
  analyze_csharp_violations (Some property_line)
    = Some [ Violation "Naming Convention" "Major"
               "Property 'name' should be PascalCase" (Some "Name"%string)
               None true;
             Violation "Missing Documentation" "Major"
               "1 public members lack XML documentation"
               (Some "/// <summary> documentation for all public members"%string)
               None true ] /\
  violations (analyze_file_standards "Device.cs"
                (PyStr.readlines property_line) property_line)
    = [ "Missing documentation: 1 of 1 public members undocumented";
        "Naming convention: 1 camelCase properties found" ]%string /\
  missing_docs (analyze_file_standards "Device.cs"
                  (PyStr.readlines property_line) property_line) = 1.
Proof. vm_compute. repeat split; reflexivity. Qed.

(** C3, as the code has it. On the one-line document
    [public string name { get; set; }] the sample analysis reports the
    naming violation of [name] and one documentation violation, the
    property itself being an undocumented public member; the file scan
    reports the same two rules, so neither list is empty. *)
Theorem property_line_violations :
  camel_props property_line = [txt "name"] /\
  (exists vs, analyze_csharp_violations (Some property_line) = Some vs /\
     In (naming_violation (txt "name")) vs /\
     List.length (filter (fun v => String.eqb (v_type v) "Missing Documentation")
                         vs) = 1%nat /\
     vs <> []) /\
  violations (analyze_file_standards "Device.cs"
                (PyStr.readlines property_line) property_line)
    = [ "Missing documentation: 1 of 1 public members undocumented";
        "Naming convention: 1 camelCase properties found" ]%string /\
  missing_docs (analyze_file_standards "Device.cs"
                  (PyStr.readlines property_line) property_line) = 1.
Proof.
  destruct property_line_values as [Hc [Hv [Hm Hd]]].
  split; [exact Hc|]. split; [|split; [exact Hm | exact Hd]].
  eexists. split; [exact Hv|]. split; [left; reflexivity|].
  split; [reflexivity | discriminate].
Qed.

(** C3, as the specification has it, fails: neither the file scan nor the
    sample analysis is free of documentation violations on that line. *)
Lemma property_line_documentation_reported :
  ~ (fires (PyStr.readlines property_line) property_line Naming = true /\
     missing_docs (analyze_file_standards "Device.cs"
                     (PyStr.readlines property_line) property_line) = 0 /\
     violations (analyze_file_standards "Device.cs"
                   (PyStr.readlines property_line) property_line) <> []) /\
  ~ (forall vs, analyze_csharp_violations (Some property_line) = Some vs ->
       In (naming_violation (txt "name")) vs /\
       Forall (fun v => v_type v <> "Missing Documentation"%string) vs /\
       vs <> []).
Proof.
  destruct property_line_values as [_ [Hv [_ Hd]]].
  split.
  - intros [_ [H _]]. rewrite Hd in H. discriminate H.
  - intros H. destruct (H _ Hv) as [_ [Hall _]].
    inversion Hall as [|v vs _ Hrest]; subst.
    inversion Hrest as [|v' vs' Hdoc _]; subst. apply Hdoc. reflexivity.
Qed.

(** *** The quality score *)

(** C4. For counts that are not negative the score lies between 5 and
    100, it is at most 80 as soon as there is one critical file, and it
    does not go up when any of the three counts goes up. *)
Theorem quality_score_bounds (results : analysis_results) :
  0 <= critical (res_issues results) ->
  0 <= major (res_issues results) ->
  0 <= minor (res_issues results) ->
  5 <= calculate_quality_score results <= 100 /\
  (1 <= critical (res_issues results) -> calculate_quality_score results <= 80) /\
  (forall more : analysis_results,
     critical (res_issues results) <= critical (res_issues more) ->
     major (res_issues results) <= major (res_issues more) ->
     minor (res_issues results) <= minor (res_issues more) ->
     calculate_quality_score more <= calculate_quality_score results).
Proof.
  unfold calculate_quality_score. intros Hc Hj Hn.
  split; [lia|]. split; [lia|]. intros more Hc' Hj' Hn'. lia.
Qed.

(** The report of a scan with one critical, two major and three minor
    findings. *)
Lemma quality_score_bounds_witness :
  let results :=
    AnalysisResults (Summary 3 5 2 3 6) (IssueCounts 1 2 3 5) [] [] in
  5 <= calculate_quality_score results <= 100 /\
  (1 <= critical (res_issues results) -> calculate_quality_score results <= 80) /\
  (forall more : analysis_results,
     critical (res_issues results) <= critical (res_issues more) ->
     major (res_issues results) <= major (res_issues more) ->
     minor (res_issues results) <= minor (res_issues more) ->
     calculate_quality_score more <= calculate_quality_score results).
Proof.
  apply (quality_score_bounds
           (AnalysisResults (Summary 3 5 2 3 6) (IssueCounts 1 2 3 5) [] []));
    simpl; lia.
Defined.

End StandardsFacts.

(** ** run-all-tests.py *)
Module RunnerFacts.
Import Runner.

(** Every simulated test passes. *)
Lemma simulated_pass test_scripts :
  Forall (fun r => is_pass r = true) (simulate_powershell_tests test_scripts).
Proof.
  unfold simulate_powershell_tests. apply Forall_map, Forall_forall.
  intros script _. unfold simulate_test_execution, is_pass. cbn [r_status].
  destruct (contains "Performance" (s_name script)); [reflexivity|].
  destruct (contains "Security" (s_name script)
            || contains "Policy" (s_name script))%bool; [reflexivity|].
  destruct (contains "Deployment" (s_name script)); [reflexivity|].
  destruct (contains "Standards" (s_name script)); reflexivity.
Qed.

Lemma agree_upto_100 : agree_upto 100 = true.
Proof. vm_compute. reflexivity. Qed.

Lemma agree_upto_sound bound : agree_upto bound = true ->
  forall passed total, passed <= total -> total <= bound ->
  at_least_80 (rate passed total) = meets_threshold passed total.
Proof.
  unfold agree_upto. intros H passed total Hp Ht.
  rewrite forallb_forall in H. specialize (H total).
  rewrite forallb_forall in H. apply eqb_prop. apply H.
  - apply in_seq. lia.
  - apply in_seq. lia.
Qed.

(** Up to 100 tests, rounding does not move the threshold. *)
Lemma rate_exact passed total :
  passed <= total -> total <= 100 ->
  at_least_80 (rate passed total) = meets_threshold passed total.
Proof. exact (agree_upto_sound 100 agree_upto_100 passed total). Qed.

Lemma passed_le_total python_results ps_results :
  passed (generate_comprehensive_report python_results ps_results)
  <= total_tests (generate_comprehensive_report python_results ps_results).
Proof.
  cbn [generate_comprehensive_report passed total_tests].
  rewrite <- length_app. apply filter_length_le.
Qed.

(** Eight simulated tests and two Python tests, one of them failed: nine
    out of ten is above the threshold. *)
Example nine_of_ten :
  exit_status all_ps_scripts
    [Result "Demo Testing System" "PASS";
     Result "Test System Validator" "FAIL"] = 0%Z.
Proof. vm_compute. reflexivity. Qed.

(** Three simulated tests and two failed Python tests: three out of five is
    below it. No test at all gives the rate 0. *)
Example three_of_five :
  exit_status (firstn 3 all_ps_scripts)
    [Result "Demo Testing System" "FAIL";
     Result "Test System Validator" "FAIL"] = 1%Z /\
  exit_status [] [] = 1%Z.
Proof. vm_compute. split; reflexivity. Qed.

(** C9. The process exits with status 0 exactly when the success rate is
    at least 80, and with status 1 otherwise.  The rate is taken over the
    results themselves: the total is the number of Python results plus the
    number of simulated results, the passed tests are the results of
    both lists with status PASS, and the rate is passed over total times
    100 in floating point, or 0 for a run without a test. Up to 100
    tests that is the exact inequality 80 * total <= 100 * passed on a
    non-empty run. *)
Theorem exit_status_threshold (test_scripts : list script)
    (python_results : list result) :
  let ps_results := simulate_powershell_tests test_scripts in
  let total := List.length python_results + List.length ps_results in
  let passed :=
    List.length (filter (fun r => String.eqb (r_status r) "PASS")
                        (python_results ++ ps_results)) in
  let success_rate : float :=
    if 0 <? total
    then PrimFloat.mul
           (PrimFloat.div (float_of_nat passed) (float_of_nat total))
           (float_of_nat 100)
    else float_of_nat 0 in
  (exit_status test_scripts python_results = 0%Z <->
   PrimFloat.leb (float_of_nat 80) success_rate = true) /\
  (exit_status test_scripts python_results <> 0%Z <->
   PrimFloat.leb (float_of_nat 80) success_rate = false) /\
  (exit_status test_scripts python_results = 0%Z \/
   exit_status test_scripts python_results = 1%Z) /\
  (total <= 100 ->
   (exit_status test_scripts python_results = 0%Z <->
    0 < total /\ 80 * total <= 100 * passed)).
Proof.
  cbv zeta.
  set (ps_results := simulate_powershell_tests test_scripts).
  set (total := List.length python_results + List.length ps_results).
  set (passed := List.length (filter (fun r => String.eqb (r_status r) "PASS")
                                     (python_results ++ ps_results))).
  assert (Hexit : exit_status test_scripts python_results
                  = if at_least_80 (rate passed total) then 0%Z else 1%Z)
    by reflexivity.
  assert (Hle : passed <= total).
  { unfold passed, total. rewrite <- length_app. apply filter_length_le. }
  change (PrimFloat.leb (float_of_nat 80)
            (if 0 <? total
             then PrimFloat.mul
                    (PrimFloat.div (float_of_nat passed) (float_of_nat total))
                    (float_of_nat 100)
             else float_of_nat 0))
    with (at_least_80 (rate passed total)).
  rewrite Hexit.
  split; [|split; [|split]].
  - destruct (at_least_80 (rate passed total)); split; intros H;
      try reflexivity; discriminate H.
  - destruct (at_least_80 (rate passed total)); split; intros H;
      try reflexivity; try discriminate H.
    + exfalso. apply H. reflexivity.
    + discriminate.
  - destruct (at_least_80 (rate passed total)); [left | right]; reflexivity.
  - intros Hsmall. rewrite (rate_exact passed total Hle Hsmall).
    unfold meets_threshold.
    destruct (Nat.ltb_spec 0 total) as [Hpos|Hpos];
      destruct (Nat.leb_spec (80 * total) (100 * passed)) as [Hl|Hl];
      cbn [andb]; cbv iota;
      split; intros H; try reflexivity; try discriminate H; lia.
Qed.

End RunnerFacts.

(** ** The matcher and what a pattern matches *)
Module ReSound.
Import Re.

Lemma char_before_app before w1 w2 :
  char_before before (w1 ++ w2) = char_before (char_before before w1) w2.
Proof. unfold char_before. apply fold_left_app. Qed.

Lemma slice_middle (pre w post : text) :
  slice (pre ++ w ++ post) (List.length pre) (List.length pre + List.length w)
  = w.
Proof.
  unfold slice. rewrite skipn_app, skipn_all, Nat.sub_diag. cbn [skipn app].
  replace (List.length pre + List.length w - List.length pre)
    with (List.length w) by lia.
  rewrite firstn_app, firstn_all, Nat.sub_diag. cbn [firstn].
  apply app_nil_r.
Qed.

Section Sound.

(** The text at the start of the attempt, and what every group of the
    pattern is known to capture. *)
Variable s0 : text.
Variable captured : text -> Prop.

(** The six parts of [run_sound]'s conclusion. *)
Ltac six := split; [|split; [|split; [|split; [|split]]]].

Lemma stay_sound r st (k : mstate -> option mstate) (m : mstate) :
  cursor s0 captured st -> matches r (prev st) [] (rest st) -> k st = Some m ->
  exists w st',
    rest st = w ++ rest st' /\ pos st' = pos st + List.length w /\
    prev st' = char_before (prev st) w /\ matches r (prev st) w (rest st') /\
    cursor s0 captured st' /\ k st' = Some m.
Proof.
  intros Hst Hm Hk. exists [], st. cbn [app List.length]. rewrite Nat.add_0_r.
  six; try assumption; reflexivity.
Qed.

Lemma star_loop_sound greedy a :
  run_sound s0 captured a (exec a) ->
  forall fuel, run_sound s0 captured (Star greedy a)
                 (fun st k => star_loop (exec a) greedy k fuel st).
Proof.
  intros Ha. induction fuel as [|fuel IH]; intros st k m Hst H;
    cbn [star_loop] in H; [discriminate|].
  assert (Hmore : forall m0,
    exec a st (fun st' => if pos st <? pos st'
                          then star_loop (exec a) greedy k fuel st' else None)
    = Some m0 ->
    exists w st', rest st = w ++ rest st' /\ pos st' = pos st + List.length w /\
      prev st' = char_before (prev st) w /\
      matches (Star greedy a) (prev st) w (rest st') /\
      cursor s0 captured st' /\ k st' = Some m0).
  { intros m0 Hm0. apply Ha in Hm0; [|exact Hst].
    destruct Hm0 as [w1 [st1 [Hr1 [Hp1 [Hb1 [Hm1 [Hc1 Hk1]]]]]]].
    destruct (pos st <? pos st1) eqn:Hlt; [|discriminate].
    apply Nat.ltb_lt in Hlt. apply IH in Hk1; [|exact Hc1].
    destruct Hk1 as [w2 [st2 [Hr2 [Hp2 [Hb2 [Hm2 [Hc2 Hk2]]]]]]].
    exists (w1 ++ w2), st2. rewrite length_app, char_before_app. six.
    - rewrite <- app_assoc, <- Hr2. exact Hr1.
    - lia.
    - rewrite <- Hb1. exact Hb2.
    - apply M_Star_more.
      + intros ->. cbn in Hp1. lia.
      + rewrite <- Hr2. exact Hm1.
      + rewrite <- Hb1. exact Hm2.
    - exact Hc2.
    - exact Hk2. }
  destruct greedy.
  - destruct (exec a st _) as [m'|] eqn:He.
    + inversion H; subst m'. apply Hmore. reflexivity.
    + apply stay_sound; [exact Hst | constructor | exact H].
  - destruct (k st) as [m'|] eqn:Hk.
    + inversion H; subst m'.
      apply stay_sound; [exact Hst | constructor | exact Hk].
    + apply Hmore. exact H.
Qed.

Lemma groups_capture_app a b :
  Forall (fun g => forall before w after, matches g before w after -> captured w)
         (groups a ++ groups b) ->
  groups_capture captured a /\ groups_capture captured b.
Proof. intros H. apply Forall_app in H. exact H. Qed.

(** The matcher is sound: a result is the continuation's, reached after a
    text the pattern matches. *)
Lemma exec_sound r :
  groups_capture captured r -> run_sound s0 captured r (exec r).
Proof.
  induction r as [|f|a IHa b IHb|a IHa b IHb|g a IHa|a IHa| |f|f];
    intros Hg st k m Hst H; cbn [exec] in H.
  - apply stay_sound; [exact Hst | constructor | exact H].
  - destruct (rest st) as [|c s] eqn:Hrest; [discriminate|].
    destruct (f c) eqn:Hf; [|discriminate].
    exists [c]. eexists. six; [| | | | |exact H];
      cbn [rest pos prev grp app List.length char_before fold_left];
      try reflexivity; try lia.
    + constructor. exact Hf.
    + destruct Hst as [[pre [Hs0 Hlen]] Hgrp]. split; [|exact Hgrp].
      exists (pre ++ [c]). cbn [rest pos]. rewrite <- app_assoc, length_app.
      cbn [app List.length]. rewrite Hs0, Hrest. split; [reflexivity | lia].
  - unfold Re.groups_capture in Hg. cbn [groups] in Hg.
    apply groups_capture_app in Hg. destruct Hg as [Hga Hgb].
    apply (IHa Hga) in H; [|exact Hst].
    destruct H as [w1 [st1 [Hr1 [Hp1 [Hb1 [Hm1 [Hc1 H]]]]]]].
    apply (IHb Hgb) in H; [|exact Hc1].
    destruct H as [w2 [st2 [Hr2 [Hp2 [Hb2 [Hm2 [Hc2 H]]]]]]].
    exists (w1 ++ w2), st2. rewrite length_app, char_before_app. six.
    + rewrite <- app_assoc, <- Hr2. exact Hr1.
    + lia.
    + rewrite <- Hb1. exact Hb2.
    + apply M_Seq; [rewrite <- Hr2; exact Hm1 | rewrite <- Hb1; exact Hm2].
    + exact Hc2.
    + exact H.
  - unfold Re.groups_capture in Hg. cbn [groups] in Hg.
    apply groups_capture_app in Hg. destruct Hg as [Hga Hgb].
    destruct (exec a st k) as [m'|] eqn:He.
    + inversion H; subst m'. apply (IHa Hga) in He; [|exact Hst].
      destruct He as [w [st' [Hr [Hp [Hb [Hm [Hc Hk]]]]]]].
      exists w, st'. six; try assumption. apply M_Alt_l. exact Hm.
    + apply (IHb Hgb) in H; [|exact Hst].
      destruct H as [w [st' [Hr [Hp [Hb [Hm [Hc Hk]]]]]]].
      exists w, st'. six; try assumption. apply M_Alt_r. exact Hm.
  - apply (star_loop_sound g a (IHa Hg) _ st k m Hst H).
  - unfold Re.groups_capture in Hg. cbn [groups] in Hg.
    inversion Hg as [|g0 gs Hhere Hga]; subst.
    apply (IHa Hga) in H; [|exact Hst].
    destruct H as [w [st' [Hr [Hp [Hb [Hm [Hc H]]]]]]].
    exists w. eexists. six; [| | | | |exact H];
      cbn [rest pos prev grp]; try assumption.
    + apply M_Group. exact Hm.
    + destruct Hc as [Hcur _]. split; [exact Hcur|].
      cbn [grp]. intros x y E. inversion E; subst x y.
      destruct Hst as [[pre [Hs0 Hlen]] _].
      rewrite Hp, Hs0, Hr, <- Hlen, slice_middle.
      apply (Hhere _ _ _ Hm).
  - destruct (xorb _ _) eqn:Hx; [|discriminate].
    apply stay_sound; [exact Hst | constructor; exact Hx | exact H].
  - assert (Hm : matches (NotBehind f) (prev st) [] (rest st)).
    { constructor. intros c E. rewrite E in H.
      destruct (f c); [discriminate H | reflexivity]. }
    apply stay_sound; [exact Hst | exact Hm |].
    destruct (prev st) as [c|]; [destruct (f c); [discriminate H|]|]; exact H.
  - assert (Hm : matches (NotAhead f) (prev st) [] (rest st)).
    { constructor. intros c tl E. rewrite E in H.
      destruct (f c); [discriminate H | reflexivity]. }
    apply stay_sound; [exact Hst | exact Hm |].
    destruct (rest st) as [|c tl]; [|destruct (f c); [discriminate H|]]; exact H.
Qed.

End Sound.

(** A successful attempt covers a prefix of the text that the pattern
    matches, and its group holds what a group of the pattern captures. *)
Lemma match_at_sound (captured : text -> Prop) r before s n g :
  groups_capture captured r ->
  match_at r before s = Some (n, g) ->
  exists w after,
    s = w ++ after /\ n = List.length w /\ matches r before w after /\
    (forall a b, g = Some (a, b) -> captured (slice s a b)).
Proof.
  intros Hg H. unfold match_at in H.
  destruct (exec r _ _) as [st|] eqn:He; [|discriminate].
  inversion H; subst n g. clear H.
  apply (exec_sound s captured r Hg) in He.
  - destruct He as [w [st' [Hr [Hp [_ [Hm [Hc Hk]]]]]]].
    inversion Hk; subst st'. cbn [rest pos prev] in Hr, Hp, Hm.
    exists w, (rest st). repeat split; try assumption. apply Hc.
  - split; [exists []; split; reflexivity | intros a b E; discriminate E].
Qed.

(** Every text that [re.findall] reports comes from a successful attempt
    somewhere in the text. *)
Lemma findall_from_attempt r x : forall s skip before,
  In x (findall_from r skip before s) ->
  exists before' s' m, match_at r before' s' = Some m /\ x = found r s' m.
Proof.
  induction s as [|c s IH]; intros skip before H; cbn [findall_from] in H.
  - destruct skip; [|contradiction].
    destruct (match_at r before []) as [m|] eqn:Hm; [|contradiction].
    destruct H as [<-|[]]. eauto.
  - destruct skip as [|skip]; [|eauto].
    destruct (match_at r before (c :: s)) as [m|] eqn:Hm; [|eauto].
    destruct H as [<-|H]; eauto.
Qed.

(** For a pattern without group, what is found is a text it matches. *)
Lemma findall_whole r s x :
  has_group r = false -> In x (findall r s) ->
  exists before after, matches r before x after.
Proof.
  intros Hnog H. apply findall_from_attempt in H.
  destruct H as [before [s' [[n g] [Hm ->]]]].
  assert (Hg : groups_capture (fun _ => True) r)
    by (apply Forall_forall; intros; exact I).
  apply (match_at_sound _ _ _ _ _ _ Hg) in Hm.
  destruct Hm as [w [after [-> [-> [Hm _]]]]].
  exists before, after. unfold found. rewrite Hnog. cbn [fst].
  rewrite firstn_app, firstn_all, Nat.sub_diag. cbn [firstn].
  rewrite app_nil_r. exact Hm.
Qed.

(** For a pattern with a group, what is found is a text the group
    captures, or the empty text when the group took no part. *)
Lemma findall_group (captured : text -> Prop) r s x :
  has_group r = true -> groups_capture captured r -> In x (findall r s) ->
  captured x \/ x = [].
Proof.
  intros Hgrp Hg H. apply findall_from_attempt in H.
  destruct H as [before [s' [[n g] [Hm ->]]]].
  apply (match_at_sound _ _ _ _ _ _ Hg) in Hm.
  destruct Hm as [w [after [_ [_ [_ Hcap]]]]].
  unfold found. rewrite Hgrp. cbn [snd].
  destruct g as [[a b]|]; [left; apply Hcap; reflexivity | right; reflexivity].
Qed.

(** No match is longer than the text. *)
Lemma match_at_length r before s n g :
  match_at r before s = Some (n, g) -> n <= List.length s.
Proof.
  intros H.
  assert (Hg : groups_capture (fun _ => True) r)
    by (apply Forall_forall; intros; exact I).
  apply (match_at_sound _ _ _ _ _ _ Hg) in H.
  destruct H as [w [after [-> [-> _]]]]. rewrite length_app. lia.
Qed.

End ReSound.

(** ** More on the matcher: deletion and maximal repetition *)
Module ReMore.
Import Re.

Lemma subseq_refl : forall s, subseq s s.
Proof. induction s; constructor; assumption. Qed.

Lemma subseq_trans : forall y z, subseq y z -> forall x, subseq x y -> subseq x z.
Proof.
  induction 1 as [|c y z Hyz IH|c y z Hyz IH]; intros x Hxy.
  - exact Hxy.
  - inversion Hxy; subst; constructor; auto.
  - constructor. auto.
Qed.

Lemma subseq_count (c : ascii) : forall x s, subseq x s ->
  count_occ ascii_dec x c <= count_occ ascii_dec s c.
Proof.
  induction 1 as [|d x s H IH|d x s H IH].
  - apply Nat.le_refl.
  - destruct (ascii_dec d c) as [->|Hd].
    + rewrite !count_occ_cons_eq by reflexivity. lia.
    + rewrite !count_occ_cons_neq by exact Hd. exact IH.
  - destruct (ascii_dec d c) as [->|Hd].
    + rewrite count_occ_cons_eq by reflexivity. lia.
    + rewrite count_occ_cons_neq by exact Hd. exact IH.
Qed.

Lemma subseq_length : forall x s, subseq x s -> List.length x <= List.length s.
Proof. induction 1; cbn [List.length]; lia. Qed.

(** [re.sub] with the empty replacement only leaves characters out. *)
Lemma sub_from_subseq r : forall s skip before,
  subseq (sub_from r [] skip before s) s.
Proof.
  induction s as [|c s IH]; intros skip before; cbn [sub_from].
  - destruct skip; [destruct (match_at r before [])|]; constructor.
  - destruct skip as [|skip]; [|constructor; apply IH].
    destruct (match_at r before (c :: s)) as [[[|n] g]|]; cbn [app];
      constructor; apply IH.
Qed.

Lemma sub_subseq r s : subseq (sub r [] s) s.
Proof. apply sub_from_subseq. Qed.

(** After a match that runs to the end of the text nothing is left. *)
Lemma sub_from_skip_all r repl : (1 <= min_len r) ->
  forall s before, sub_from r repl (List.length s) before s = [].
Proof.
  intros Hmin. induction s as [|c s IH]; intros before; cbn [sub_from List.length].
  - destruct (match_at r before []) as [[n g]|] eqn:Hm; [|reflexivity].
    pose proof (ReFacts.match_at_min_len _ _ _ _ _ Hm).
    pose proof (ReSound.match_at_length _ _ _ _ _ Hm) as Hlen.
    cbn [List.length] in Hlen. lia.
  - apply IH.
Qed.

(** A match of the whole text: [re.sub] returns the replacement. *)
Lemma sub_whole r repl s g :
  1 <= min_len r -> match_at r None s = Some (List.length s, g) ->
  sub r repl s = repl.
Proof.
  intros Hmin Hm. unfold sub. destruct s as [|c s].
  - apply ReFacts.match_at_min_len in Hm. cbn [List.length] in Hm. lia.
  - cbn [sub_from]. rewrite Hm. cbn [List.length].
    rewrite sub_from_skip_all by exact Hmin. apply app_nil_r.
Qed.

Lemma advance_nil st : advance st [] (rest st) = st.
Proof.
  destruct st. unfold advance. cbn. rewrite Nat.add_0_r. reflexivity.
Qed.

Lemma exec_chr f st k :
  exec (Chr f) st k
  = match rest st with
    | c :: s => if f c then k (MState (S (pos st)) (Some c) s (grp st))
                else None
    | [] => None
    end.
Proof. reflexivity. Qed.

Lemma exec_seq a b st k :
  exec (Seq a b) st k = exec a st (fun st' => exec b st' k).
Proof. reflexivity. Qed.

Lemma exec_star greedy a st k :
  exec (Star greedy a) st k
  = star_loop (exec a) greedy k (S (List.length (rest st))) st.
Proof. reflexivity. Qed.

(** A greedy repetition of a character class, in front of a character
    outside the class or at the end of the text, reads the whole run when
    the continuation accepts that. *)
Lemma star_chr_munch (f : ascii -> bool) : forall w st tail k m,
  rest st = w ++ tail ->
  Forall (fun c => f c = true) w ->
  (forall c tl, tail = c :: tl -> f c = false) ->
  k (advance st w tail) = Some m ->
  exec (Star true (Chr f)) st k = Some m.
Proof.
  induction w as [|c w IH]; intros st tail k m Hrest Hall Htail Hk;
    rewrite exec_star; cbn [star_loop]; rewrite exec_chr, Hrest.
  - cbn [app] in Hrest |- *.
    assert (Hst : advance st [] tail = st)
      by (rewrite <- Hrest; apply advance_nil).
    rewrite Hst in Hk.
    destruct tail as [|c tl]; [exact Hk|].
    rewrite (Htail c tl eq_refl). exact Hk.
  - inversion Hall as [|c' w' Hc Hw]; subst c' w'.
    cbn [app List.length]. rewrite Hc. cbn [pos].
    rewrite (proj2 (Nat.ltb_lt _ _) (Nat.lt_succ_diag_r (pos st))).
    change (star_loop (exec (Chr f)) true k (S (List.length (w ++ tail)))
              (MState (S (pos st)) (Some c) (w ++ tail) (grp st)))
      with (exec (Star true (Chr f))
              (MState (S (pos st)) (Some c) (w ++ tail) (grp st)) k).
    rewrite (IH (MState (S (pos st)) (Some c) (w ++ tail) (grp st)) tail k m);
      try reflexivity; try assumption.
    unfold advance in Hk |- *. cbn [pos prev grp List.length] in Hk |- *.
    replace (S (pos st) + List.length w) with (pos st + S (List.length w))
      by lia.
    exact Hk.
Qed.

End ReMore.

(** ** find-braces.py: what the preprocessing and the scan keep *)
Module FindBracesMore.
Import Re FindBraces.

(** *** The preprocessing only deletes *)

Lemma content_clean_subseq content : subseq (content_clean content) content.
Proof.
  unfold content_clean, content_no_inline_if, content_no_hashtables,
    content_no_herestrings.
  eapply ReMore.subseq_trans; [|apply ReMore.sub_subseq].
  eapply ReMore.subseq_trans; [|apply ReMore.sub_subseq].
  eapply ReMore.subseq_trans; [|apply ReMore.sub_subseq].
  apply ReMore.sub_subseq.
Qed.

(** The cleaned text is the input with characters left out, so the scan
    never counts more braces of a kind than the input has, and the two
    counts are the counts of the cleaned text. *)
Theorem preprocessing_only_deletes (content : text) :
  subseq (content_clean content) content /\
  open_count content = count_occ ascii_dec (content_clean content) "{"%char /\
  close_count content = count_occ ascii_dec (content_clean content) "}"%char /\
  open_count content <= count_occ ascii_dec content "{"%char /\
  close_count content <= count_occ ascii_dec content "}"%char.
Proof.
  pose proof (content_clean_subseq content) as Hsub.
  destruct (FindBracesFacts.counts_of_clean content) as [Ho Hc].
  split; [exact Hsub|]. split; [exact Ho|]. split; [exact Hc|].
  rewrite Ho, Hc. split; apply ReMore.subseq_count; exact Hsub.
Qed.

(** *** The order of the entries *)

Lemma sorted_snoc {A} (R : A -> A -> Prop) x : forall l,
  StronglySorted R l -> Forall (fun a => R a x) l ->
  StronglySorted R (l ++ [x]).
Proof.
  induction l as [|a l IH]; intros Hs Hall; cbn [app].
  - repeat constructor.
  - inversion Hs; subst. inversion Hall; subst.
    constructor; [auto|]. apply Forall_app. split; [assumption|].
    constructor; [assumption | constructor].
Qed.

Lemma before_cursor_lt i j ctx b :
  before_cursor i j b -> brace_lt b (i, j, ctx).
Proof. unfold before_cursor, brace_lt. cbn. tauto. Qed.

Lemma before_cursor_next i j b :
  before_cursor i j b -> before_cursor i (S j) b.
Proof. unfold before_cursor. intros [H|[H1 H2]]; [left | right]; lia. Qed.

Lemma before_cursor_newline i j b :
  before_cursor i j b -> before_cursor (S i) 0 b.
Proof. unfold before_cursor. intros [H|[H1 H2]]; left; lia. Qed.

Lemma snoc_in_order i j ctx l :
  StronglySorted brace_lt l /\ Forall (before_cursor i j) l ->
  StronglySorted brace_lt (l ++ [(i, j, ctx)]) /\
  Forall (before_cursor i (S j)) (l ++ [(i, j, ctx)]).
Proof.
  intros [Hs Hb]. split.
  - apply sorted_snoc; [exact Hs|].
    eapply Forall_impl; [|exact Hb]. intros b. apply before_cursor_lt.
  - apply Forall_app. split.
    + eapply Forall_impl; [|exact Hb]. intros b. apply before_cursor_next.
    + constructor; [|constructor]. right. cbn. lia.
Qed.

Lemma keep_in_order i j l :
  StronglySorted brace_lt l /\ Forall (before_cursor i j) l ->
  StronglySorted brace_lt l /\ Forall (before_cursor i (S j)) l.
Proof.
  intros [Hs Hb]. split; [exact Hs|].
  eapply Forall_impl; [|exact Hb]. intros b. apply before_cursor_next.
Qed.

Lemma scan_char_in_order i line j c acc :
  in_order i j acc -> in_order i (S j) (scan_char i line acc (j, c)).
Proof.
  intros [Ho Hc]. unfold scan_char, in_order.
  destruct (Ascii.eqb c "{"); [|destruct (Ascii.eqb c "}")];
    cbn [open_braces close_braces];
    split; auto using snoc_in_order, keep_in_order.
Qed.

Lemma scan_chars_in_order i line : forall chars j acc,
  in_order i j acc ->
  in_order i (j + List.length chars)
    (fold_left (scan_char i line) (combine (seq j (List.length chars)) chars) acc).
Proof.
  induction chars as [|c chars IH]; intros j acc H; cbn.
  - rewrite Nat.add_0_r. exact H.
  - replace (j + S (List.length chars)) with (S j + List.length chars) by lia.
    apply IH. apply scan_char_in_order. exact H.
Qed.

Lemma newline_in_order i j acc : in_order i j acc -> in_order (S i) 0 acc.
Proof.
  intros [[Hso Hbo] [Hsc Hbc]]. unfold in_order.
  split; (split; [assumption|]);
    (eapply Forall_impl; [|eassumption]); intros b; apply before_cursor_newline.
Qed.

Lemma scan_lines_in_order : forall lines i acc,
  in_order i 0 acc ->
  in_order (i + List.length lines) 0
    (fold_left scan_line (combine (seq i (List.length lines)) lines) acc).
Proof.
  induction lines as [|line lines IH]; intros i acc H; cbn [List.length seq combine fold_left].
  - rewrite Nat.add_0_r. exact H.
  - replace (i + S (List.length lines)) with (S i + List.length lines) by lia.
    apply IH. unfold scan_line, PyStr.enumerate.
    eapply newline_in_order. apply (scan_chars_in_order i line line 0 acc H).
Qed.

(** The entries of each list come in the order of the scan: line numbers
    never go down, and on one line the columns go up. *)
Theorem entries_in_scan_order (content : text) :
  StronglySorted brace_lt (open_braces (scan content)) /\
  StronglySorted brace_lt (close_braces (scan content)).
Proof.
  unfold scan, scan_lines, PyStr.enumerate.
  destruct (scan_lines_in_order (lines_of content) 1 (Braces [] []))
    as [[Ho _] [Hc _]].
  - repeat split; constructor.
  - split; assumption.
Qed.

(** *** A hashtable literal alone *)

Lemma no_quote_no_here_string : forall s before,
  ~ In dq s -> search_from here_string before s = None.
Proof.
  assert (Hat : forall s before, ~ In dq s -> match_at here_string before s = None).
  { intros s before Hs. unfold match_at, here_string.
    cbn [seqs exec ch rest].
    destruct s as [|c1 [|c2 s]]; [reflexivity| |].
    - destruct (Ascii.eqb "@" c1); reflexivity.
    - destruct (Ascii.eqb "@" c1); [|reflexivity]. cbn [rest].
      destruct (Ascii.eqb dq c2) eqn:E; [|reflexivity].
      apply Ascii.eqb_eq in E. subst c2. exfalso. apply Hs. cbn. auto. }
  induction s as [|c s IH]; intros before Hs; cbn [search_from].
  - rewrite Hat by exact Hs. reflexivity.
  - rewrite Hat by exact Hs. rewrite IH; [reflexivity|].
    intros H. apply Hs. right. exact H.
Qed.

(** The hashtable pattern matches a literal from its first to its last
    character. *)
Lemma hashtable_literal_match ws body before :
  Forall (fun c => PyStr.isspace c = true) ws -> ~ In "}"%char body ->
  match_at hashtable before (hashtable_literal ws body)
  = Some (List.length (hashtable_literal ws body), None).
Proof.
  intros Hws Hbody. unfold match_at, hashtable_literal.
  cbv [hashtable seqs lit lit_chars txt list_ascii_of_string star s_ ch].
  rewrite ReMore.exec_seq, ReMore.exec_chr. cbn [rest].
  replace (Ascii.eqb "@" "@") with true by reflexivity. cbn [pos grp].
  rewrite ReMore.exec_seq.
  erewrite (ReMore.star_chr_munch PyStr.isspace ws _
              ("{"%char :: body ++ ["}"%char])); [| reflexivity | exact Hws | |].
  3: { rewrite ReMore.exec_seq, ReMore.exec_chr. cbn [advance rest].
       replace (Ascii.eqb "{" "{") with true by reflexivity.
       rewrite ReMore.exec_seq.
       erewrite (ReMore.star_chr_munch (none_of "}") body _ ["}"%char]);
         [reflexivity | reflexivity | | |].
       - apply Forall_forall. intros c Hc. unfold none_of, one_of.
         cbn [txt list_ascii_of_string existsb orb].
         destruct (Ascii.eqb c "}") eqn:E; [|reflexivity].
         apply Ascii.eqb_eq in E. subst c. contradiction.
       - intros c tl E. inversion E; subst. reflexivity.
       - rewrite ReMore.exec_chr. cbn [advance rest].
         replace (Ascii.eqb "}" "}") with true by reflexivity. reflexivity. }
  - cbn [pos grp prev advance List.length]. rewrite !length_app.
    cbn [List.length]. rewrite length_app. cbn [List.length].
    f_equal. f_equal. lia.
  - intros c tl E. inversion E; subst. reflexivity.
Qed.

Lemma hashtable_literal_no_quote ws body :
  Forall (fun c => PyStr.isspace c = true) ws -> ~ In dq body ->
  ~ In dq (hashtable_literal ws body).
Proof.
  intros Hws Hbody. unfold hashtable_literal. intros [E|H]; [discriminate E|].
  apply in_app_or in H. destruct H as [H|[E|H]]; [| discriminate E |].
  - rewrite Forall_forall in Hws. apply Hws in H. discriminate H.
  - apply in_app_or in H. destruct H as [H|[E|[]]]; [auto | discriminate E].
Qed.

(** A text that is one hashtable literal, with no closing brace and no
    double quote in its body, is removed whole: the cleaned text is empty,
    both counts are 0 and the check reports balance after its four
    summary lines. *)
Theorem hashtable_literal_elided (filename : string) (ws body : text) :
  Forall (fun c => PyStr.isspace c = true) ws ->
  ~ In "}"%char body -> ~ In dq body ->
  content_clean (hashtable_literal ws body) = [] /\
  open_count (hashtable_literal ws body) = 0 /\
  close_count (hashtable_literal ws body) = 0 /\
  find_unbalanced_braces filename (hashtable_literal ws body)
  = (summary_lines filename (hashtable_literal ws body), true).
Proof.
  intros Hws Hbrace Hquote.
  assert (Hclean : content_clean (hashtable_literal ws body) = []).
  { unfold content_clean, content_no_inline_if, content_no_hashtables,
      content_no_herestrings.
    rewrite (ReFacts.sub_id here_string)
      by (apply no_quote_no_here_string;
          apply hashtable_literal_no_quote; assumption).
    rewrite (ReMore.sub_whole hashtable [] _ None);
      [reflexivity | vm_compute; lia |].
    apply hashtable_literal_match; assumption. }
  assert (Hopen : open_count (hashtable_literal ws body) = 0)
    by (unfold open_count, scan, lines_of; rewrite Hclean; reflexivity).
  assert (Hclose : close_count (hashtable_literal ws body) = 0)
    by (unfold close_count, scan, lines_of; rewrite Hclean; reflexivity).
  repeat (split; [assumption|]).
  unfold find_unbalanced_braces. rewrite Hopen, Hclose. reflexivity.
Qed.

(** The literal of the specification: [@{ a = 1; b = 2 }]. *)
Lemma hashtable_literal_elided_witness :
  content_clean (hashtable_literal [] (txt " a = 1; b = 2 ")) = [] /\
  open_count (hashtable_literal [] (txt " a = 1; b = 2 ")) = 0 /\
  close_count (hashtable_literal [] (txt " a = 1; b = 2 ")) = 0 /\
  find_unbalanced_braces "t.ps1" (hashtable_literal [] (txt " a = 1; b = 2 "))
  = (summary_lines "t.ps1" (hashtable_literal [] (txt " a = 1; b = 2 ")), true).
Proof.
  apply (hashtable_literal_elided "t.ps1" [] (txt " a = 1; b = 2 ")).
  - constructor.
  - cbn. intuition discriminate.
  - cbn. intuition discriminate.
Defined.

End FindBracesMore.

(** ** What the balance check reports *)
Module FindBracesReport.
Import Re FindBraces.

Lemma scan_char_keeps i line acc jc :
  (forall b, In b (open_braces acc) ->
             In b (open_braces (scan_char i line acc jc))) /\
  (forall b, In b (close_braces acc) ->
             In b (close_braces (scan_char i line acc jc))).
Proof.
  destruct jc as [j c]. unfold scan_char.
  destruct (Ascii.eqb c "{"); [|destruct (Ascii.eqb c "}")];
    cbn [open_braces close_braces]; split; intros b Hb;
    try exact Hb; apply in_or_app; left; exact Hb.
Qed.

Lemma brace_eta (b : brace) : b = (line_of b, column_of b, context_of b).
Proof. destruct b as [[i j] ctx]. reflexivity. Qed.

Section Found.

Variable source : text.

(** The entry of a brace at column [j] of line [i]. *)
Lemma located_here c b i j line :
  located source c b ->
  nth_error (PyStr.split nl source) (i - 1) = Some line ->
  line_of b = i -> column_of b = j ->
  nth_error line j = Some c /\ b = (i, j, PyStr.strip line).
Proof.
  intros [line' [_ [Hline' [Hat Hctx]]]] Hline Hi Hj.
  rewrite Hi, Hline in Hline'. injection Hline' as <-.
  rewrite Hj in Hat. split; [exact Hat|].
  rewrite (brace_eta b), Hi, Hj, Hctx. reflexivity.
Qed.

Lemma scan_chars_found i line :
  nth_error (PyStr.split nl source) (i - 1) = Some line ->
  forall chars pre acc, line = pre ++ chars ->
  found_before source i (List.length pre) acc ->
  found_before source i (List.length line)
    (fold_left (scan_char i line)
       (combine (seq (List.length pre) (List.length chars)) chars) acc).
Proof.
  intros Hline. induction chars as [|c chars IH]; intros pre acc Heq Hacc.
  - cbn [List.length seq combine fold_left]. rewrite Heq, app_nil_r.
    exact Hacc.
  - cbn [List.length seq combine fold_left].
    replace (S (List.length pre)) with (List.length (pre ++ [c]))
      by (rewrite length_app; cbn; lia).
    apply IH; [rewrite <- app_assoc; exact Heq|].
    assert (Hat : nth_error line (List.length pre) = Some c)
      by (rewrite Heq; apply FindBracesFacts.nth_error_middle).
    destruct (scan_char_keeps i line acc (List.length pre, c))
      as [Hko Hkc].
    destruct Hacc as [Ho Hc].
    rewrite length_app. cbn [List.length].
    split; intros b Hb Hcur.
    + destruct Hcur as [Hlt|[Hi Hj]]; [apply Hko, Ho; [exact Hb | left; exact Hlt]|].
      destruct (Nat.eq_dec (column_of b) (List.length pre)) as [Hcol|Hcol].
      * destruct (located_here _ _ _ _ _ Hb Hline Hi Hcol) as [Hat' ->].
        rewrite Hat in Hat'. injection Hat' as ->.
        cbn [scan_char Ascii.eqb Bool.eqb open_braces].
        apply in_or_app. right. left. reflexivity.
      * apply Hko, Ho; [exact Hb | right; split; [exact Hi | lia]].
    + destruct Hcur as [Hlt|[Hi Hj]]; [apply Hkc, Hc; [exact Hb | left; exact Hlt]|].
      destruct (Nat.eq_dec (column_of b) (List.length pre)) as [Hcol|Hcol].
      * destruct (located_here _ _ _ _ _ Hb Hline Hi Hcol) as [Hat' ->].
        rewrite Hat in Hat'. injection Hat' as ->.
        cbn [scan_char Ascii.eqb Bool.eqb close_braces].
        apply in_or_app. right. left. reflexivity.
      * apply Hkc, Hc; [exact Hb | right; split; [exact Hi | lia]].
Qed.

(** From the end of line [i] to the start of the next line. *)
Lemma newline_found i line acc :
  nth_error (PyStr.split nl source) (i - 1) = Some line ->
  found_before source i (List.length line) acc ->
  found_before source (S i) 0 acc.
Proof.
  intros Hline [Ho Hc].
  assert (Hcur : forall c b, located source c b -> before_cursor (S i) 0 b ->
                             before_cursor i (List.length line) b).
  { intros c b Hb [Hlt|[_ Hj]]; [|lia].
    destruct (Nat.eq_dec (line_of b) i) as [Hi|Hi]; [|left; lia].
    right. split; [exact Hi|].
    destruct (located_here _ _ _ _ _ Hb Hline Hi eq_refl) as [Hat _].
    apply nth_error_Some. rewrite Hat. discriminate. }
  split; intros b Hb Hbefore; [apply Ho | apply Hc]; try exact Hb;
    eapply Hcur; eassumption.
Qed.

Lemma scan_lines_found : forall lines pre acc,
  PyStr.split nl source = pre ++ lines ->
  found_before source (S (List.length pre)) 0 acc ->
  found_before source (S (List.length pre + List.length lines)) 0
    (fold_left scan_line
       (combine (seq (S (List.length pre)) (List.length lines)) lines) acc).
Proof.
  induction lines as [|line lines IH]; intros pre acc Heq Hacc.
  - cbn [List.length seq combine fold_left]. rewrite Nat.add_0_r. exact Hacc.
  - cbn [List.length seq combine fold_left].
    replace (S (List.length pre + S (List.length lines)))
      with (S (List.length (pre ++ [line]) + List.length lines))
      by (rewrite length_app; cbn; lia).
    replace (S (S (List.length pre))) with (S (List.length (pre ++ [line])))
      by (rewrite length_app; cbn; lia).
    apply IH; [rewrite <- app_assoc; exact Heq|].
    assert (Hline : nth_error (PyStr.split nl source)
                      (S (List.length pre) - 1) = Some line).
    { cbn [Nat.sub]. rewrite Nat.sub_0_r, Heq.
      apply FindBracesFacts.nth_error_middle. }
    replace (S (List.length (pre ++ [line]))) with (S (S (List.length pre)))
      by (rewrite length_app; cbn; lia).
    apply (newline_found (S (List.length pre)) line); [exact Hline|].
    unfold scan_line, PyStr.enumerate.
    apply (scan_chars_found (S (List.length pre)) line Hline line [] acc
             eq_refl).
    exact Hacc.
Qed.

(** The scan of [source] has an entry for every brace of [source]. *)
Lemma scan_finds_all :
  let acc := scan_lines (PyStr.split nl source) in
  (forall b, located source "{" b -> In b (open_braces acc)) /\
  (forall b, located source "}" b -> In b (close_braces acc)).
Proof.
  cbv zeta. unfold scan_lines, PyStr.enumerate.
  destruct (scan_lines_found (PyStr.split nl source) [] (Braces [] []) eq_refl)
    as [Ho Hc].
  - split; intros b [line [H1 _]] [Hlt|[_ Hj]]; cbn [List.length] in *; lia.
  - assert (Hcur : forall c b, located source c b ->
              before_cursor
                (S (List.length (@nil text)
                    + List.length (PyStr.split nl source))) 0 b).
    { intros c b [line [H1 [Hline _]]]. left.
      assert (Hlt : line_of b - 1 < List.length (PyStr.split nl source))
        by (apply nth_error_Some; rewrite Hline; discriminate).
      cbn [List.length Nat.add]. lia. }
    split; intros b Hb; [apply Ho | apply Hc]; try exact Hb;
      eapply Hcur; exact Hb.
Qed.

End Found.

Lemma show_brace_line (b : brace) :
  show_brace b
  = ("  Line " ++ PyStr.str_of_nat (line_of b) ++ ": "
       ++ PyStr.str (context_of b))%string.
Proof. destruct b as [[i j] ctx]. reflexivity. Qed.

(** C8. The entries of the two lists are the braces of the preprocessed
    text, each with its line, column and stripped line, in the order of
    the scan, and their numbers are the two counts.  The check returns
    [True] exactly when the counts are equal.  After the four summary
    lines it prints, when the counts differ, the last ten (or all, when
    fewer) entries of each list under their headers, each entry as its
    line number and its stripped line, and then returns [False]; it
    prints nothing more when the counts are equal.  An imbalance is a
    returned value: the check ends in both cases. *)
Theorem balance_report (filename : string) (content : text) :
  let clean := content_clean content in
  let opens := open_braces (scan content) in
  let closes := close_braces (scan content) in
  let line_for := fun b : brace =>
    ("  Line " ++ PyStr.str_of_nat (line_of b) ++ ": "
       ++ PyStr.str (context_of b))%string in
  let summary :=
    [ ("File: " ++ filename)%string;
      ("Open braces (excluding here-strings, hashtables, and inline ifs): "
         ++ PyStr.str_of_nat (List.length opens))%string;
      ("Close braces (excluding here-strings, hashtables, and inline ifs): "
         ++ PyStr.str_of_nat (List.length closes))%string;
      ("Difference: "
         ++ PyStr.str_of_Z (Z.of_nat (List.length opens)
                            - Z.of_nat (List.length closes)))%string ] in
  (forall b, In b opens <-> located clean "{" b) /\
  (forall b, In b closes <-> located clean "}" b) /\
  StronglySorted brace_lt opens /\
  StronglySorted brace_lt closes /\
  List.length opens = count_occ ascii_dec clean "{"%char /\
  List.length closes = count_occ ascii_dec clean "}"%char /\
  (exists earlier, opens = earlier ++ PyStr.last_n 10 opens) /\
  List.length (PyStr.last_n 10 opens) = Nat.min 10 (List.length opens) /\
  (exists earlier, closes = earlier ++ PyStr.last_n 10 closes) /\
  List.length (PyStr.last_n 10 closes) = Nat.min 10 (List.length closes) /\
  (snd (find_unbalanced_braces filename content) = true <->
   List.length opens = List.length closes) /\
  find_unbalanced_braces filename content
  = if List.length opens =? List.length closes
    then (summary, true)
    else (summary
          ++ [String nl "Last few open braces:"]
          ++ map line_for (PyStr.last_n 10 opens)
          ++ [String nl "Last few close braces:"]
          ++ map line_for (PyStr.last_n 10 closes), false).
Proof.
  cbv zeta.
  destruct (scan_finds_all (content_clean content)) as [Hfo Hfc].
  assert (Hloc : all_located (content_clean content) (scan content)).
  { unfold scan, scan_lines, lines_of, PyStr.enumerate.
    apply (FindBracesFacts.scan_lines_located (content_clean content)
             (PyStr.split nl (content_clean content)) [] (Braces [] []));
      [reflexivity | split; constructor]. }
  destruct Hloc as [Hlo Hlc]. rewrite Forall_forall in Hlo, Hlc.
  assert (Hord : in_order (1 + List.length (lines_of content)) 0
                   (scan content)).
  { unfold scan, scan_lines, PyStr.enumerate.
    apply FindBracesMore.scan_lines_in_order. repeat split; constructor. }
  destruct Hord as [[Hso _] [Hsc _]].
  destruct (FindBracesFacts.counts_of_clean content) as [Hno Hnc].
  split; [intros b; split; [apply Hlo | apply Hfo]|].
  split; [intros b; split; [apply Hlc | apply Hfc]|].
  split; [exact Hso|]. split; [exact Hsc|].
  split; [exact Hno|]. split; [exact Hnc|].
  split; [apply FindBracesFacts.last_n_suffix|].
  split; [apply FindBracesFacts.last_n_length|].
  split; [apply FindBracesFacts.last_n_suffix|].
  split; [apply FindBracesFacts.last_n_length|].
  split.
  - unfold find_unbalanced_braces, open_count, close_count. cbn [snd].
    apply Nat.eqb_eq.
  - unfold find_unbalanced_braces, summary_lines, diagnostic_lines,
      difference, open_count, close_count.
    rewrite !(map_ext _ _ show_brace_line).
    destruct (List.length (open_braces (scan content))
              =? List.length (close_braces (scan content)));
      reflexivity.
Qed.

End FindBracesReport.

(** ** The shape of what a pattern matches *)
Module ReShape.
Import Re.

Lemma matches_all_chars (P : ascii -> Prop) :
  forall r before w after, matches r before w after ->
  all_chars P r -> Forall P w.
Proof.
  induction 1; cbn [all_chars]; intros HP;
    try (constructor; fail); try (apply Forall_app; split); intuition auto.
Qed.

Lemma matches_min_len :
  forall r before w after, matches r before w after ->
  min_len r <= List.length w.
Proof.
  induction 1; cbn [min_len List.length]; try rewrite length_app; lia.
Qed.

Lemma star_loop_groups greedy a :
  run_groups a (exec a) ->
  forall fuel, run_groups (Star greedy a)
                 (fun st k => star_loop (exec a) greedy k fuel st).
Proof.
  intros Ha. induction fuel as [|fuel IH]; intros st k m H;
    cbn [star_loop] in H; [discriminate|].
  assert (Hstop : k st = Some m ->
    exists st', k st' = Some m /\ (grp st <> None -> grp st' <> None) /\
                (sets_group (Star greedy a) = true -> grp st' <> None)).
  { intros Hk. exists st. split; [exact Hk|]. split; [auto|].
    cbn [sets_group]. discriminate. }
  assert (Hmore : forall m0,
    exec a st (fun st' => if pos st <? pos st'
                          then star_loop (exec a) greedy k fuel st' else None)
    = Some m0 ->
    exists st', k st' = Some m0 /\ (grp st <> None -> grp st' <> None) /\
                (sets_group (Star greedy a) = true -> grp st' <> None)).
  { intros m0 Hm0. apply Ha in Hm0. destruct Hm0 as [st1 [Hk1 [Hkeep1 _]]].
    destruct (pos st <? pos st1); [|discriminate].
    apply IH in Hk1. destruct Hk1 as [st2 [Hk2 [Hkeep2 _]]].
    exists st2. split; [exact Hk2|]. split; [auto|].
    cbn [sets_group]. discriminate. }
  destruct greedy.
  - destruct (exec a st _) as [m'|] eqn:He.
    + inversion H; subst m'. apply Hmore. reflexivity.
    + apply Hstop. exact H.
  - destruct (k st) as [m'|] eqn:Hk.
    + inversion H; subst m'. apply Hstop. reflexivity.
    + apply Hmore. exact H.
Qed.

Lemma exec_groups r : run_groups r (exec r).
Proof.
  induction r as [|f|a IHa b IHb|a IHa b IHb|g a IHa|a IHa| |f|f];
    intros st k m H; cbn [exec] in H.
  - exists st. split; [exact H|]. split; [auto | discriminate].
  - destruct (rest st) as [|c s]; [discriminate|].
    destruct (f c); [|discriminate].
    eexists. split; [exact H|]. cbn [grp]. split; [auto | discriminate].
  - apply IHa in H. destruct H as [st1 [H [Hkeep1 Hset1]]].
    apply IHb in H. destruct H as [st2 [H [Hkeep2 Hset2]]].
    exists st2. split; [exact H|]. split; [auto|].
    cbn [sets_group]. intros E. apply orb_true_iff in E.
    destruct E as [E|E]; auto.
  - destruct (exec a st k) as [m'|] eqn:He.
    + inversion H; subst m'. apply IHa in He.
      destruct He as [st1 [Hk [Hkeep Hset]]].
      exists st1. split; [exact Hk|]. split; [auto|].
      cbn [sets_group]. intros E. apply andb_true_iff in E. tauto.
    + apply IHb in H. destruct H as [st1 [Hk [Hkeep Hset]]].
      exists st1. split; [exact Hk|]. split; [auto|].
      cbn [sets_group]. intros E. apply andb_true_iff in E. tauto.
  - apply (star_loop_groups g a IHa _ st k m H).
  - apply IHa in H. destruct H as [st1 [Hk _]].
    eexists. split; [exact Hk|]. cbn [grp]. split; discriminate.
  - destruct (xorb _ _); [|discriminate].
    exists st. split; [exact H|]. split; [auto | discriminate].
  - exists st. split; [|split; [auto | discriminate]].
    destruct (prev st) as [c|]; [destruct (f c); [discriminate|]|]; exact H.
  - exists st. split; [|split; [auto | discriminate]].
    destruct (rest st) as [|c tl]; [|destruct (f c); [discriminate|]]; exact H.
Qed.

(** A match of a pattern that goes through a group has its group set. *)
Lemma match_at_group r before s n g :
  sets_group r = true -> match_at r before s = Some (n, g) -> g <> None.
Proof.
  intros Hset H. unfold match_at in H.
  destruct (exec r _ _) as [st|] eqn:He; [|discriminate].
  inversion H; subst n g. apply exec_groups in He.
  destruct He as [st' [Hk [_ Hg]]]. inversion Hk; subst st'. auto.
Qed.

(** For a pattern that goes through a group, what [re.findall] reports is
    a text that a group of the pattern captures. *)
Lemma findall_captured (captured : text -> Prop) r s x :
  has_group r = true -> sets_group r = true -> groups_capture captured r ->
  In x (findall r s) -> captured x.
Proof.
  intros Hgrp Hset Hg H. apply ReSound.findall_from_attempt in H.
  destruct H as [before [s' [[n g] [Hm ->]]]].
  pose proof (match_at_group _ _ _ _ _ Hset Hm) as Hsome.
  apply (ReSound.match_at_sound _ _ _ _ _ _ Hg) in Hm.
  destruct Hm as [w [after [_ [_ [_ Hcap]]]]].
  unfold found. rewrite Hgrp. cbn [snd].
  destruct g as [[a b]|]; [apply Hcap; reflexivity | contradiction].
Qed.

End ReShape.

(** ** tests/code-standards-validator.py: one document *)
Module StandardsMore.
Import Re Standards.
Local Open Scope Z_scope.

Lemma filter_none {A} (f : A -> bool) : forall l,
  (forall x, In x l -> f x = false) -> filter f l = [].
Proof.
  induction l as [|x l IH]; intros H; [reflexivity|]. cbn [filter].
  rewrite (H x) by (left; reflexivity). apply IH. intros y Hy. apply H.
  right. exact Hy.
Qed.

Lemma all_rules r : In r rules.
Proof. destruct r; cbn; tauto. Qed.

(** A document has between 0 and 7 issues; it has none exactly when its
    list of violations is empty, and exactly when no rule fires on it. *)
Theorem file_issue_bounds (file_path : string) (lines : list text)
    (content : text) :
  let m := analyze_file_standards file_path lines content in
  0 <= issues m <= 7 /\
  (issues m = 0 <-> violations m = []) /\
  (issues m = 0 <-> forall r, fires lines content r = false).
Proof.
  cbv zeta. rewrite StandardsFacts.analyze_file_standards_eq.
  cbn [issues violations]. unfold len.
  pose proof (filter_length_le (fires lines content) rules) as Hle.
  change (List.length rules) with 7%nat in Hle.
  split; [lia|]. split.
  - destruct (filter (fires lines content) rules); cbn; split; intros H;
      try reflexivity; try discriminate H; lia.
  - split.
    + intros H r. destruct (fires lines content r) eqn:Hr; [|reflexivity].
      assert (Hin : In r (filter (fires lines content) rules))
        by (apply filter_In; split; [apply all_rules | exact Hr]).
      destruct (filter (fires lines content) rules); [contradiction|].
      cbn [List.length] in H. lia.
    + intros H. rewrite filter_none; [reflexivity|]. intros r _. apply H.
Qed.

(** *** The names the naming rule reports *)

Lemma star_chr_matches greedy (f : ascii -> bool) before w after :
  matches (Star greedy (Chr f)) before w after ->
  Forall (fun c => f c = true) w.
Proof.
  intros H. apply (ReShape.matches_all_chars (fun c => f c = true)) in H;
    [exact H|]. cbn. auto.
Qed.

Lemma camel_group_captures : groups_capture camel_name camel_prop_re.
Proof.
  unfold groups_capture.
  cbv [camel_prop_re seqs lit lit_chars txt list_ascii_of_string plus star
       s_ w_ ch groups app].
  constructor; [|constructor]. intros before w after H.
  inversion H as [| |a b bf w1 w2 af H1 H2| | | | | | | |]; subst.
  inversion H1 as [|f c bf af Hc| | | | | | | | |]; subst.
  apply star_chr_matches in H2.
  exists c, w2. split; [reflexivity|]. split; assumption.
Qed.

Lemma upper_of_lower c :
  PyStr.between 97 122 c = true ->
  PyStr.between 65 90 (PyStr.upper_ascii_char c) = true /\
  PyStr.upper_ascii_char c <> c.
Proof.
  destruct c as [[] [] [] [] [] [] [] []]; intros H;
    try discriminate H; split; try reflexivity; discriminate.
Qed.

(** Every name the naming rule finds starts with a letter from [a] to [z]
    and goes on with word characters; the corrected name that
    [analyze_csharp_violations] proposes starts with the capital of that
    letter and so differs from the name found. *)
Theorem camel_props_shape (content x : text) :
  In x (camel_props content) ->
  camel_name x /\
  (exists c tail, PyStr.capitalize x = c :: tail /\
                  PyStr.between 65 90 c = true) /\
  PyStr.capitalize x <> x.
Proof.
  intros H. unfold camel_props in H.
  apply (ReShape.findall_captured camel_name) in H;
    [| reflexivity | reflexivity | exact camel_group_captures].
  split; [exact H|].
  destruct H as [c [tail [-> [Hc _]]]]. cbn [PyStr.capitalize].
  destruct (upper_of_lower c Hc) as [Hup Hne].
  split; [eauto|]. intros E. inversion E. contradiction.
Qed.

(** A document with one camelCase property. *)
Lemma camel_props_shape_witness :
  camel_name (txt "name") /\
  (exists c tail, PyStr.capitalize (txt "name") = c :: tail /\
                  PyStr.between 65 90 c = true) /\
  PyStr.capitalize (txt "name") <> txt "name".
Proof.
  apply (camel_props_shape property_line (txt "name")).
  vm_compute. left. reflexivity.
Defined.

(** *** The numbers the magic-number rule counts *)

Lemma text_eqb_eq a b : PyStr.text_eqb a b = true <-> a = b.
Proof.
  unfold PyStr.text_eqb. destruct (list_eq_dec ascii_dec a b); split;
    intros H; try reflexivity; try assumption; try discriminate H;
    contradiction.
Qed.

(** Every number counted as a magic number is a run of at least two
    decimal digits, and none of the six accepted numbers. *)
Theorem magic_numbers_shape (content x : text) :
  In x (filtered_magic content) ->
  Forall (fun c => PyStr.isdecimal c = true) x /\
  (2 <= List.length x)%nat /\
  ~ In x acceptable_numbers.
Proof.
  unfold filtered_magic. intros H. apply filter_In in H.
  destruct H as [Hfound Hkeep].
  apply ReSound.findall_whole in Hfound; [|reflexivity].
  destruct Hfound as [before [after Hm]].
  split; [|split].
  - apply (ReShape.matches_all_chars _ _ _ _ _ Hm).
    cbv [magic_number_re seqs at_least_two d_ all_chars]. repeat split; auto.
  - apply ReShape.matches_min_len in Hm. exact Hm.
  - intros Hin. apply negb_true_iff in Hkeep. unfold PyStr.mem in Hkeep.
    assert (Hex : existsb (PyStr.text_eqb x) acceptable_numbers = true).
    { apply existsb_exists. exists x. split; [exact Hin|].
      apply text_eqb_eq. reflexivity. }
    congruence.
Qed.

(** The number 12345 in a line of code. *)
Lemma magic_numbers_shape_witness :
  Forall (fun c => PyStr.isdecimal c = true) (txt "12345") /\
  (2 <= List.length (txt "12345"))%nat /\
  ~ In (txt "12345") acceptable_numbers.
Proof.
  apply (magic_numbers_shape (txt "int port = 12345;") (txt "12345")).
  vm_compute. left. reflexivity.
Defined.

(** *** analyze_csharp_violations *)

Lemma in_enumerate {A} (l : list A) : forall start i x,
  In (i, x) (PyStr.enumerate start l) <->
  (start <= i)%nat /\ nth_error l (i - start) = Some x.
Proof.
  unfold PyStr.enumerate.
  induction l as [|a l IH]; intros start i x; cbn [List.length seq combine].
  - split; [intros [] | intros [_ H]]. destruct (i - start)%nat; discriminate H.
  - cbn [In]. rewrite IH. split.
    + intros [E|[Hle Hnth]].
      * inversion E; subst. rewrite Nat.sub_diag. split; [lia | reflexivity].
      * split; [lia|]. replace (i - start)%nat with (S (i - S start)) by lia.
        exact Hnth.
    + intros [Hle Hnth]. destruct (Nat.eq_dec i start) as [->|Hne].
      * left. rewrite Nat.sub_diag in Hnth. cbn in Hnth. congruence.
      * right. split; [lia|].
        replace (i - start)%nat with (S (i - S start)) in Hnth by lia.
        exact Hnth.
Qed.

Lemma enumerate_sorted {A} (p : nat * A -> bool) (l : list A) : forall start,
  StronglySorted lt (map fst (filter p (PyStr.enumerate start l))) /\
  Forall (fun i => start <= i)%nat
         (map fst (filter p (PyStr.enumerate start l))).
Proof.
  unfold PyStr.enumerate.
  induction l as [|a l IH]; intros start; cbn [List.length seq combine filter].
  - split; constructor.
  - destruct (IH (S start)) as [Hs Hf].
    assert (Hf' : Forall (fun i => start <= i)%nat
                    (map fst (filter p (combine (seq (S start) (List.length l)) l))))
      by (eapply Forall_impl; [|exact Hf]; cbn; intros; lia).
    destruct (p (start, a)); cbn [map fst]; [|split; assumption].
    split.
    + constructor; [exact Hs|]. eapply Forall_impl; [|exact Hf].
      cbn. intros. lia.
    + constructor; [lia | exact Hf'].
Qed.

(** The line numbers reported for long lines are exactly the numbers,
    counted from 1, of the lines with more than 120 characters, in
    ascending order; the violation shows the first five of them. *)
Theorem long_line_numbers_spec (lines : list text) :
  (forall i, In i (long_line_numbers lines) <->
     (1 <= i)%nat /\
     exists line, nth_error lines (i - 1) = Some line /\
                  (120 < List.length line)%nat) /\
  StronglySorted lt (long_line_numbers lines) /\
  v_lines (length_violation lines) = Some (firstn 5 (long_line_numbers lines)) /\
  (List.length (firstn 5 (long_line_numbers lines)) <= 5)%nat.
Proof.
  split; [|split; [|split]].
  - intros i. unfold long_line_numbers. rewrite in_map_iff. split.
    + intros [[j line] [E H]]. cbn in E. subst j. apply filter_In in H.
      destruct H as [Hin Hlong]. apply in_enumerate in Hin.
      destruct Hin as [Hle Hnth]. split; [exact Hle|].
      exists line. split; [exact Hnth|]. cbn [snd] in Hlong.
      apply Nat.ltb_lt. exact Hlong.
    + intros [Hle [line [Hnth Hlong]]]. exists (i, line).
      split; [reflexivity|]. apply filter_In. split.
      * apply in_enumerate. split; assumption.
      * cbn [snd]. apply Nat.ltb_lt. exact Hlong.
  - apply enumerate_sorted.
  - reflexivity.
  - rewrite length_firstn. lia.
Qed.

Lemma count_type_naming t : forall props,
  count_type t (map naming_violation props)
  = if String.eqb "Naming Convention" t then List.length props else 0%nat.
Proof.
  unfold count_type. induction props as [|p props IH]; cbn [map filter].
  - destruct (String.eqb _ t); reflexivity.
  - cbn [v_type naming_violation]. destruct (String.eqb "Naming Convention" t);
      cbn [List.length]; rewrite IH; reflexivity.
Qed.

Lemma count_type_app t vs ws :
  count_type t (vs ++ ws) = (count_type t vs + count_type t ws)%nat.
Proof. unfold count_type. rewrite filter_app, length_app. reflexivity. Qed.

Lemma naming_types : forall props,
  map v_type (map naming_violation props)
  = repeat "Naming Convention"%string (List.length props).
Proof.
  induction props as [|p props IH]; [reflexivity|].
  cbn [map List.length repeat]. rewrite IH. reflexivity.
Qed.

Lemma naming_issues : forall props rest,
  firstn (List.length props)
         (map v_issue (map naming_violation props ++ rest))
  = map (fun prop => ("Property '" ++ PyStr.str prop
                        ++ "' should be PascalCase")%string) props.
Proof.
  induction props as [|p props IH]; intros rest; [reflexivity|].
  cbn [map List.length app firstn]. rewrite IH. reflexivity.
Qed.

(** The list the sample analysis returns, part by part. *)
Lemma csharp_violations_parts (content : text) :
  analyze_csharp_violations (Some content)
  = Some (map naming_violation (camel_props content)
          ++ (if public_decls content >? summaries content
              then [docs_violation content] else [])
          ++ (if nonempty (long_line_numbers (PyStr.split nl content))
              then [length_violation (PyStr.split nl content)] else [])).
Proof.
  cbn [analyze_csharp_violations]. cbv zeta.
  destruct (public_decls content >? summaries content);
    destruct (long_line_numbers (PyStr.split nl content));
    cbn [nonempty]; rewrite ?app_nil_r, <- ?app_assoc; reflexivity.
Qed.

(** The sample analysis returns nothing exactly when the sample file is
    missing.  Otherwise it returns, in this order, one naming violation
    for every camelCase property, in the order the properties are found
    and each with the message of its property, then at most one
    documentation violation, present exactly when there are more public
    members than summaries, then at most one line-length violation,
    present exactly when a line has more than 120 characters; every
    violation is marked fixable. *)
Theorem csharp_violations_outcome (device_file : option text) :
  (analyze_csharp_violations device_file = None <-> device_file = None) /\
  forall content, device_file = Some content ->
  exists vs,
    analyze_csharp_violations device_file = Some vs /\
    Forall (fun v => v_fixable v = true) vs /\
    count_type "Naming Convention" vs = List.length (camel_props content) /\
    count_type "Missing Documentation" vs
    = (if public_decls content >? summaries content then 1 else 0)%nat /\
    count_type "Line Length" vs
    = (if nonempty (long_line_numbers (PyStr.split nl content))
       then 1 else 0)%nat /\
    List.length vs
    = (count_type "Naming Convention" vs
       + count_type "Missing Documentation" vs
       + count_type "Line Length" vs)%nat /\
    map v_type vs
    = repeat "Naming Convention"%string (List.length (camel_props content))
      ++ (if public_decls content >? summaries content
          then ["Missing Documentation"%string] else [])
      ++ (if nonempty (long_line_numbers (PyStr.split nl content))
          then ["Line Length"%string] else []) /\
    firstn (List.length (camel_props content)) (map v_issue vs)
    = map (fun prop => ("Property '" ++ PyStr.str prop
                          ++ "' should be PascalCase")%string)
          (camel_props content).
Proof.
  split.
  - destruct device_file; cbn; split; intros H; try reflexivity;
      discriminate H.
  - intros content ->. rewrite csharp_violations_parts.
    eexists. split; [reflexivity|].
    assert (Hmap : Forall (fun v => v_fixable v = true)
                     (map naming_violation (camel_props content)))
      by (apply Forall_forall; intros v Hv; apply in_map_iff in Hv;
          destruct Hv as [p [<- _]]; reflexivity).
    split; [|split; [|split; [|split; [|split; [|split]]]]].
    + apply Forall_app. split; [exact Hmap|]. apply Forall_app. split.
      * destruct (public_decls content >? summaries content);
          repeat constructor.
      * destruct (nonempty _); repeat constructor.
    + rewrite !count_type_app, count_type_naming.
      destruct (public_decls content >? summaries content);
        destruct (nonempty _); cbn; lia.
    + rewrite !count_type_app, count_type_naming.
      destruct (public_decls content >? summaries content);
        destruct (nonempty _); cbn; lia.
    + rewrite !count_type_app, count_type_naming.
      destruct (public_decls content >? summaries content);
        destruct (nonempty _); cbn; lia.
    + rewrite !count_type_app, !count_type_naming, !length_app, length_map.
      destruct (public_decls content >? summaries content);
        destruct (nonempty _); cbn; lia.
    + rewrite !map_app, naming_types.
      destruct (public_decls content >? summaries content);
        destruct (nonempty _); reflexivity.
    + apply naming_issues.
Qed.

(** The property line of the end-to-end example as the sample file. *)
Lemma csharp_violations_outcome_witness :
  exists vs,
    analyze_csharp_violations (Some property_line) = Some vs /\
    Forall (fun v => v_fixable v = true) vs /\
    count_type "Naming Convention" vs = List.length (camel_props property_line) /\
    count_type "Missing Documentation" vs
    = (if public_decls property_line >? summaries property_line
       then 1 else 0)%nat /\
    count_type "Line Length" vs
    = (if nonempty (long_line_numbers (PyStr.split nl property_line))
       then 1 else 0)%nat /\
    List.length vs
    = (count_type "Naming Convention" vs
       + count_type "Missing Documentation" vs
       + count_type "Line Length" vs)%nat /\
    map v_type vs
    = repeat "Naming Convention"%string
             (List.length (camel_props property_line))
      ++ (if public_decls property_line >? summaries property_line
          then ["Missing Documentation"%string] else [])
      ++ (if nonempty (long_line_numbers (PyStr.split nl property_line))
          then ["Line Length"%string] else []) /\
    firstn (List.length (camel_props property_line)) (map v_issue vs)
    = map (fun prop => ("Property '" ++ PyStr.str prop
                          ++ "' should be PascalCase")%string)
          (camel_props property_line).
Proof.
  apply (proj2 (csharp_violations_outcome (Some property_line)) property_line).
  reflexivity.
Defined.

End StandardsMore.

(** ** tests/code-standards-validator.py: the repository *)
Module RepositoryFacts.
Import Re Standards.
Local Open Scope Z_scope.

Lemma sum_over_cons {A} (g : A -> Z) x l :
  sum_over g (x :: l) = g x + sum_over g l.
Proof. reflexivity. Qed.

Lemma sum_over_app {A} (g : A -> Z) : forall l1 l2,
  sum_over g (l1 ++ l2) = sum_over g l1 + sum_over g l2.
Proof.
  induction l1 as [|x l1 IH]; intros l2; cbn [app].
  - cbn. lia.
  - rewrite !sum_over_cons, IH. lia.
Qed.

Lemma sum_over_nonneg {A} (g : A -> Z) : (forall x, 0 <= g x) ->
  forall l, 0 <= sum_over g l.
Proof.
  intros Hg. induction l as [|x l IH]; [cbn; lia|].
  rewrite sum_over_cons. specialize (Hg x). lia.
Qed.

Lemma b2z_range b : 0 <= b2z b <= 1.
Proof. destruct b; cbn; lia. Qed.

Lemma complex_methods_in_nonneg f : 0 <= complex_methods_in f.
Proof.
  unfold complex_methods_in, len. destruct (snd f); lia.
Qed.

Lemma files_firing_cons r f fs :
  files_firing r (f :: fs) = b2z (fires_on r f) + files_firing r fs.
Proof.
  unfold files_firing, len. cbn [filter].
  destruct (fires_on r f); cbn [b2z List.length]; lia.
Qed.

Lemma files_firing_app r : forall l1 l2,
  files_firing r (l1 ++ l2) = files_firing r l1 + files_firing r l2.
Proof.
  intros l1 l2. unfold files_firing, len.
  rewrite filter_app, length_app. lia.
Qed.

Lemma files_firing_nonneg r fs : 0 <= files_firing r fs.
Proof. unfold files_firing, len. lia. Qed.

(** The entries of [file_details] are added file by file. *)
Lemma analyze_all_details : forall cs_files acc,
  snd (fold_left analyze_one cs_files acc)
  = snd acc ++ flat_map detail_of cs_files.
Proof.
  induction cs_files as [|f fs IH]; intros acc; cbn [fold_left flat_map].
  - rewrite app_nil_r. reflexivity.
  - rewrite IH. unfold analyze_one, detail_of, metrics_of.
    destruct (snd f) as [file_text|]; cbn [snd]; [|reflexivity].
    destruct (issues _ >? 0); cbn [snd app]; [|reflexivity].
    rewrite <- app_assoc. reflexivity.
Qed.

Lemma file_details_eq cs_files :
  res_file_details (analyze_repository_standards cs_files)
  = flat_map detail_of cs_files.
Proof.
  unfold analyze_repository_standards, analyze_all.
  pose proof (analyze_all_details cs_files (no_metrics, [])) as H.
  destruct (fold_left analyze_one cs_files (no_metrics, [])) as [a details].
  cbn [snd app res_file_details] in H |- *. exact H.
Qed.

Lemma issues_found_eq cs_files :
  issues_found (res_summary (analyze_repository_standards cs_files))
  = sum_over found_in cs_files.
Proof.
  pose proof (StandardsFacts.severity_buckets cs_files) as H.
  cbv zeta in H. destruct H as [Hc [Hj [Hn _]]].
  assert (Hsum : issues_found (res_summary (analyze_repository_standards cs_files))
    = critical (res_issues (analyze_repository_standards cs_files))
      + major (res_issues (analyze_repository_standards cs_files))
      + minor (res_issues (analyze_repository_standards cs_files))).
  { unfold analyze_repository_standards.
    destruct (analyze_all cs_files). reflexivity. }
  rewrite Hsum, Hc, Hj, Hn. clear.
  induction cs_files as [|f fs IH].
  - reflexivity.
  - rewrite !files_firing_cons, !sum_over_cons, <- IH. unfold found_in. lia.
Qed.

(** The severity buckets, rule by rule.  Five of the six sums behind them
    count the files on which a rule fires; the complexity sum counts
    methods.  No bucket is negative, [fixable] leaves the critical bucket
    out, and [issues_found] is the sum of the three buckets. *)
Theorem buckets_by_rule (cs_files : list cs_file) :
  let results := analyze_repository_standards cs_files in
  let i := res_issues results in
  critical i = files_firing Secrets cs_files /\
  major i = files_firing Documentation cs_files
            + files_firing Naming cs_files
            + sum_over complex_methods_in cs_files /\
  minor i = files_firing LineLength cs_files
            + files_firing UsingStatements cs_files
            + files_firing MagicNumbers cs_files /\
  fixable i = major i + minor i /\
  issues_found (res_summary results) = critical i + major i + minor i /\
  files_analyzed (res_summary results) = len cs_files /\
  0 <= critical i /\ 0 <= major i /\ 0 <= minor i.
Proof.
  cbv zeta. pose proof (StandardsFacts.severity_buckets cs_files) as H.
  cbv zeta in H. destruct H as [Hc [Hj [Hn Hf]]].
  split; [exact Hc|]. split; [exact Hj|]. split; [exact Hn|].
  split; [exact Hf|].
  pose proof (files_firing_nonneg Secrets cs_files).
  pose proof (files_firing_nonneg Documentation cs_files).
  pose proof (files_firing_nonneg Naming cs_files).
  pose proof (files_firing_nonneg LineLength cs_files).
  pose proof (files_firing_nonneg UsingStatements cs_files).
  pose proof (files_firing_nonneg MagicNumbers cs_files).
  pose proof (sum_over_nonneg _ complex_methods_in_nonneg cs_files).
  split; [|split; [|lia]].
  - unfold analyze_repository_standards. destruct (analyze_all cs_files).
    reflexivity.
  - unfold analyze_repository_standards. destruct (analyze_all cs_files).
    reflexivity.
Qed.

(** *** A report without issues *)

Lemma found_in_nonneg f : 0 <= found_in f.
Proof.
  unfold found_in.
  pose proof (b2z_range (fires_on LineLength f)).
  pose proof (b2z_range (fires_on Documentation f)).
  pose proof (b2z_range (fires_on Naming f)).
  pose proof (b2z_range (fires_on UsingStatements f)).
  pose proof (b2z_range (fires_on Secrets f)).
  pose proof (b2z_range (fires_on MagicNumbers f)).
  pose proof (complex_methods_in_nonneg f). lia.
Qed.

(** A file adds nothing to [issues_found] exactly when it gets no entry in
    [file_details]. *)
Lemma found_in_zero f : found_in f = 0 <-> detail_of f = [].
Proof.
  unfold found_in, detail_of, fires_on, complex_methods_in, metrics_of.
  destruct (snd f) as [file_text|]; [|cbn; tauto].
  rewrite StandardsFacts.analyze_file_standards_eq. cbn [issues violations].
  assert (Hmc : fires (PyStr.readlines file_text)
                  (List.concat (PyStr.readlines file_text)) MethodComplexity
                = nonempty (complex_blocks
                              (List.concat (PyStr.readlines file_text))))
    by reflexivity.
  generalize dependent (complex_blocks (List.concat (PyStr.readlines file_text))).
  generalize (message (PyStr.readlines file_text)
                (List.concat (PyStr.readlines file_text))).
  generalize (fires (PyStr.readlines file_text)
                (List.concat (PyStr.readlines file_text))).
  intros fired msg blocks Hmc. unfold rules, len. cbn [filter]. rewrite Hmc.
  destruct (fired LineLength), (fired Documentation), (fired Naming),
    (fired UsingStatements), (fired Secrets), (fired MagicNumbers),
    blocks as [|block blocks];
    cbn [nonempty b2z List.length map]; cbn;
    split; intros H; try reflexivity; try discriminate H; lia.
Qed.

Lemma sum_over_zero {A} (g : A -> Z) : (forall x, 0 <= g x) ->
  forall l, sum_over g l = 0 <-> forall x, In x l -> g x = 0.
Proof.
  intros Hg. induction l as [|x l IH].
  - cbn. split; [intros _ y [] | reflexivity].
  - rewrite sum_over_cons. pose proof (Hg x) as Hx.
    pose proof (sum_over_nonneg g Hg l) as Hl. split.
    + intros H y [<-|Hy]; [lia|]. apply IH; [lia | exact Hy].
    + intros H. rewrite (H x) by (left; reflexivity).
      rewrite (proj2 IH); [reflexivity|]. intros y Hy. apply H. right. exact Hy.
Qed.

Lemma flat_map_nil {A B} (g : A -> list B) : forall l,
  flat_map g l = [] <-> forall x, In x l -> g x = [].
Proof.
  induction l as [|x l IH]; cbn [flat_map].
  - split; [intros _ y [] | reflexivity].
  - split.
    + intros H. apply app_eq_nil in H. destruct H as [Hx Hl].
      intros y [<-|Hy]; [exact Hx | apply IH; assumption].
    + intros H. rewrite (H x) by (left; reflexivity). cbn [app].
      apply IH. intros y Hy. apply H. right. exact Hy.
Qed.

Lemma totals_nonneg cs_files r :
  0 <= total_flag (fst (analyze_all cs_files)) r.
Proof.
  unfold analyze_all. rewrite StandardsFacts.analyze_all_totals.
  rewrite (StandardsFacts.sum_over_ext _ _ (StandardsFacts.flag_of_file r)).
  assert (H0 : total_flag (fst (no_metrics, @nil file_detail)) r = 0)
    by (destruct r; reflexivity).
  rewrite H0. apply Z.add_nonneg_nonneg; [lia|].
  apply sum_over_nonneg. intros f.
  destruct r; try apply b2z_range; apply complex_methods_in_nonneg.
Qed.

(** The summary list is empty exactly when the seven sums are zero. *)
Lemma violation_list_nil a :
  (forall r, 0 <= total_flag a r) ->
  (violation_list a = [] <->
   sum_hardcoded_strings a
   + (sum_missing_docs a + sum_camel_case_props a + sum_complex_methods a)
   + (sum_long_lines a + sum_unused_usings a + sum_magic_numbers a) = 0).
Proof.
  intros H.
  pose proof (H LineLength) as H1. pose proof (H Documentation) as H2.
  pose proof (H Naming) as H3. pose proof (H UsingStatements) as H4.
  pose proof (H Secrets) as H5. pose proof (H MagicNumbers) as H6.
  pose proof (H MethodComplexity) as H7. cbn [total_flag] in *.
  unfold violation_list, when.
  destruct (Z.gtb_spec (sum_camel_case_props a) 0),
    (Z.gtb_spec (sum_missing_docs a) 0), (Z.gtb_spec (sum_long_lines a) 0),
    (Z.gtb_spec (sum_unused_usings a) 0),
    (Z.gtb_spec (sum_hardcoded_strings a) 0),
    (Z.gtb_spec (sum_complex_methods a) 0),
    (Z.gtb_spec (sum_magic_numbers a) 0);
    cbn [app]; split; intros E; try reflexivity; try discriminate E; lia.
Qed.

Lemma violation_list_length a : (List.length (violation_list a) <= 7)%nat.
Proof.
  unfold violation_list, when.
  destruct (sum_camel_case_props a >? 0), (sum_missing_docs a >? 0),
    (sum_long_lines a >? 0), (sum_unused_usings a >? 0),
    (sum_hardcoded_strings a >? 0), (sum_complex_methods a >? 0),
    (sum_magic_numbers a >? 0); cbn [app List.length]; lia.
Qed.

(** The report of a run without issues, seen from each of its parts:
    [issues_found] is 0 exactly when the summary list of violations is
    empty, when no file has an entry in [file_details], when the quality
    score is 100, and when the last status line reports success.  In
    every run the score lies between 5 and 100, at most seven summary
    lines are written, and the five checks are split into passed and
    failed. *)
Theorem clean_report (cs_files : list cs_file) :
  let results := analyze_repository_standards cs_files in
  let found := issues_found (res_summary results) in
  (found = 0 <-> res_violations results = []) /\
  (found = 0 <-> res_file_details results = []) /\
  (found = 0 <-> calculate_quality_score results = 100) /\
  (found = 0 <-> reports_clean results = true) /\
  5 <= calculate_quality_score results <= 100 /\
  (List.length (res_violations results) <= 7)%nat /\
  passed (res_summary results) + failed (res_summary results) = 5 /\
  0 <= failed (res_summary results) <= 5 /\
  (failed (res_summary results) = 0 <-> found = 0).
Proof.
  cbv zeta.
  assert (Hdetails : issues_found
                       (res_summary (analyze_repository_standards cs_files)) = 0
                     <-> res_file_details
                           (analyze_repository_standards cs_files) = []).
  { rewrite issues_found_eq, file_details_eq.
    rewrite (sum_over_zero _ found_in_nonneg), flat_map_nil.
    split; intros H f Hf; apply found_in_zero; apply H; exact Hf. }
  split; [|split; [exact Hdetails|]]; clear Hdetails;
    pose proof (totals_nonneg cs_files) as Hnn;
    unfold analyze_repository_standards, reports_clean,
      calculate_quality_score in *;
    destruct (analyze_all cs_files) as [a details]; cbn [fst] in Hnn;
    pose proof (violation_list_nil a Hnn) as Hnil;
    pose proof (violation_list_length a) as Hlen;
    pose proof (Hnn LineLength) as H1; pose proof (Hnn Documentation) as H2;
    pose proof (Hnn Naming) as H3; pose proof (Hnn UsingStatements) as H4;
    pose proof (Hnn Secrets) as H5; pose proof (Hnn MagicNumbers) as H6;
    pose proof (Hnn MethodComplexity) as H7;
    cbn [total_flag res_summary res_issues res_violations issues_found
         categorize critical major minor passed failed] in *.
  - rewrite Hnil. tauto.
  - split; [lia|]. split.
    + destruct (Z.gtb_spec
                  (sum_hardcoded_strings a
                   + (sum_missing_docs a + sum_camel_case_props a
                      + sum_complex_methods a)
                   + (sum_long_lines a + sum_unused_usings a
                      + sum_magic_numbers a)) 0);
        cbn [negb]; split; intros E; try reflexivity; try discriminate E; lia.
    + split; [lia|]. split; [exact Hlen|]. unfold len.
      split; [lia|]. split; [lia|].
      destruct (violation_list a) eqn:Hv.
      * cbn [List.length]. assert (Hz := proj1 Hnil eq_refl). lia.
      * cbn [List.length]. split; intros E; [lia|].
        apply Hnil in E. discriminate E.
Qed.

(** *** The entries of file_details *)

(** [file_details] holds, in the order of the walk, one entry for every
    file that could be read and has an issue.  An entry carries the path
    of its file, between 1 and 7 issues, and as many violation messages
    as issues. *)
Theorem file_details_listing (cs_files : list cs_file) :
  let details := res_file_details (analyze_repository_standards cs_files) in
  details = flat_map detail_of cs_files /\
  Forall (fun d => 1 <= fd_issues d <= 7 /\
                   fd_issues d = len (fd_violations d) /\
                   exists f, In f cs_files /\ snd f <> None /\
                             fd_file d = fst f) details.
Proof.
  cbv zeta. rewrite file_details_eq. split; [reflexivity|].
  apply Forall_forall. intros d Hd. apply in_flat_map in Hd.
  destruct Hd as [f [Hf Hd]]. unfold detail_of, metrics_of in Hd.
  destruct (snd f) as [file_text|] eqn:Hread; [|contradiction].
  rewrite StandardsFacts.analyze_file_standards_eq in Hd.
  cbn [issues violations] in Hd.
  destruct (Z.gtb_spec
              (len (filter (fires (PyStr.readlines file_text)
                              (List.concat (PyStr.readlines file_text)))
                      rules)) 0) as [Hpos|Hpos]; [|contradiction].
  destruct Hd as [<-|[]]. cbn [fd_issues fd_violations fd_file].
  pose proof (filter_length_le
                (fires (PyStr.readlines file_text)
                   (List.concat (PyStr.readlines file_text))) rules) as Hle.
  change (List.length rules) with 7%nat in Hle. unfold len in *.
  split; [lia|]. split; [rewrite length_map; reflexivity|].
  exists f. split; [exact Hf|]. split; [congruence | reflexivity].
Qed.

(** *** Files that cannot be read, and runs over two parts *)

Lemma analyze_all_skip path (before after : list cs_file) :
  analyze_all (before ++ (path, None) :: after) = analyze_all (before ++ after).
Proof. unfold analyze_all. rewrite !fold_left_app. reflexivity. Qed.

(** A file that cannot be read is counted in [files_analyzed] and leaves
    every other part of the report as it is without that file. *)
Theorem unreadable_file_skipped (path : string) (before after : list cs_file) :
  let with_file := analyze_repository_standards
                     (before ++ (path, None) :: after) in
  let without := analyze_repository_standards (before ++ after) in
  res_issues with_file = res_issues without /\
  res_violations with_file = res_violations without /\
  res_file_details with_file = res_file_details without /\
  issues_found (res_summary with_file) = issues_found (res_summary without) /\
  passed (res_summary with_file) = passed (res_summary without) /\
  failed (res_summary with_file) = failed (res_summary without) /\
  calculate_quality_score with_file = calculate_quality_score without /\
  files_analyzed (res_summary with_file)
  = files_analyzed (res_summary without) + 1.
Proof.
  cbv zeta. unfold analyze_repository_standards, calculate_quality_score.
  rewrite analyze_all_skip. destruct (analyze_all (before ++ after)).
  cbn [res_issues res_violations res_file_details res_summary issues_found
       passed failed files_analyzed].
  repeat (split; [reflexivity|]).
  unfold len. rewrite !length_app. cbn [List.length]. lia.
Qed.

(** The buckets of a run over two lists of files are the sums of the
    buckets of the two runs, and its [file_details] are theirs, one after
    the other. *)
Theorem analysis_of_two_parts (first second : list cs_file) :
  let both := analyze_repository_standards (first ++ second) in
  let one := analyze_repository_standards first in
  let two := analyze_repository_standards second in
  critical (res_issues both)
  = critical (res_issues one) + critical (res_issues two) /\
  major (res_issues both) = major (res_issues one) + major (res_issues two) /\
  minor (res_issues both) = minor (res_issues one) + minor (res_issues two) /\
  fixable (res_issues both)
  = fixable (res_issues one) + fixable (res_issues two) /\
  issues_found (res_summary both)
  = issues_found (res_summary one) + issues_found (res_summary two) /\
  res_file_details both = res_file_details one ++ res_file_details two.
Proof.
  cbv zeta.
  destruct (StandardsFacts.severity_buckets (first ++ second))
    as [Hc [Hj [Hn Hf]]].
  destruct (StandardsFacts.severity_buckets first) as [Hc1 [Hj1 [Hn1 Hf1]]].
  destruct (StandardsFacts.severity_buckets second) as [Hc2 [Hj2 [Hn2 Hf2]]].
  rewrite !issues_found_eq, !file_details_eq, flat_map_app, sum_over_app.
  rewrite Hf, Hf1, Hf2, Hc, Hj, Hn, Hc1, Hj1, Hn1, Hc2, Hj2, Hn2.
  rewrite !files_firing_app, sum_over_app.
  repeat split; lia.
Qed.

(** *** The listing of the files that need attention *)

Lemma insert_file_perm x : forall l, Permutation (insert_file x l) (x :: l).
Proof.
  induction l as [|y l IH]; cbn [insert_file]; [reflexivity|].
  destruct (fd_issues x <? fd_issues y); [|reflexivity].
  rewrite IH. apply perm_swap.
Qed.

Lemma sorted_files_perm : forall l, Permutation (sorted_files l) l.
Proof.
  induction l as [|x l IH]; cbn [sorted_files fold_right]; [reflexivity|].
  rewrite insert_file_perm. constructor. exact IH.
Qed.

Lemma insert_file_sorted x : forall l,
  StronglySorted more_issues l -> StronglySorted more_issues (insert_file x l).
Proof.
  induction l as [|y l IH]; intros Hs; cbn [insert_file].
  - repeat constructor.
  - inversion Hs as [|y' l' Hl Hy]; subst.
    destruct (Z.ltb_spec (fd_issues x) (fd_issues y)) as [Hlt|Hge].
    + constructor; [apply IH; exact Hl|].
      apply (Permutation_Forall (Permutation_sym (insert_file_perm x l))).
      constructor; [unfold more_issues; lia | exact Hy].
    + constructor; [exact Hs|]. constructor; [unfold more_issues; lia|].
      eapply Forall_impl; [|exact Hy]. unfold more_issues. intros z Hz. lia.
Qed.

Lemma sorted_files_sorted : forall l, StronglySorted more_issues (sorted_files l).
Proof.
  induction l as [|x l IH]; cbn [sorted_files fold_right]; [constructor|].
  apply insert_file_sorted. exact IH.
Qed.

Lemma insert_file_stable v x : forall l,
  with_issues v (insert_file x l) = with_issues v (x :: l).
Proof.
  unfold with_issues.
  induction l as [|y l IH]; cbn [insert_file]; [reflexivity|].
  destruct (Z.ltb_spec (fd_issues x) (fd_issues y)) as [Hlt|Hge];
    [|reflexivity].
  cbn [filter] in IH |- *. rewrite IH.
  destruct (Z.eqb_spec (fd_issues x) v), (Z.eqb_spec (fd_issues y) v);
    try reflexivity; lia.
Qed.

Lemma sorted_files_stable v : forall l,
  with_issues v (sorted_files l) = with_issues v l.
Proof.
  induction l as [|x l IH]; cbn [sorted_files fold_right]; [reflexivity|].
  rewrite insert_file_stable. fold (sorted_files l).
  unfold with_issues in *. cbn [filter]. rewrite IH. reflexivity.
Qed.

Lemma sorted_app_order {A} (R : A -> A -> Prop) : forall l1 l2,
  StronglySorted R (l1 ++ l2) ->
  StronglySorted R l1 /\ forall x y, In x l1 -> In y l2 -> R x y.
Proof.
  induction l1 as [|a l1 IH]; intros l2 H; cbn [app] in H.
  - split; [constructor | intros x y []].
  - inversion H as [|a' l' Hl Ha]; subst. destruct (IH l2 Hl) as [Hs Hxy].
    apply Forall_app in Ha. destruct Ha as [Ha1 Ha2]. split.
    + constructor; assumption.
    + intros x y [<-|Hx] Hy; [|auto].
      rewrite Forall_forall in Ha2. auto.
Qed.

(** The files listed as needing attention are at most five entries of
    [file_details], in descending order of their number of issues; no
    file left out has more issues than a file listed, and files with the
    same number of issues keep the order they had. *)
Theorem top_files_listing (results : analysis_results) :
  let details := res_file_details results in
  let top := top_files results in
  List.length top = Nat.min 5 (List.length details) /\
  StronglySorted more_issues top /\
  (exists others,
     Permutation (top ++ others) details /\
     forall x y, In x top -> In y others -> fd_issues y <= fd_issues x) /\
  (forall v, with_issues v (sorted_files details) = with_issues v details).
Proof.
  cbv zeta. unfold top_files.
  pose proof (sorted_files_sorted (res_file_details results)) as Hs.
  pose proof (sorted_files_perm (res_file_details results)) as Hp.
  rewrite <- (firstn_skipn 5 (sorted_files (res_file_details results))) in Hs.
  apply sorted_app_order in Hs. destruct Hs as [Htop Horder].
  split; [|split; [exact Htop|split]].
  - rewrite length_firstn, (Permutation_length Hp). reflexivity.
  - exists (skipn 5 (sorted_files (res_file_details results))).
    rewrite firstn_skipn. split; [exact Hp|].
    intros x y Hx Hy. apply (Horder x y Hx Hy).
  - intros v. apply sorted_files_stable.
Qed.

End RepositoryFacts.

(** ** run-all-tests.py: discovery, the Python tests and the whole run *)
Module RunnerMore.
Import Runner.

Lemma filter_all {A} (f : A -> bool) : forall l,
  Forall (fun x => f x = true) l -> filter f l = l.
Proof.
  induction 1 as [|x l Hx Hl IH]; cbn [filter]; [reflexivity|].
  rewrite Hx, IH. reflexivity.
Qed.

Lemma filter_rejects_all {A} (f : A -> bool) : forall l,
  Forall (fun x => f x = false) l -> filter f l = [].
Proof.
  induction 1 as [|x l Hx Hl IH]; cbn [filter]; [reflexivity|].
  rewrite Hx. exact IH.
Qed.

Lemma filter_split {A} (f : A -> bool) : forall l,
  List.length (filter f l) + List.length (filter (fun x => negb (f x)) l)
  = List.length l.
Proof.
  induction l as [|x l IH]; cbn [filter]; [reflexivity|].
  destruct (f x); cbn [negb List.length]; lia.
Qed.

Lemma simulated_tests_always_pass_aux test_scripts :
  List.length (simulate_powershell_tests test_scripts) = ps_count test_scripts /\
  Forall (fun r => is_pass r = true) (simulate_powershell_tests test_scripts).
Proof.
  split; [apply length_map | apply RunnerFacts.simulated_pass].
Qed.

(** Every simulated test passes: the simulation returns one result for
    each PowerShell entry, under the entry's name and in the order of the
    entries, and none of them is a failure. *)
Theorem simulated_tests_always_pass (test_scripts : list script) :
  let results := simulate_powershell_tests test_scripts in
  map r_name results = map s_name (filter is_powershell test_scripts) /\
  Forall (fun r => r_status r = "PASS"%string) results /\
  List.length results = ps_count test_scripts /\
  failures results = 0.
Proof.
  cbv zeta. pose proof (RunnerFacts.simulated_pass test_scripts) as Hpass.
  split; [|split; [|split]].
  - unfold simulate_powershell_tests, is_powershell. rewrite map_map.
    apply map_ext. intros s. reflexivity.
  - eapply Forall_impl; [|exact Hpass]. intros r Hr.
    apply String.eqb_eq. exact Hr.
  - unfold simulate_powershell_tests, ps_count. apply length_map.
  - unfold failures. rewrite filter_rejects_all; [reflexivity|].
    eapply Forall_impl; [|exact Hpass]. intros r Hr. cbn. rewrite Hr.
    reflexivity.
Qed.

(** The report counts the simulated tests as passed, so only Python tests
    can fail.  Up to 100 tests the process exits with 0 exactly when at
    least one test ran and at most one test in five failed. *)
Theorem exit_by_failures (test_scripts : list script)
    (python_results : list result) :
  let report := generate_comprehensive_report python_results
                  (simulate_powershell_tests test_scripts) in
  total_tests report = List.length python_results + ps_count test_scripts /\
  failed report = failures python_results /\
  passed report + failed report = total_tests report /\
  (total_tests report <= 100 ->
   (exit_status test_scripts python_results = 0%Z <->
    0 < total_tests report /\
    5 * failures python_results <= total_tests report)).
Proof.
  cbv zeta.
  destruct (simulated_tests_always_pass_aux test_scripts) as [Hlen Hall].
  assert (Hpassed :
    passed (generate_comprehensive_report python_results
              (simulate_powershell_tests test_scripts))
    = List.length (filter is_pass python_results) + ps_count test_scripts).
  { cbn [generate_comprehensive_report passed].
    rewrite filter_app, length_app, (filter_all is_pass _ Hall), Hlen.
    reflexivity. }
  assert (Htotal :
    total_tests (generate_comprehensive_report python_results
                   (simulate_powershell_tests test_scripts))
    = List.length python_results + ps_count test_scripts).
  { cbn [generate_comprehensive_report total_tests]. rewrite Hlen.
    reflexivity. }
  pose proof (filter_split is_pass python_results) as Hsplit.
  fold (failures python_results) in Hsplit.
  assert (Hfailed :
    failed (generate_comprehensive_report python_results
              (simulate_powershell_tests test_scripts))
    = failures python_results).
  { change (failed (generate_comprehensive_report python_results
                      (simulate_powershell_tests test_scripts)))
      with (total_tests (generate_comprehensive_report python_results
                           (simulate_powershell_tests test_scripts))
            - passed (generate_comprehensive_report python_results
                        (simulate_powershell_tests test_scripts))).
    rewrite Htotal, Hpassed. lia. }
  split; [exact Htotal|]. split; [exact Hfailed|].
  split; [rewrite Hfailed, Hpassed, Htotal; lia|].
  intros Hsmall. unfold exit_status, main. cbv zeta.
  change (success_rate (generate_comprehensive_report python_results
                          (simulate_powershell_tests test_scripts)))
    with (rate (passed (generate_comprehensive_report python_results
                          (simulate_powershell_tests test_scripts)))
               (total_tests (generate_comprehensive_report python_results
                               (simulate_powershell_tests test_scripts)))).
  rewrite RunnerFacts.rate_exact
    by (try exact Hsmall; apply RunnerFacts.passed_le_total).
  rewrite Hpassed, Htotal in *. unfold meets_threshold.
  destruct (Nat.ltb_spec 0 (List.length python_results + ps_count test_scripts));
    destruct (Nat.leb_spec
                (80 * (List.length python_results + ps_count test_scripts))
                (100 * (List.length (filter is_pass python_results)
                        + ps_count test_scripts)));
    cbn [andb]; cbv iota; split; intros E; try reflexivity;
    try discriminate E; lia.
Qed.

(** *** Discovery *)

Lemma ps_count_discover path_exists :
  ps_count (discover_test_scripts path_exists)
  = List.length (filter (fun np => path_exists (snd np)) ps_scripts).
Proof.
  unfold ps_count, discover_test_scripts. rewrite filter_app, length_app.
  rewrite (filter_all _ (map ps_entry _)), (filter_rejects_all _ (map py_entry _)),
    length_map; [cbn [List.length]; lia | |];
    apply Forall_forall; intros s Hs; apply in_map_iff in Hs;
    destruct Hs as [np [<- _]]; reflexivity.
Qed.

(** Discovery returns the entries of the two tables whose path exists and
    no other, the PowerShell scripts first and each table in its order:
    at most ten scripts, at most eight of them PowerShell scripts. *)
Theorem discovery_spec (path_exists : string -> bool) :
  let found := discover_test_scripts path_exists in
  (forall s, In s found <->
     (exists np, In np ps_scripts /\ path_exists (snd np) = true /\
                 s = ps_entry np) \/
     (exists np, In np py_scripts /\ path_exists (snd np) = true /\
                 s = py_entry np)) /\
  (forall s, In s found -> path_exists (s_path s) = true) /\
  map s_path found
  = filter path_exists (map snd ps_scripts ++ map snd py_scripts) /\
  List.length found <= 10 /\
  ps_count found <= 8.
Proof.
  cbv zeta.
  assert (Hin : forall s, In s (discover_test_scripts path_exists) <->
     (exists np, In np ps_scripts /\ path_exists (snd np) = true /\
                 s = ps_entry np) \/
     (exists np, In np py_scripts /\ path_exists (snd np) = true /\
                 s = py_entry np)).
  { intros s. unfold discover_test_scripts. rewrite in_app_iff, !in_map_iff.
    split; (intros [[np H]|[np H]]; [left | right]); exists np;
      rewrite filter_In in *; intuition auto. }
  split; [exact Hin|]. split; [|split; [|split]].
  - intros s Hs. apply Hin in Hs.
    destruct Hs as [[np [_ [Hex ->]]]|[np [_ [Hex ->]]]]; exact Hex.
  - unfold discover_test_scripts. rewrite map_app, filter_app, !map_map.
    f_equal.
    + generalize ps_scripts. induction l as [|np l IH]; [reflexivity|].
      cbn [filter map]. destruct (path_exists (snd np)); cbn [map];
        rewrite IH; reflexivity.
    + generalize py_scripts. induction l as [|np l IH]; [reflexivity|].
      cbn [filter map]. destruct (path_exists (snd np)); cbn [map];
        rewrite IH; reflexivity.
  - unfold discover_test_scripts. rewrite length_app, !length_map.
    pose proof (filter_length_le (fun np => path_exists (snd np)) ps_scripts) as H1.
    pose proof (filter_length_le (fun np => path_exists (snd np)) py_scripts) as H2.
    change (List.length ps_scripts) with 8 in H1.
    change (List.length py_scripts) with 2 in H2. lia.
  - rewrite ps_count_discover.
    pose proof (filter_length_le (fun np => path_exists (snd np)) ps_scripts) as H1.
    change (List.length ps_scripts) with 8 in H1. exact H1.
Qed.

(** *** The Python tests *)

(** There are at most two Python results, one for each of the two test
    files that exists, the demo first and each under its own name.  The
    result of a file is a pass exactly when its child process returned 0,
    and a failure when it returned another code or could not be run to
    its end. *)
Theorem python_tests_spec (path_exists : string -> bool)
    (run : string -> outcome) :
  let results := run_python_tests path_exists run in
  List.length results <= 2 /\
  List.length results
  = (if path_exists demo_path then 1 else 0)
    + (if path_exists validator_path then 1 else 0) /\
  failures results
  = (if (path_exists demo_path && negb (ended_well (run demo_path)))%bool
     then 1 else 0)
    + (if (path_exists validator_path
           && negb (ended_well (run validator_path)))%bool then 1 else 0) /\
  Forall (fun r => r_status r = "PASS"%string \/ r_status r = "FAIL"%string)
         results /\
  map r_name results
  = (if path_exists demo_path then ["Demo Testing System"%string] else [])
    ++ (if path_exists validator_path
        then ["Test System Validator"%string] else []) /\
  (forall r, In r results -> r_name r = "Demo Testing System"%string ->
     (r_status r = "PASS"%string <-> run demo_path = Exited 0) /\
     (r_status r = "FAIL"%string <-> run demo_path <> Exited 0)) /\
  (forall r, In r results -> r_name r = "Test System Validator"%string ->
     (r_status r = "PASS"%string <-> run validator_path = Exited 0) /\
     (r_status r = "FAIL"%string <-> run validator_path <> Exited 0)).
Proof.
  cbv zeta.
  assert (Hstatus : forall name o,
            (r_status (python_result name o) = "PASS"%string <-> o = Exited 0)
            /\ (r_status (python_result name o) = "FAIL"%string
                <-> o <> Exited 0)).
  { intros name [returncode|]; cbn [python_result].
    - destruct (Z.eqb_spec returncode 0) as [->|Hne]; cbn [r_status].
      + split; split; intros H;
          first [reflexivity | discriminate H | exfalso; apply H; reflexivity].
      + split; split; intros H;
          first [reflexivity | discriminate H
                | exfalso; apply Hne; injection H as H; exact H
                | intros E; apply Hne; injection E as E; exact E].
    - cbn [r_status]. split; split; intros H;
        first [reflexivity | discriminate H | discriminate]. }
  split; [|split; [|split; [|split; [|split; [|split]]]]].
  - unfold run_python_tests.
    destruct (path_exists demo_path), (path_exists validator_path); cbn; lia.
  - unfold run_python_tests.
    destruct (path_exists demo_path), (path_exists validator_path);
      reflexivity.
  - unfold run_python_tests, failures.
    destruct (path_exists demo_path), (path_exists validator_path);
      cbn [app List.length andb];
      destruct (run demo_path) as [[|p|p]|],
               (run validator_path) as [[|q|q]|];
      reflexivity.
  - unfold run_python_tests.
    destruct (path_exists demo_path), (path_exists validator_path);
      cbn [app];
      destruct (run demo_path) as [[|p|p]|],
               (run validator_path) as [[|q|q]|];
      repeat (apply Forall_cons;
              [first [left; reflexivity | right; reflexivity]|]);
      apply Forall_nil.
  - unfold run_python_tests.
    destruct (path_exists demo_path), (path_exists validator_path);
      cbn [app map];
      destruct (run demo_path), (run validator_path); reflexivity.
  - intros r Hin Hname. unfold run_python_tests in Hin.
    apply in_app_or in Hin. destruct Hin as [Hin|Hin].
    + destruct (path_exists demo_path); [|destruct Hin].
      destruct Hin as [<-|[]]. apply Hstatus.
    + destruct (path_exists validator_path); [|destruct Hin].
      destruct Hin as [<-|[]]. exfalso.
      destruct (run validator_path); discriminate Hname.
  - intros r Hin Hname. unfold run_python_tests in Hin.
    apply in_app_or in Hin. destruct Hin as [Hin|Hin].
    + destruct (path_exists demo_path); [|destruct Hin].
      destruct Hin as [<-|[]]. exfalso.
      destruct (run demo_path); discriminate Hname.
    + destruct (path_exists validator_path); [|destruct Hin].
      destruct Hin as [<-|[]]. apply Hstatus.
Qed.

(** *** The whole run *)

(** When the eight PowerShell validators exist the run exits with 0
    whatever the Python tests do: eight simulated passes out of at most
    ten tests are never below the threshold. *)
Theorem simulated_passes_decide (path_exists : string -> bool)
    (run : string -> outcome) :
  (forall path, In path (map snd ps_scripts) -> path_exists path = true) ->
  run_all path_exists run = 0%Z.
Proof.
  intros Hps. unfold run_all, discover_test_scripts, run_python_tests.
  rewrite (filter_all (fun np => path_exists (snd np)) ps_scripts)
    by (apply Forall_forall; intros np Hnp; apply Hps; apply in_map; exact Hnp).
  unfold py_scripts. cbn [filter snd].
  change "tests/demo-testing-system.py"%string with demo_path.
  change "tests/test-testing-system.py"%string with validator_path.
  destruct (path_exists demo_path), (path_exists validator_path);
    destruct (run demo_path) as [[|p|p]|], (run validator_path) as [[|q|q]|];
    vm_compute; reflexivity.
Qed.

(** Every script exists and both Python tests cannot be run. *)
Lemma simulated_passes_decide_witness :
  run_all (fun _ => true) (fun _ => Raised) = 0%Z.
Proof.
  apply (simulated_passes_decide (fun _ => true) (fun _ => Raised)).
  intros path _. reflexivity.
Defined.

(** A run that finds none of the listed scripts has no test to report and
    exits with 1. *)
Theorem empty_run_fails (path_exists : string -> bool)
    (run : string -> outcome) :
  (forall path, In path (map snd ps_scripts ++ map snd py_scripts) ->
                path_exists path = false) ->
  discover_test_scripts path_exists = [] /\
  run_python_tests path_exists run = [] /\
  run_all path_exists run = 1%Z.
Proof.
  intros Hnone.
  assert (Hps : filter (fun np => path_exists (snd np)) ps_scripts = []).
  { apply filter_rejects_all. apply Forall_forall. intros np Hnp. apply Hnone.
    apply in_or_app. left. apply in_map. exact Hnp. }
  assert (Hpy : filter (fun np => path_exists (snd np)) py_scripts = []).
  { apply filter_rejects_all. apply Forall_forall. intros np Hnp. apply Hnone.
    apply in_or_app. right. apply in_map. exact Hnp. }
  assert (Hdemo : path_exists demo_path = false)
    by (apply Hnone; vm_compute; tauto).
  assert (Hval : path_exists validator_path = false)
    by (apply Hnone; vm_compute; tauto).
  unfold run_all, discover_test_scripts, run_python_tests.
  rewrite Hps, Hpy, Hdemo, Hval. repeat split; reflexivity.
Qed.

(** A directory without any of the scripts. *)
Lemma empty_run_fails_witness :
  discover_test_scripts (fun _ => false) = [] /\
  run_python_tests (fun _ => false) (fun _ => Exited 0) = [] /\
  run_all (fun _ => false) (fun _ => Exited 0) = 1%Z.
Proof.
  apply (empty_run_fails (fun _ => false) (fun _ => Exited 0)).
  intros path _. reflexivity.
Defined.

End RunnerMore.

(** ** scripts/pre-commit-quality-check.py *)
Module PreCommitFacts.
Import Re Standards PreCommit.
Local Open Scope Z_scope.

Lemma file_block_nil file_path content :
  file_block file_path content = [] <-> file_issues content = [].
Proof.
  unfold file_block. destruct (file_issues content); cbn [app];
    split; intros H; try reflexivity; discriminate H.
Qed.

(** A file adds nothing to the output when it has no issue; otherwise it
    adds a header, a line for each of its first five issues and, when it
    has more, one line for the others: at most seven lines. *)
Theorem file_block_shape (file_path content : text) :
  let n := List.length (file_issues content) in
  let block := file_block file_path content in
  (block = [] <-> n = 0%nat) /\
  (n <> 0%nat ->
   List.length block
   = (1 + Nat.min 5 n + (if (5 <? n)%nat then 1 else 0))%nat /\
   hd_error block = Some (String nl (PyStr.str file_path ++ ":"))) /\
  (List.length block <= 7)%nat.
Proof.
  cbv zeta. unfold file_block.
  destruct (file_issues content) as [|issue issues] eqn:Hissues.
  - cbn. split; [tauto|]. split; [intros H; contradiction | lia].
  - rewrite <- Hissues. split; [|split].
    + rewrite Hissues. split; intros H; discriminate H.
    + intros _. cbn [app List.length hd_error]. split; [|reflexivity].
      rewrite length_app, length_map, length_firstn. unfold more_line.
      destruct (5 <? List.length (file_issues content))%nat; reflexivity.
    + cbn [app List.length].
      rewrite length_app, length_map, length_firstn. unfold more_line.
      destruct (5 <? List.length (file_issues content))%nat;
        cbn [List.length]; lia.
Qed.

Lemma flat_map_all_nil {A B} (g : A -> list B) : forall l,
  flat_map g l = [] <-> forall x, In x l -> g x = [].
Proof.
  induction l as [|x l IH]; cbn [flat_map].
  - split; [intros _ y [] | reflexivity].
  - split.
    + intros H. apply app_eq_nil in H. destruct H as [Hx Hl].
      intros y [<-|Hy]; [exact Hx | apply IH; assumption].
    + intros H. rewrite (H x) by (left; reflexivity). cbn [app].
      apply IH. intros y Hy. apply H. right. exact Hy.
Qed.

Lemma check_nil git read :
  check_csharp_files git read = [] <->
  exists stdout, git = Some stdout /\
    forall file_path content, In file_path (staged_files stdout) ->
      read file_path = Some content -> file_issues content = [].
Proof.
  unfold check_csharp_files. destruct git as [stdout|].
  - assert (Hflat :
      flat_map (fun file_path => match read file_path with
                                 | None => []
                                 | Some content => file_block file_path content
                                 end) (staged_files stdout) = [] <->
      forall file_path content, In file_path (staged_files stdout) ->
        read file_path = Some content -> file_issues content = []).
    { rewrite flat_map_all_nil. split.
      - intros H p c Hp Hr. specialize (H p Hp). rewrite Hr in H.
        apply file_block_nil in H. exact H.
      - intros H p Hp. destruct (read p) as [c|] eqn:Hr; [|reflexivity].
        apply file_block_nil. apply (H p c Hp Hr). }
    destruct (staged_files stdout) as [|p ps] eqn:Hstaged.
    + split; [|reflexivity]. intros _. exists stdout.
      split; [reflexivity|]. rewrite Hstaged. intros ? ? [].
    + rewrite Hflat. split.
      * intros H. exists stdout. rewrite Hstaged. split; [reflexivity | exact H].
      * intros [stdout' [E H]]. inversion E; subst stdout'.
        rewrite Hstaged in H. exact H.
  - split; [intros H; discriminate H | intros [stdout [E _]]; discriminate E].
Qed.

(** The hook lets a commit through, with status 0, exactly when it runs
    inside a git repository, the list of staged files could be read, and
    no staged C# file that exists has an issue; otherwise it exits with
    1.  A staged path that does not exist is passed over. *)
Theorem hook_exit_status (in_git : bool) (git : option text)
    (read : text -> option text) :
  (main in_git git read = 0 <->
   in_git = true /\
   exists stdout, git = Some stdout /\
     forall file_path content, In file_path (staged_files stdout) ->
       read file_path = Some content -> file_issues content = []) /\
  (main in_git git read = 0 \/ main in_git git read = 1) /\
  (git = None -> check_csharp_files git read
                 = ["Failed to get staged files"%string]).
Proof.
  split; [|split].
  - rewrite <- check_nil. unfold main. destruct in_git; cbn [negb].
    + destruct (check_csharp_files git read); split.
      * intros _. split; reflexivity.
      * intros _. reflexivity.
      * intros H. discriminate H.
      * intros [_ H]. discriminate H.
    + split; [intros H; discriminate H | intros [H _]; discriminate H].
  - unfold main. destruct in_git; cbn [negb]; [|right; reflexivity].
    destruct (check_csharp_files git read); [left | right]; reflexivity.
  - intros ->. reflexivity.
Qed.

(** The hook and the sample analysis agree on a file.  The hook finds no
    issue in a text exactly when the sample analysis of that text returns
    no violation and the text has at most three magic numbers of three
    digits or more; the hook's property messages are the issue texts of
    the naming violations. *)
Theorem hook_agrees_with_sample_analysis (content : text) :
  (file_issues content = [] <->
   analyze_csharp_violations (Some content) = Some [] /\
   len (PreCommit.filtered_magic content) <= 3) /\
  map property_issue (camel_props content)
  = map v_issue (map naming_violation (camel_props content)) /\
  List.length (line_issues (PyStr.split nl content))
  = List.length (long_line_numbers (PyStr.split nl content)).
Proof.
  split; [|split].
  - unfold file_issues, analyze_csharp_violations, line_issues,
      long_line_numbers, magic_issues, docs_issues.
    cbv zeta.
    destruct (filter (fun il => (120 <? List.length (snd il))%nat)
                (PyStr.enumerate 1 (PyStr.split nl content))) as [|il ils];
      destruct (camel_props content) as [|prop props];
      destruct (Z.gtb_spec (len (PreCommit.filtered_magic content)) 3);
      destruct (Z.gtb_spec (public_decls content) (summaries content));
      destruct (Z.gtb_spec (public_decls content) 0);
      cbn [map app andb];
      unfold public_decls, summaries, len in *;
      split; intros E; try discriminate E;
      try (match type of E with
           | _ /\ _ => destruct E as [E1 E2]; try discriminate E1
           end);
      try reflexivity; try (split; [reflexivity|]); lia.
  - rewrite map_map. reflexivity.
  - unfold line_issues, long_line_numbers. rewrite !length_map. reflexivity.
Qed.

End PreCommitFacts.

(** ** Lines: readlines, split and strip *)
Module LinesFacts.
Import PyStr.

(** How [readlines] and [split] cut one text. *)
Lemma lines_shape (s : text) :
  exists bodies last,
    split nl s = bodies ++ [last] /\
    readlines s = map (fun b => b ++ [nl]) bodies ++ last_line last /\
    Forall (fun b => ~ In nl b) (bodies ++ [last]) /\
    List.concat (readlines s) = s.
Proof.
  induction s as [|c s IH].
  - exists [], []. cbn. repeat split. repeat constructor. intros [].
  - destruct IH as [bodies [last [Hsplit [Hread [Hnl Hcat]]]]].
    cbn [split readlines]. destruct (Ascii.eqb c nl) eqn:Hc.
    + apply Ascii.eqb_eq in Hc. subst c.
      exists ([] :: bodies), last. rewrite Hsplit, Hread. cbn [map app].
      repeat split.
      * constructor; [intros [] | exact Hnl].
      * cbn [List.concat app]. rewrite <- Hread, Hcat. reflexivity.
    + apply Ascii.eqb_neq in Hc. rewrite Hsplit, Hread.
      destruct bodies as [|b bodies]; cbn [map app] in *.
      * exists [], (c :: last). inversion Hnl as [|x l Hlast _]; subst.
        destruct last as [|d last]; cbn [last_line app] in *;
          (repeat split;
           [constructor; [|constructor]; intros [E|E]; [congruence | auto]
           | cbn [List.concat app]; rewrite <- Hcat, Hread; cbn;
             rewrite ?app_nil_r; reflexivity]).
      * exists ((c :: b) :: bodies), last.
        inversion Hnl as [|x l Hb Hrest]; subst. repeat split.
        -- constructor; [intros [E|E]; [congruence | auto] | exact Hrest].
        -- cbn [List.concat app] in Hcat |- *. rewrite <- Hcat, Hread.
           reflexivity.
Qed.

(** The lines of [f.readlines()] and of [content.split('\n')] are the
    same lines.  [readlines] gives every line with its newline and no
    empty last line; [split] gives them without newline, with a last line
    that is empty when the text ends with a newline (or is empty).
    Joining what [readlines] returns gives the text back. *)
Theorem readlines_and_split (s : text) :
  exists bodies last,
    split nl s = bodies ++ [last] /\
    readlines s = map (fun b => b ++ [nl]) bodies ++ last_line last /\
    Forall (fun b => ~ In nl b) (bodies ++ [last]) /\
    List.concat (readlines s) = s.
Proof. exact (lines_shape s). Qed.

Lemma lstrip_length : forall s, List.length (lstrip s) <= List.length s.
Proof.
  induction s as [|c s IH]; cbn [lstrip List.length]; [lia|].
  destruct (isspace c); cbn [List.length]; lia.
Qed.

Lemma rstrip_length s : List.length (rstrip s) <= List.length s.
Proof.
  unfold rstrip. rewrite length_rev.
  rewrite <- (length_rev s). apply lstrip_length.
Qed.

(** Stripping never makes a line longer. *)
Lemma strip_length s : List.length (strip s) <= List.length s.
Proof.
  unfold strip. eapply Nat.le_trans; [apply rstrip_length | apply lstrip_length].
Qed.

Lemma lstrip_app : forall b t,
  lstrip (b ++ t) = match lstrip b with
                    | [] => lstrip t
                    | _ :: _ => lstrip b ++ t
                    end.
Proof.
  induction b as [|c b IH]; intros t; cbn [app lstrip].
  - destruct (lstrip t); reflexivity.
  - destruct (isspace c); [apply IH | reflexivity].
Qed.

(** Stripping a line takes its newline off. *)
Lemma strip_newline b : List.length (strip (b ++ [nl])) <= List.length b.
Proof.
  unfold strip. rewrite lstrip_app.
  destruct (lstrip b) as [|c rest] eqn:Hb.
  - cbn. lia.
  - unfold rstrip. rewrite rev_app_distr. cbn [rev app lstrip].
    replace (isspace nl) with true by reflexivity. cbv iota.
    rewrite length_rev.
    eapply Nat.le_trans; [apply lstrip_length|].
    rewrite length_app, length_rev. cbn [List.length].
    pose proof (lstrip_length b) as H. rewrite Hb in H.
    cbn [List.length] in H. lia.
Qed.

End LinesFacts.

(** ** The three line-length checks on one file *)
Module LineLengthFacts.
Import PyStr Standards.
Local Open Scope Z_scope.

Lemma filter_snd_enumerate {A} (p : A -> bool) : forall (l : list A) start,
  List.length (filter (fun il => p (snd il)) (enumerate start l))
  = List.length (filter p l).
Proof.
  unfold enumerate.
  induction l as [|x l IH]; intros start; cbn [List.length seq combine filter];
    [reflexivity|].
  cbn [snd]. destruct (p x); cbn [List.length]; rewrite IH; reflexivity.
Qed.

Lemma filter_map_le {A B} (p : B -> bool) (q : A -> bool) (g : A -> B) :
  (forall x, p (g x) = true -> q x = true) ->
  forall l, (List.length (filter p (map g l)) <= List.length (filter q l))%nat.
Proof.
  intros H. induction l as [|x l IH]; cbn [map filter]; [cbn; lia|].
  destruct (p (g x)) eqn:Hp.
  - rewrite (H x Hp). cbn [List.length]. lia.
  - destruct (q x); cbn [List.length]; lia.
Qed.

(** A line that the validator counts as long, more than 120 characters
    after stripping, is a line that the sample analysis and the hook
    count as long, more than 120 characters as it stands.  So when the
    validator's line-length rule fires on a file, the sample analysis has
    a line number to report and the hook has a line issue. *)
Theorem stripped_long_lines_are_long (s : text) :
  long_line_count (readlines s) <= len (long_line_numbers (split nl s)) /\
  (fires (readlines s) s LineLength = true ->
   long_line_numbers (split nl s) <> [] /\
   PreCommit.line_issues (split nl s) <> []).
Proof.
  assert (Hle : long_line_count (readlines s)
                <= len (long_line_numbers (split nl s))).
  { destruct (LinesFacts.lines_shape s)
      as [bodies [last [Hsplit [Hread _]]]].
    unfold long_line_count, long_line_numbers, len.
    assert (Hen :
      List.length (filter (fun il : nat * list ascii =>
                             (120 <? List.length (snd il))%nat)
                          (enumerate 1 (split nl s)))
      = List.length (filter (fun l : text => (120 <? List.length l)%nat)
                            (split nl s)))
      by apply (filter_snd_enumerate (fun l : text => (120 <? List.length l)%nat)).
    rewrite length_map, Hen, Hsplit, Hread, !filter_app, !length_app.
    apply inj_le. apply Nat.add_le_mono.
    - apply filter_map_le. intros b Hb. apply Nat.ltb_lt in Hb.
      apply Nat.ltb_lt. pose proof (LinesFacts.strip_newline b). lia.
    - destruct last as [|c last]; cbn [last_line filter]; [cbn; lia|].
      pose proof (LinesFacts.strip_length (c :: last)) as Hst.
      destruct (Nat.ltb_spec 120 (List.length (strip (c :: last))));
        destruct (Nat.ltb_spec 120 (List.length (c :: last)));
        cbn [List.length] in *; lia. }
  split; [exact Hle|]. cbn [fires]. intros Hfire.
  apply Z.gtb_lt in Hfire.
  assert (Hpos : 0 < len (long_line_numbers (split nl s))) by lia.
  unfold len in Hpos. split.
  - intros E. rewrite E in Hpos. cbn in Hpos. lia.
  - unfold PreCommit.line_issues. intros E. apply map_eq_nil in E.
    assert (E2 : long_line_numbers (split nl s) = [])
      by exact (f_equal (map fst) E).
    rewrite E2 in Hpos. cbn in Hpos. lia.
Qed.

(** A file with one line of 121 letters. *)
Lemma stripped_long_lines_are_long_witness :
  long_line_numbers (split nl (repeat "a"%char 121)) <> [] /\
  PreCommit.line_issues (split nl (repeat "a"%char 121)) <> [].
Proof.
  apply (proj2 (stripped_long_lines_are_long (repeat "a"%char 121))).
  vm_compute. reflexivity.
Defined.

End LineLengthFacts.

(** ** The matcher finds every match *)
Module ReComplete.
Import Re.

Lemma state_eta st : MState (pos st) (prev st) (rest st) (grp st) = st.
Proof. destruct st. reflexivity. Qed.

(** The matcher is complete: when the pattern matches a prefix of the
    remaining text and the continuation accepts the state behind it,
    whatever the group, the run succeeds. *)
Lemma exec_complete : forall r before w after,
  matches r before w after ->
  forall st k,
    rest st = w ++ after -> prev st = before ->
    (forall g, k (MState (pos st + List.length w) (char_before before w)
                    after g) <> None) ->
    exec r st k <> None.
Proof.
  induction 1 as [before after | f c before after Hf
                 | a b before w1 w2 after H1 IH1 H2 IH2
                 | a b before w after H1 IH1 | a b before w after H1 IH1
                 | greedy a before after
                 | greedy a before w1 w2 after Hne H1 IH1 H2 IH2
                 | a before w after H1 IH1
                 | before after Hx | f before after Hb | f before after Ha];
    intros st k Hr Hp Hk.
  - cbn [exec]. specialize (Hk (grp st)). cbn [app List.length] in *.
    rewrite Nat.add_0_r, <- Hr, <- Hp, state_eta in Hk. exact Hk.
  - cbn [exec]. rewrite Hr. cbn [app]. rewrite Hf.
    specialize (Hk (grp st)). cbn [List.length char_before fold_left] in Hk.
    replace (pos st + 1) with (S (pos st)) in Hk by lia. exact Hk.
  - cbn [exec]. apply IH1; [rewrite Hr; symmetry; apply app_assoc | exact Hp |].
    intros g. apply IH2; [reflexivity | reflexivity |]. intros g'.
    cbn [pos]. specialize (Hk g').
    rewrite length_app, ReSound.char_before_app, Nat.add_assoc in Hk.
    exact Hk.
  - cbn [exec]. destruct (exec a st k) eqn:E; [discriminate|].
    exfalso. apply (IH1 st k Hr Hp Hk E).
  - cbn [exec]. destruct (exec a st k); [discriminate|].
    apply IH1; assumption.
  - assert (Hst : k st <> None).
    { specialize (Hk (grp st)). cbn [app List.length] in *.
      rewrite Nat.add_0_r, <- Hr, <- Hp, state_eta in Hk. exact Hk. }
    rewrite ReMore.exec_star. cbn [star_loop]. destruct greedy.
    + destruct (exec a st _); [discriminate | exact Hst].
    + destruct (k st); [discriminate | contradiction].
  - rewrite ReMore.exec_star. cbn [star_loop].
    assert (Hmore :
      exec a st (fun st' => if pos st <? pos st'
                            then star_loop (exec a) greedy k
                                   (List.length (rest st)) st'
                            else None) <> None).
    { apply IH1; [rewrite Hr; symmetry; apply app_assoc | exact Hp |].
      intros g. cbn [pos].
      assert (Hlen : 0 < List.length w1)
        by (destruct w1; [contradiction | cbn; lia]).
      rewrite (proj2 (Nat.ltb_lt _ _)) by lia.
      rewrite (ReFacts.star_loop_enough (exec a) (ReFacts.exec_ext a) greedy k
                 (List.length (rest st)) (S (List.length (w2 ++ after))));
        [| cbn [rest]; rewrite Hr, !length_app; lia | cbn [rest]; lia].
      change (star_loop (exec a) greedy k (S (List.length (w2 ++ after)))
                (MState (pos st + List.length w1) (char_before before w1)
                   (w2 ++ after) g))
        with (exec (Star greedy a)
                (MState (pos st + List.length w1) (char_before before w1)
                   (w2 ++ after) g) k).
      apply IH2; [reflexivity | reflexivity |]. intros g'. cbn [pos].
      specialize (Hk g').
      rewrite length_app, ReSound.char_before_app, Nat.add_assoc in Hk.
      exact Hk. }
    destruct greedy.
    + destruct (exec a st _); [discriminate | contradiction].
    + destruct (k st); [discriminate | exact Hmore].
  - cbn [exec]. apply IH1; [exact Hr | exact Hp |]. intros g. cbn [pos prev rest].
    apply Hk.
  - cbn [exec]. unfold word_before, word_after. rewrite Hr, Hp.
    cbn [app]. rewrite Hx. specialize (Hk (grp st)).
    cbn [app List.length] in *.
    rewrite Nat.add_0_r, <- Hr, <- Hp, state_eta in Hk. exact Hk.
  - cbn [exec]. assert (Hst : k st <> None).
    { specialize (Hk (grp st)). cbn [app List.length] in *.
      rewrite Nat.add_0_r, <- Hr, <- Hp, state_eta in Hk. exact Hk. }
    rewrite Hp. destruct before as [c|]; [|exact Hst].
    rewrite (Hb c eq_refl). exact Hst.
  - cbn [exec]. assert (Hst : k st <> None).
    { specialize (Hk (grp st)). cbn [app List.length] in *.
      rewrite Nat.add_0_r, <- Hr, <- Hp, state_eta in Hk. exact Hk. }
    rewrite Hr. cbn [app]. destruct after as [|c tl]; [exact Hst|].
    rewrite (Ha c tl eq_refl). exact Hst.
Qed.

Lemma match_at_complete r before w after :
  matches r before w after -> match_at r before (w ++ after) <> None.
Proof.
  intros H. unfold match_at.
  pose proof (exec_complete r before w after H
                (MState 0 before (w ++ after) None) (fun st => Some st)
                eq_refl eq_refl) as Hc.
  destruct (exec r _ _); [discriminate|].
  exfalso. apply Hc; [intros g; discriminate | reflexivity].
Qed.

(** A pattern occurs in a text, for [re.search] and [re.findall], exactly
    when it matches some part of the text. *)
Lemma occurs_matches r s :
  occurs r s <->
  exists pre w after,
    s = pre ++ w ++ after /\ matches r (char_before None pre) w after.
Proof.
  unfold occurs, occurs_from. split.
  - intros [pre [suf [Hs Hm]]].
    destruct (match_at r (char_before None pre) suf) as [[n g]|] eqn:E;
      [|contradiction].
    assert (Hg : groups_capture (fun _ => True) r)
      by (apply Forall_forall; intros; exact I).
    apply (ReSound.match_at_sound _ _ _ _ _ _ Hg) in E.
    destruct E as [w [after [-> [_ [Hw _]]]]]. exists pre, w, after.
    split; assumption.
  - intros [pre [w [after [Hs Hm]]]]. exists pre, (w ++ after).
    split; [exact Hs | apply match_at_complete; exact Hm].
Qed.

(** A literal matches its own text and no other. *)
Lemma lit_matches : forall t before after, matches (lit_chars t) before t after.
Proof.
  induction t as [|c t IH]; intros before after; [constructor|].
  destruct t as [|d t].
  - cbn [lit_chars]. constructor. apply Ascii.eqb_refl.
  - change (lit_chars (c :: d :: t)) with (Seq (ch c) (lit_chars (d :: t))).
    change (c :: d :: t) with ([c] ++ d :: t).
    constructor; [constructor; apply Ascii.eqb_refl | apply IH].
Qed.

Lemma matches_lit : forall t before w after,
  matches (lit_chars t) before w after -> w = t.
Proof.
  induction t as [|c t IH]; intros before w after H.
  - inversion H; reflexivity.
  - destruct t as [|d t].
    + cbn [lit_chars] in H. inversion H; subst.
      match goal with E : Ascii.eqb c _ = true |- _ =>
        apply Ascii.eqb_eq in E; subst end. reflexivity.
    + change (lit_chars (c :: d :: t)) with (Seq (ch c) (lit_chars (d :: t)))
        in H.
      inversion H as [| |a b bf w1 w2 af H1 H2| | | | | | | |]; subst.
      apply IH in H2. subst w2. inversion H1; subst.
      match goal with E : Ascii.eqb c _ = true |- _ =>
        apply Ascii.eqb_eq in E; subst end. reflexivity.
Qed.

End ReComplete.

(** ** The two patterns of the secrets rule *)
Module SecretsFacts.
Import Re Standards.

(** A match of the second pattern ends with a match of the first: the
    names [api_key], [apikey] and [auth_token] end with [key] or
    [token]. *)
Lemma second_ends_with_first before w after :
  matches second_secret_pattern before w after ->
  exists skip w',
    w = skip ++ w' /\
    matches first_secret_pattern (char_before before skip) w' after.
Proof.
  cbv [first_secret_pattern second_secret_pattern hardcoded_patterns hd tl].
  cbn [seqs alts assigned_literal]. unfold lit. intros H.
  inversion H as [| |a b bf w1 w2 af H1 H2| | | | | | | |]; subst. clear H.
  inversion H1 as [| | | | | | |a bf w af Hn| | |]; subst. clear H1.
  assert (Hcases :
    (w1 = txt "api_" ++ txt "key" \/ w1 = txt "api" ++ txt "key")
    \/ w1 = txt "auth_" ++ txt "token").
  { inversion Hn as [| | |a b bf w af Ha|a b bf w af Hb| | | | | |]; subst.
    - apply (ReComplete.matches_lit (txt "api_key")) in Ha.
      left. left. exact Ha.
    - inversion Hb as [| | |a b bf w af Ha|a b bf w af Hc| | | | | |]; subst.
      + apply (ReComplete.matches_lit (txt "apikey")) in Ha.
        left. right. exact Ha.
      + apply (ReComplete.matches_lit (txt "auth_token")) in Hc.
        right. exact Hc. }
  destruct Hcases as [[-> | ->] | ->].
  - exists (txt "api_"), (txt "key" ++ w2). split; [symmetry; apply app_assoc|].
    constructor.
    + constructor. apply M_Alt_r, M_Alt_r, M_Alt_l.
      apply (ReComplete.lit_matches (txt "key")).
    + rewrite <- ReSound.char_before_app. exact H2.
  - exists (txt "api"), (txt "key" ++ w2). split; [symmetry; apply app_assoc|].
    constructor.
    + constructor. apply M_Alt_r, M_Alt_r, M_Alt_l.
      apply (ReComplete.lit_matches (txt "key")).
    + rewrite <- ReSound.char_before_app. exact H2.
  - exists (txt "auth_"), (txt "token" ++ w2). split; [symmetry; apply app_assoc|].
    constructor.
    + constructor. apply M_Alt_r, M_Alt_r, M_Alt_r.
      apply (ReComplete.lit_matches (txt "token")).
    + rewrite <- ReSound.char_before_app. exact H2.
Qed.

(** The second pattern of the secrets rule never decides: wherever it
    occurs the first pattern occurs too.  So the rule fires exactly when
    some part of the lower-cased text is matched by the first pattern,
    and it gives the same answer for two texts that differ only in the
    case of their letters. *)
Theorem second_secret_pattern_redundant (lines : list text) (content : text) :
  (occurs second_secret_pattern (PyStr.lower content) ->
   occurs first_secret_pattern (PyStr.lower content)) /\
  (fires lines content Secrets = true <->
   exists pre w after,
     PyStr.lower content = pre ++ w ++ after /\
     matches first_secret_pattern (char_before None pre) w after) /\
  (forall lines' content',
     PyStr.lower content' = PyStr.lower content ->
     fires lines' content' Secrets = fires lines content Secrets).
Proof.
  assert (Hsub : forall s, occurs second_secret_pattern s ->
                           occurs first_secret_pattern s).
  { intros s H. apply ReComplete.occurs_matches in H.
    destruct H as [pre [w [after [-> Hm]]]].
    apply second_ends_with_first in Hm.
    destruct Hm as [skip [w' [-> Hm]]].
    apply ReComplete.occurs_matches. exists (pre ++ skip), w', after.
    split; [rewrite <- !app_assoc; reflexivity|].
    rewrite ReSound.char_before_app. exact Hm. }
  split; [apply Hsub|]. split.
  - rewrite StandardsFacts.secrets_fire_iff, <- ReComplete.occurs_matches.
    split.
    + intros [pattern [Hin Hocc]].
      destruct Hin as [<-|[<-|[]]]; [exact Hocc | apply Hsub; exact Hocc].
    + intros H. exists first_secret_pattern. split; [left; reflexivity | exact H].
  - intros lines' content' E. cbn [fires]. rewrite E. reflexivity.
Qed.

End SecretsFacts.
